(** * Watchdog daemon (Tier 0): reconciliation-and-escalation tick

    A shallow embedding of the daemon module of the repository, the file
    that exports [startDaemon] and [runDaemonTick] ([runDaemonTick],
    [executeEscalationAction], [loadSessions], [saveSessions]), and the
    properties of one tick and of consecutive ticks.

    Modelling conventions.
    - Timestamps are ISO-8601 strings in the registry; the code only ever
      produces them with [new Date().toISOString()] and reads them back with
      [new Date(s).getTime()], which is the identity on millisecond instants.
      A timestamp is therefore an integer number of milliseconds ([Z]).
    - JavaScript numbers are integers here ([Z]); the one place where the
      code can leave the integers, [Math.floor(stalledMs / nudgeIntervalMs)]
      with a zero divisor, is modelled by [JsNum].
    - Every collaborator (liveness probe, kill, nudge, triage, observer) is an
      oracle that answers from the history of the run so far and either
      returns or throws; every call is recorded in the trace.
    - An awaited call that throws makes the enclosing async function throw,
      unless it sits in a [try { } catch { }]; [attempt] is that block. *)

From Stdlib Require Import ZArith String Ascii Bool Lia.
From stdpp Require Import base option list gmap strings.

Local Open Scope Z_scope.

(* ================================================================== *)
(** ** Data model *)

(** Modelled from the spec: [types.ts] is not part of the sources. The four
    lifecycle states are the ones section 3 of the specification lists. *)
Inductive AgentState : Type := booting | working | zombie | completed.

Inductive HealthAction : Type :=
  | ActNone | ActEscalate | ActInvestigate | ActTerminate.

Inductive TriageVerdict : Type := TriageRetry | TriageTerminate | TriageExtend.

#[global] Instance AgentState_eq_dec : EqDecision AgentState.
Proof. solve_decision. Defined.

#[global] Instance HealthAction_eq_dec : EqDecision HealthAction.
Proof. solve_decision. Defined.

#[global] Instance TriageVerdict_eq_dec : EqDecision TriageVerdict.
Proof. solve_decision. Defined.

(** The session record, with the fields [makeSession] of
    [src/commands/nudge.test.ts] fills in. The types of the two escalation
    fields are parameters: in memory they are a number and a timestamp or
    [null]; in [sessions.json] either may also be absent. *)
Record SessionRecord (L S : Type) : Type := mkSession {
  sessionId : string;
  agentName : string;
  capability : string;
  worktreePath : string;
  branchName : string;
  beadId : string;
  tmuxSession : string;
  state : AgentState;
  pid : Z;
  parentAgent : option string;
  depth : Z;
  startedAt : Z;
  lastActivity : Z;
  escalationLevel : L;
  stalledSince : S
}.
Arguments mkSession {L S}.
Arguments sessionId {L S}.
Arguments agentName {L S}.
Arguments capability {L S}.
Arguments worktreePath {L S}.
Arguments branchName {L S}.
Arguments beadId {L S}.
Arguments tmuxSession {L S}.
Arguments state {L S}.
Arguments pid {L S}.
Arguments parentAgent {L S}.
Arguments depth {L S}.
Arguments startedAt {L S}.
Arguments lastActivity {L S}.
Arguments escalationLevel {L S}.
Arguments stalledSince {L S}.

(** [AgentSession]: [escalationLevel: number], [stalledSince: string | null]
    ([None] is [null]). *)
Abbreviation AgentSession := (SessionRecord Z (option Z)).

(** A record as it sits in [sessions.json]: records written before
    progressive nudging lack the two escalation fields (the outer [None] is
    [undefined]; [Some None] is a stored [null]). *)
Abbreviation RawSession := (SessionRecord (option Z) (option (option Z))).

(** [session.state = st] *)
Definition set_state {L S} (s : SessionRecord L S) (st : AgentState)
  : SessionRecord L S :=
  mkSession (sessionId s) (agentName s) (capability s) (worktreePath s)
    (branchName s) (beadId s) (tmuxSession s) st (pid s) (parentAgent s)
    (depth s) (startedAt s) (lastActivity s) (escalationLevel s)
    (stalledSince s).

(** [session.escalationLevel = lvl] *)
Definition set_escalationLevel {L L' S} (s : SessionRecord L S) (lvl : L')
  : SessionRecord L' S :=
  mkSession (sessionId s) (agentName s) (capability s) (worktreePath s)
    (branchName s) (beadId s) (tmuxSession s) (state s) (pid s)
    (parentAgent s) (depth s) (startedAt s) (lastActivity s) lvl
    (stalledSince s).

(** [session.stalledSince = since] *)
Definition set_stalledSince {L S S'} (s : SessionRecord L S) (since : S')
  : SessionRecord L S' :=
  mkSession (sessionId s) (agentName s) (capability s) (worktreePath s)
    (branchName s) (beadId s) (tmuxSession s) (state s) (pid s)
    (parentAgent s) (depth s) (startedAt s) (lastActivity s)
    (escalationLevel s) since.

(** What a path can hold: text that is not JSON, JSON that is not an array, or
    an array of session records. *)
Inductive FileContent : Type :=
  | NotJson
  | NotAnArray
  | JsonArray (records : list RawSession).

(** Modelled from the spec: [HealthCheck] is declared in [types.ts], which is
    not part of the sources. The tick reads [action] only. *)
Record HealthCheck : Type := mkCheck {
  hc_agentName : string;
  hc_tmuxAlive : bool;
  action : HealthAction
}.

Record Thresholds : Type := mkThresholds { staleMs : Z; zombieMs : Z }.

(* ================================================================== *)
(** ** Effects *)

Definition Exn : Type := string.

(** How an awaited call ends. *)
Inductive Outcome (A : Type) : Type :=
  | Ok (a : A)
  | Raised (e : Exn).
Arguments Ok {A} a.
Arguments Raised {A} e.

Record TriageOptions : Type := mkTriageOptions {
  to_agentName : string;
  to_root : string;
  to_lastActivity : Z
}.

Record NudgeResult : Type := mkNudgeResult {
  delivered : bool;
  reason : option string
}.

Inductive Event : Type :=
  | EvClock (t : Z)
  | EvIsSessionAlive (name : string) (r : Outcome bool)
  | EvKillSession (name : string) (r : Outcome unit)
  | EvNudge (projectRoot name message : string) (force : bool)
      (r : Outcome NudgeResult)
  | EvTriage (args : TriageOptions) (r : Outcome TriageVerdict)
  | EvHealthCheck (check : HealthCheck) (r : Outcome unit)
  | EvWrite (path : string) (content : FileContent).

Definition History : Type := list Event.

Record World : Type := mkWorld {
  trace : History;
  files : gmap string FileContent
}.

(** An async computation: runs on a world, returns or throws. *)
Definition M (A : Type) : Type := World -> Outcome A * World.

Definition ret {A} (a : A) : M A := fun w => (Ok a, w).

Definition bind {A B} (m : M A) (k : A -> M B) : M B :=
  fun w =>
    match m w with
    | (Ok a, w1) => k a w1
    | (Raised e, w1) => (Raised e, w1)
    end.

Notation "'let*' x ':=' m 'in' k" := (bind m (fun x => k))
  (at level 10, x name, m at level 100, k at level 200, only parsing).
Notation "'let*' ' pat ':=' m 'in' k" :=
  (bind m (fun x => match x with pat => k end))
  (at level 10, pat pattern, m at level 100, k at level 200, only parsing).
Notation "'do' m 'then' k" := (bind m (fun _ => k))
  (at level 10, m at level 100, k at level 200, only parsing).

Definition record (e : Event) (w : World) : World :=
  mkWorld (trace w ++ [e]) (files w).

(** An awaited call of a collaborator: the oracle answers from the history,
    the call is recorded, and a throw propagates. *)
Definition call {A} (oracle : History -> Outcome A) (ev : Outcome A -> Event)
  : M A :=
  fun w => let r := oracle (trace w) in (r, record (ev r) w).

(** [try { await m } catch { }] with the outcome kept as a value. *)
Definition attempt {A} (m : M A) : M (Outcome A) :=
  fun w => let '(r, w1) := m w in (Ok r, w1).

(** [try { await m } catch { /* ignored */ }] *)
Definition swallow {A} (m : M A) : M unit :=
  do attempt m then ret tt.

(* ================================================================== *)
(** ** JavaScript arithmetic of the level computation *)

(** The values [Math.floor(a / b)] can take for integers [a] and [b]. *)
Inductive JsNum : Type :=
  | JsInt (z : Z)
  | JsPosInf
  | JsNegInf
  | JsNaN.

(** [Math.floor(a / b)]: floor of the quotient, [±Infinity] or [NaN] for a
    zero divisor. [Z.div] rounds towards minus infinity for either sign of
    the divisor. *)
Definition js_floor_div (a b : Z) : JsNum :=
  if b =? 0 then
    (if a =? 0 then JsNaN else if 0 <? a then JsPosInf else JsNegInf)
  else JsInt (a / b).

(** [Math.min(x, n)] *)
Definition js_min (x : JsNum) (n : Z) : JsNum :=
  match x with
  | JsInt z => JsInt (Z.min z n)
  | JsPosInf => JsInt n
  | JsNegInf => JsNegInf
  | JsNaN => JsNaN
  end.

(** [x > n]: false for [NaN]. *)
Definition js_gt (x : JsNum) (n : Z) : bool :=
  match x with
  | JsInt z => n <? z
  | JsPosInf => true
  | JsNegInf => false
  | JsNaN => false
  end.

(* ================================================================== *)
(** ** Options and collaborators *)

(** Maximum escalation level (terminate). *)
Definition MAX_ESCALATION_LEVEL : Z := 3.

Record TmuxApi : Type := mkTmux {
  isSessionAlive : History -> string -> Outcome bool;
  killSession : History -> string -> Outcome unit
}.

(** [DaemonOptions]. The three injectable collaborators are the ones in
    use after [options._x ?? realImplementation]. *)
Record DaemonOptions : Type := mkOptions {
  root : string;
  staleThresholdMs : Z;
  zombieThresholdMs : Z;
  nudgeIntervalMs : option Z;
  tier1Enabled : option bool;
  onHealthCheck : option (History -> HealthCheck -> Outcome unit);
  opt_tmux : TmuxApi;
  opt_triage : History -> TriageOptions -> Outcome TriageVerdict;
  opt_nudge :
    History -> string -> string -> string -> bool -> Outcome NudgeResult
}.

(** The argument of [executeEscalationAction]. *)
Record EscalationCtx : Type := mkCtx {
  ctx_session : AgentSession;
  ctx_root : string;
  ctx_tmuxAlive : bool;
  ctx_tier1Enabled : bool;
  ctx_tmux : TmuxApi;
  ctx_triage : History -> TriageOptions -> Outcome TriageVerdict;
  ctx_nudge :
    History -> string -> string -> string -> bool -> Outcome NudgeResult
}.

Record ActionResult : Type := mkResult {
  terminated : bool;
  stateChanged : bool
}.

Definition dquote : string := String "034"%char EmptyString.

Definition stalledMessage (name : string) : string :=
  ("[WATCHDOG] Agent " +:+ dquote +:+ name +:+ dquote +:+
   " appears stalled. Please check your current task and report status.")%string.

Definition recoveryMessage : string :=
  ("[WATCHDOG] Triage suggests recovery is possible. " +:+
   "Please retry your current operation or check for errors.")%string.

(** [join(root, ".overstory", "sessions.json")], for a root without a
    trailing separator. *)
Definition sessionsPathOf (root : string) : string :=
  (root +:+ "/.overstory/sessions.json")%string.

(* ================================================================== *)
(** ** The daemon *)

Section Daemon.

(** [Date.now()] of the runtime, read from the history of the run. *)
Variable Date_now : History -> Z.

(** [health.ts] is not part of the sources: its two functions are parameters
    of the development. [evaluateHealth] reads the clock itself; the instant
    it reads is its last argument here. *)
Variable evaluateHealth :
  AgentSession -> bool -> Thresholds -> Z -> HealthCheck.
Variable transitionState : AgentState -> HealthCheck -> AgentState.

(** A read of the clock ([Date.now()], [new Date()]). *)
Definition now : M Z :=
  fun w => let t := Date_now (trace w) in (Ok t, record (EvClock t) w).

(** [try { await tmux.killSession(name) } catch { }] *)
Definition tryKill (tmux : TmuxApi) (name : string) : M unit :=
  swallow (call (fun h => killSession tmux h name) (EvKillSession name)).

(** [try { await nudge(root, agentName, message, true) } catch { }] *)
Definition tryNudge
    (nudge : History -> string -> string -> string -> bool ->
             Outcome NudgeResult)
    (projectRoot name message : string) : M unit :=
  swallow (call (fun h => nudge h projectRoot name message true)
             (EvNudge projectRoot name message true)).

Definition executeEscalationAction (ctx : EscalationCtx) : M ActionResult :=
  let session := ctx_session ctx in
  match escalationLevel session with
  | 0 =>
      (* Level 0: warn *)
      ret (mkResult false false)
  | 1 =>
      (* Level 1: nudge *)
      do tryNudge (ctx_nudge ctx) (ctx_root ctx) (agentName session)
           (stalledMessage (agentName session))
      then ret (mkResult false false)
  | 2 =>
      (* Level 2: escalate *)
      if negb (ctx_tier1Enabled ctx) then ret (mkResult false false)
      else
        let args :=
          mkTriageOptions (agentName session) (ctx_root ctx)
            (lastActivity session) in
        let* verdict :=
          call (fun h => ctx_triage ctx h args) (EvTriage args) in
        if decide (verdict = TriageTerminate) then
          do (if ctx_tmuxAlive ctx
              then tryKill (ctx_tmux ctx) (tmuxSession session)
              else ret tt)
          then ret (mkResult true true)
        else
          do (if decide (verdict = TriageRetry)
              then tryNudge (ctx_nudge ctx) (ctx_root ctx)
                     (agentName session) recoveryMessage
              else ret tt)
          then ret (mkResult false false)
  | _ =>
      (* Level 3+: terminate *)
      do (if ctx_tmuxAlive ctx
          then tryKill (ctx_tmux ctx) (tmuxSession session)
          else ret tt)
      then ret (mkResult true true)
  end.

(** The three assignments made on termination:
    [state = "zombie"; escalationLevel = 0; stalledSince = null]. *)
Definition markZombie (session : AgentSession) : AgentSession :=
  set_stalledSince (set_escalationLevel (set_state session zombie) 0) None.

(** [stalledSince = null; escalationLevel = 0] *)
Definition resetEscalation (session : AgentSession) : AgentSession :=
  set_escalationLevel (set_stalledSince session None) 0.

(** [Math.min(Math.floor(stalledMs / nudgeIntervalMs), MAX_ESCALATION_LEVEL)] *)
Definition expectedLevel (stalledMs nudgeInterval : Z) : JsNum :=
  js_min (js_floor_div stalledMs nudgeInterval) MAX_ESCALATION_LEVEL.

(** [if (expectedLevel > session.escalationLevel) { ... }] for the instant
    [t] that [Date.now()] returned and the start [since] of the stall. *)
Definition raiseLevel (nudgeInterval t since : Z)
    (session : AgentSession) (updated : bool) : AgentSession * bool :=
  let stalledMs := t - since in
  let expected := expectedLevel stalledMs nudgeInterval in
  if js_gt expected (escalationLevel session) then
    match expected with
    | JsInt e => (set_escalationLevel session e, true)
    | _ => (session, updated) (* [Math.min(_, 3)] is never [+Infinity] *)
    end
  else (session, updated).

(** [if (session.stalledSince === null) { ... }]; gives back the start of
    the stall episode as well. *)
Definition beginStall (session : AgentSession) (updated : bool)
  : M (AgentSession * Z * bool) :=
  match stalledSince session with
  | None =>
      let* t := now in
      ret (set_escalationLevel (set_stalledSince session (Some t)) 0, t, true)
  | Some since => ret (session, since, updated)
  end.

(** The statements of the [escalate] branch up to the raise of the level. *)
Definition raisePhase (nudgeInterval : Z) (session : AgentSession)
    (updated : bool) : M (AgentSession * bool) :=
  let* '(session, since, updated) := beginStall session updated in
  let* t := now in
  ret (raiseLevel nudgeInterval t since session updated).

(** The [escalate] branch of the loop body. *)
Definition escalate (o : DaemonOptions) (nudgeInterval : Z) (tier1 : bool)
    (tmuxAlive : bool) (session : AgentSession) (updated : bool)
  : M (AgentSession * bool) :=
  let* '(session, updated) := raisePhase nudgeInterval session updated in
  let* actionResult :=
    executeEscalationAction
      (mkCtx session (root o) tmuxAlive tier1 (opt_tmux o) (opt_triage o)
         (opt_nudge o)) in
  if terminated actionResult then ret (markZombie session, true)
  else if stateChanged actionResult then ret (session, true)
  else ret (session, updated).

(** [if (onHealthCheck) { onHealthCheck(check) }] *)
Definition reportCheck (o : DaemonOptions) (check : HealthCheck) : M unit :=
  match onHealthCheck o with
  | Some f => call (fun h => f h check) (EvHealthCheck check)
  | None => ret tt
  end.

(** First half of the loop body: probe the backing session, evaluate the
    health, move the state forward, report the check. Gives back the probe
    result and the check for the second half. *)
Definition assess (o : DaemonOptions) (session : AgentSession)
    (updated : bool) : M (bool * HealthCheck * AgentSession * bool) :=
  let thresholds := mkThresholds (staleThresholdMs o) (zombieThresholdMs o) in
  let* tmuxAlive :=
    call (fun h => isSessionAlive (opt_tmux o) h (tmuxSession session))
      (EvIsSessionAlive (tmuxSession session)) in
  let* t := now in
  let check := evaluateHealth session tmuxAlive thresholds t in
  let newState := transitionState (state session) check in
  let '(session, updated) :=
    if decide (newState = state session) then (session, updated)
    else (set_state session newState, true) in
  do reportCheck o check then
  ret (tmuxAlive, check, session, updated).

(** Second half of the loop body: the branches on [check.action]. *)
Definition act (o : DaemonOptions) (tmuxAlive : bool) (check : HealthCheck)
    (session : AgentSession) (updated : bool) : M (AgentSession * bool) :=
  let nudgeInterval := default 60000 (nudgeIntervalMs o) in
  let tier1 := default false (tier1Enabled o) in
  match action check with
  | ActTerminate =>
      do (if tmuxAlive
          then tryKill (opt_tmux o) (tmuxSession session)
          else ret tt)
      then ret (markZombie session, true)
  | ActInvestigate => ret (session, updated)
  | ActEscalate => escalate o nudgeInterval tier1 tmuxAlive session updated
  | ActNone =>
      match stalledSince session with
      | Some _ => ret (resetEscalation session, true)
      | None => ret (session, updated)
      end
  end.

(** The body of [for (const session of sessions)], with the [updated] flag
    passed through. *)
Definition monitorSession (o : DaemonOptions) (session : AgentSession)
    (updated : bool) : M (AgentSession * bool) :=
  if decide (state session = completed) then ret (session, updated)
  else
    let* '(tmuxAlive, check, session, updated) := assess o session updated in
    act o tmuxAlive check session updated.

Fixpoint monitorSessions (o : DaemonOptions) (sessions : list AgentSession)
    (updated : bool) : M (list AgentSession * bool) :=
  match sessions with
  | [] => ret ([], updated)
  | session :: rest =>
      let* '(session', updated) := monitorSession o session updated in
      let* '(rest', updated) := monitorSessions o rest updated in
      ret (session' :: rest', updated)
  end.

(** The backfill of [loadSessions] on one record. *)
Definition backfill (r : RawSession) : AgentSession :=
  set_stalledSince
    (set_escalationLevel r (default 0 (escalationLevel r)))
    (default None (stalledSince r)).

(** [JSON.parse(JSON.stringify(session))] before the backfill: every field of
    an in-memory session is defined, so every field is written. *)
Definition stored (s : AgentSession) : RawSession :=
  set_stalledSince
    (set_escalationLevel s (Some (escalationLevel s)))
    (Some (stalledSince s)).

(** What [loadSessions] makes of the content of the file: a missing file
    and a file that does not hold an array read as no sessions;
    [JSON.parse] throws on any other text. *)
Definition parseRegistry (content : option FileContent)
  : Outcome (list AgentSession) :=
  match content with
  | None => Ok []
  | Some NotJson => Raised "SyntaxError"%string
  | Some NotAnArray => Ok []
  | Some (JsonArray parsed) => Ok (map backfill parsed)
  end.

Definition loadSessions (sessionsPath : string) : M (list AgentSession) :=
  fun w => (parseRegistry (files w !! sessionsPath), w).

Definition saveSessions (sessionsPath : string) (sessions : list AgentSession)
  : M unit :=
  fun w =>
    let content := JsonArray (map stored sessions) in
    (Ok tt,
     mkWorld (trace w ++ [EvWrite sessionsPath content])
       (<[sessionsPath := content]> (files w))).

Definition runDaemonTick (o : DaemonOptions) : M unit :=
  let sessionsPath := sessionsPathOf (root o) in
  let* sessions := loadSessions sessionsPath in
  let* '(sessions, updated) := monitorSessions o sessions false in
  if updated then saveSessions sessionsPath sessions else ret tt.

(** One run of the tick as [startDaemon] schedules it:
    [runDaemonTick(options).catch(() => { })]. The timer itself is not
    modelled. *)
Definition scheduledTick (o : DaemonOptions) : M unit :=
  swallow (runDaemonTick o).

End Daemon.

(* ================================================================== *)
(** ** The health evaluator of the specification *)

Module SpecHealth.

(** Modelled from the spec: [evaluateHealth] lives in [health.ts], which is
    not part of the sources. This is the policy of section 4.1. *)
Definition evaluateHealth (session : AgentSession) (tmuxAlive : bool)
    (thresholds : Thresholds) (t : Z) : HealthCheck :=
  let elapsed := t - lastActivity session in
  mkCheck (agentName session) tmuxAlive
    (if decide (state session = zombie) then
       (if tmuxAlive then ActInvestigate else ActNone)
     else if negb tmuxAlive then ActTerminate
     else if zombieMs thresholds <=? elapsed then ActTerminate
     else if staleMs thresholds <=? elapsed then ActEscalate
     else ActNone).

(** Modelled from the spec: [transitionState] lives in [health.ts], which is
    not part of the sources. This is the mapping of section 4.2. *)
Definition transitionState (currentState : AgentState) (check : HealthCheck)
  : AgentState :=
  match action check with
  | ActTerminate => zombie
  | ActInvestigate => currentState
  | ActEscalate => currentState
  | ActNone => currentState
  end.

End SpecHealth.

(* ================================================================== *)
(** ** Reading a history *)

Definition probeOf (e : Event) : option string :=
  match e with EvIsSessionAlive name _ => Some name | _ => None end.

Definition killOf (e : Event) : option string :=
  match e with EvKillSession name _ => Some name | _ => None end.

Definition checkOf (e : Event) : option HealthCheck :=
  match e with EvHealthCheck check _ => Some check | _ => None end.

Definition triageOf (e : Event) : option TriageOptions :=
  match e with EvTriage args _ => Some args | _ => None end.

Definition writeOf (e : Event) : option (string * FileContent) :=
  match e with EvWrite path content => Some (path, content) | _ => None end.

(** The names probed, the names killed, the checks reported, the triage
    calls and the files written in a history, in order. *)
Definition probes (h : History) : list string := omap probeOf h.
Definition kills (h : History) : list string := omap killOf h.
Definition reported (h : History) : list HealthCheck := omap checkOf h.
Definition triaged (h : History) : list TriageOptions := omap triageOf h.
Definition writes (h : History) : list (string * FileContent) :=
  omap writeOf h.

(** [extends w w' evs]: [w'] is [w] after the events [evs], none of which
    wrote a file. *)
Definition extends (w w' : World) (evs : History) : Prop :=
  trace w' = trace w ++ evs /\ files w' = files w /\ writes evs = [].

(** A clock that stands still. *)
Definition frozenClock (t : Z) : History -> Z := fun _ => t.

(** The options with the collaborators that decide the outcome of a tick
    (probe, triage, observer) replaced by ones that answer without looking
    at the history. *)
Definition frozenOptions (o : DaemonOptions)
    (alive0 : string -> Outcome bool)
    (triage0 : TriageOptions -> Outcome TriageVerdict)
    (observe0 : HealthCheck -> Outcome unit) : DaemonOptions :=
  mkOptions (root o) (staleThresholdMs o) (zombieThresholdMs o)
    (nudgeIntervalMs o) (tier1Enabled o)
    (match onHealthCheck o with
     | Some _ => Some (fun _ => observe0)
     | None => None
     end)
    (mkTmux (fun _ => alive0) (killSession (opt_tmux o)))
    (fun _ => triage0) (opt_nudge o).

(** [unchanging Date_now o t alive0 triage0 observe0]: between and during
    the runs the clock stands at [t] and the probe, the triage and the
    observer give the same answer to the same question. *)
Definition unchanging (Date_now : History -> Z) (o : DaemonOptions) (t : Z)
    (alive0 : string -> Outcome bool)
    (triage0 : TriageOptions -> Outcome TriageVerdict)
    (observe0 : HealthCheck -> Outcome unit) : Prop :=
  (forall h, Date_now h = t) /\
  (forall h name, isSessionAlive (opt_tmux o) h name = alive0 name) /\
  (forall h args, opt_triage o h args = triage0 args) /\
  (forall f, onHealthCheck o = Some f -> forall h check, f h check = observe0 check).

(** [agree m m']: the two computations end the same way, with the same
    value or the same exception, from any two worlds. *)
Definition agree {A} (m m' : M A) : Prop :=
  forall w w', fst (m w) = fst (m' w').


(* ================================================================== *)
(** ** Scenarios *)

Module Scenario.

(** The instant of the tick in the scenarios. *)
Definition T0 : Z := 1700000000000.

Definition session (name : string) (st : AgentState) (lastAct : Z)
    (lvl : Z) (since : option Z) : AgentSession :=
  mkSession ("session-" +:+ name) name "builder" "/tmp/wt"
    ("overstory/" +:+ name) "task-1" ("overstory-" +:+ name) st 12345 None 0
    (T0 - 3600000) lastAct lvl since.

(** A record written before progressive nudging. *)
Definition legacy (name : string) (st : AgentState) (lastAct : Z)
  : RawSession :=
  mkSession ("session-" +:+ name) name "builder" "/tmp/wt"
    ("overstory/" +:+ name) "task-1" ("overstory-" +:+ name) st 12345 None 0
    (T0 - 3600000) lastAct None None.

(** A backend in which exactly the sessions named in [live] are alive and
    every kill succeeds. *)
Definition tmuxWith (live : list string) : TmuxApi :=
  mkTmux (fun _ name => Ok (bool_decide (name ∈ live)))
    (fun _ _ => Ok tt).

Definition nudgeDelivered
  : History -> string -> string -> string -> bool -> Outcome NudgeResult :=
  fun _ _ _ _ _ => Ok (mkNudgeResult true None).

Definition nudgeFails
  : History -> string -> string -> string -> bool -> Outcome NudgeResult :=
  fun _ _ _ _ _ => Raised "nudge failed"%string.

(** A backend in which the sessions named in [live] are alive and every
    kill throws. *)
Definition tmuxKillFails (live : list string) : TmuxApi :=
  mkTmux (fun _ name => Ok (bool_decide (name ∈ live)))
    (fun _ _ => Raised "kill failed"%string).

Definition triageAlways (v : TriageVerdict)
  : History -> TriageOptions -> Outcome TriageVerdict :=
  fun _ _ => Ok v.

Definition triageFails : History -> TriageOptions -> Outcome TriageVerdict :=
  fun _ _ => Raised "triage failed"%string.

(** A triage that answers [extend] the first time it is asked and
    [terminate] from then on. *)
Definition triageChangesMind
  : History -> TriageOptions -> Outcome TriageVerdict :=
  fun h _ =>
    match omap triageOf h with
    | [] => Ok TriageExtend
    | _ :: _ => Ok TriageTerminate
    end.

Definition observerOk : History -> HealthCheck -> Outcome unit :=
  fun _ _ => Ok tt.

(** An observer that throws on the check of one agent. *)
Definition observerFailsOn (name : string)
  : History -> HealthCheck -> Outcome unit :=
  fun _ check =>
    if bool_decide (hc_agentName check = name)
    then Raised "observer failed"%string else Ok tt.

Definition optionsWith (tier1 : bool)
    (observer : option (History -> HealthCheck -> Outcome unit))
    (tmux : TmuxApi)
    (triage : History -> TriageOptions -> Outcome TriageVerdict)
    (nudge :
       History -> string -> string -> string -> bool -> Outcome NudgeResult)
  : DaemonOptions :=
  mkOptions "/proj" 60000 600000 None (Some tier1) observer tmux triage nudge.

Definition options (tier1 : bool)
    (observer : option (History -> HealthCheck -> Outcome unit))
    (tmux : TmuxApi)
    (triage : History -> TriageOptions -> Outcome TriageVerdict)
  : DaemonOptions :=
  optionsWith tier1 observer tmux triage nudgeDelivered.

Definition registryPath : string := sessionsPathOf "/proj".

(** A clock that advances by [step] each time a backend is probed, that is
    once for each session a tick examines. *)
Definition clockByProbes (start step : Z) : History -> Z :=
  fun h => start + step * Z.of_nat (length (probes h)).

Definition disk (content : FileContent) : World :=
  mkWorld [] {[ registryPath := content ]}.

(** Names of the backing sessions. *)
Definition tmuxA : string := "overstory-a".
Definition tmuxB : string := "overstory-b".

(** A session whose backend is gone, then a healthy one. *)
Definition deadThenHealthy : list AgentSession :=
  [ session "a" working (T0 - 1000) 0 None;
    session "b" working (T0 - 1000) 0 None ].

(** Stalled for 125 s, at level 1 from an earlier tick, then a healthy one. *)
Definition stalledThenHealthy : list AgentSession :=
  [ session "a" working (T0 - 200000) 1 (Some (T0 - 125000));
    session "b" working (T0 - 1000) 0 None ].

(** Stalled for 65 s, still at level 0, then a healthy one. *)
Definition nudgedThenHealthy : list AgentSession :=
  [ session "a" working (T0 - 200000) 0 (Some (T0 - 65000));
    session "b" working (T0 - 1000) 0 None ].

(** Stalled for 185 s, at level 2 from an earlier tick, then a healthy
    one. *)
Definition expiredThenHealthy : list AgentSession :=
  [ session "a" working (T0 - 200000) 2 (Some (T0 - 185000));
    session "b" working (T0 - 1000) 0 None ].

(** Stalled for 125 s and at level 2. *)
Definition atTriage : AgentSession :=
  session "a" working (T0 - 200000) 2 (Some (T0 - 125000)).

(** Silent for 90 s, no stall episode open yet. *)
Definition freshlyStale : AgentSession :=
  session "a" working (T0 - 90000) 0 None.

End Scenario.


(** The escalation fields at rest: no open stall episode, level 0. *)
Definition stallInvariant (s : AgentSession) : Prop :=
  stalledSince s = None -> escalationLevel s = 0.

Definition clockOf (e : Event) : option Z :=
  match e with EvClock t => Some t | _ => None end.

(** The instants read from the clock in a history, in order. *)
Definition clockReads (h : History) : list Z := omap clockOf h.

Section Episode.

Variable Date_now : History -> Z.
Variable evaluateHealth :
  AgentSession -> bool -> Thresholds -> Z -> HealthCheck.
Variable transitionState : AgentState -> HealthCheck -> AgentState.

(** [raiseStep o s u w sr t]: the loop body, given the record [s], the flag
    [u] and the world [w], finds the session not completed, gets the verdict
    [escalate], and its raise step (the statements of the [escalate] branch
    before [executeEscalationAction]) leaves the record [sr]; [t] is the
    instant that step read last from the clock, the [Date.now()] from which
    it computes [stalledMs]. *)
Definition raiseStep (o : DaemonOptions) (s : AgentSession) (u : bool)
    (w : World) (sr : AgentSession) (t : Z) : Prop :=
  state s <> completed /\
  exists alive check s1 u1 w1 ur wr,
    assess Date_now evaluateHealth transitionState o s u w
      = (Ok (alive, check, s1, u1), w1) /\
    action check = ActEscalate /\
    raisePhase Date_now (default 60000 (nudgeIntervalMs o)) s1 u1 w1
      = (Ok (sr, ur), wr) /\
    last (clockReads (trace wr)) = Some t.

(** [stalledSoFar o since s t0]: the record [s] as a tick finds it in the
    stall episode that begins at [since]. Either no episode is open yet
    (this tick will open one), or earlier ticks have processed the session,
    each with the verdict [escalate], each returning with the episode still
    open, and none reading the clock at an earlier instant than the one
    before; [t0] is the instant the last of them read in its raise step
    ([since] when there was none). A tick finds the record the tick before
    left: [saveSessions] followed by [loadSessions] gives a record back as
    it was. Between two ticks the world may have changed in any way. *)
Inductive stalledSoFar (o : DaemonOptions) (since : Z)
  : AgentSession -> Z -> Prop :=
  | stall_not_begun s :
      stalledSince s = None -> stalledSoFar o since s since
  | stall_continued s t0 u w sr t s' u' w' :
      stalledSoFar o since s t0 ->
      raiseStep o s u w sr t ->
      monitorSession Date_now evaluateHealth transitionState o s u w
        = (Ok (s', u'), w') ->
      stalledSince s' = Some since ->
      t0 <= t ->
      stalledSoFar o since s' t.

End Episode.


(** [returns m]: [m] never throws. *)
Definition returns {A} (m : M A) : Prop :=
  forall w, exists a w', m w = (Ok a, w').

(** [emits P m]: whatever [m] does, it only appends events to the trace,
    all of them in the class [P], and leaves the files alone. *)
Definition emits {A} (P : Event -> bool) (m : M A) : Prop :=
  forall w r w',
    m w = (r, w') ->
    exists evs,
      trace w' = trace w ++ evs /\ files w' = files w /\
      forallb P evs = true.

(** The events of the first half of the loop body. *)
Definition observing (e : Event) : bool :=
  match e with
  | EvIsSessionAlive _ _ | EvClock _ | EvHealthCheck _ _ => true
  | _ => false
  end.

(** The events of the second half of the loop body. *)
Definition remedial (e : Event) : bool :=
  match e with
  | EvClock _ | EvKillSession _ _ | EvNudge _ _ _ _ _ | EvTriage _ _ => true
  | _ => false
  end.

Definition notWrite (e : Event) : bool :=
  match e with EvWrite _ _ => false | _ => true end.

(** *** Further readings of a history and of a record *)

Definition aliveProbeOf (e : Event) : option string :=
  match e with
  | EvIsSessionAlive name (Ok true) => Some name
  | _ => None
  end.

Definition nudgeOf (e : Event) : option (string * string * string * bool) :=
  match e with
  | EvNudge projectRoot name message force _ =>
      Some (projectRoot, name, message, force)
  | _ => None
  end.

(** The names a probe found alive, and the nudges sent (root, agent,
    message, force), in order. *)
Definition probedAlive (h : History) : list string := omap aliveProbeOf h.
Definition nudges (h : History) : list (string * string * string * bool) :=
  omap nudgeOf h.

(** A record without the three fields the tick assigns ([state],
    [escalationLevel], [stalledSince]). *)
Definition frameOf {L S} (s : SessionRecord L S) : SessionRecord unit unit :=
  set_stalledSince (set_escalationLevel (set_state s booting) tt) tt.

Definition levelInRange (s : AgentSession) : Prop :=
  0 <= escalationLevel s <= MAX_ESCALATION_LEVEL.

(** The events of the second half of the loop body for a session whose
    backend is called [name]: a kill only of that backend, and only when the
    probe found it alive. *)
Definition killGuard (alive : bool) (name : string) (e : Event) : bool :=
  match e with
  | EvKillSession n _ => alive && bool_decide (n = name)
  | EvClock _ | EvNudge _ _ _ _ _ | EvTriage _ _ => true
  | _ => false
  end.

Definition notTriage (e : Event) : bool :=
  match e with EvTriage _ _ => false | _ => true end.

(* ================================================================== *)
(** ** Properties *)

Section Properties.

Variable Date_now : History -> Z.
Variable evaluateHealth :
  AgentSession -> bool -> Thresholds -> Z -> HealthCheck.
Variable transitionState : AgentState -> HealthCheck -> AgentState.

Local Abbreviation now := (now Date_now).
Local Abbreviation beginStall := (beginStall Date_now).
Local Abbreviation raisePhase := (raisePhase Date_now).
Local Abbreviation escalate := (escalate Date_now).
Local Abbreviation assess := (assess Date_now evaluateHealth transitionState).
Local Abbreviation act := (act Date_now).
Local Abbreviation monitorSession :=
  (monitorSession Date_now evaluateHealth transitionState).
Local Abbreviation monitorSessions :=
  (monitorSessions Date_now evaluateHealth transitionState).
Local Abbreviation runDaemonTick :=
  (runDaemonTick Date_now evaluateHealth transitionState).
Local Abbreviation scheduledTick :=
  (scheduledTick Date_now evaluateHealth transitionState).
Local Abbreviation raiseStep :=
  (raiseStep Date_now evaluateHealth transitionState).
Local Abbreviation stalledSoFar :=
  (stalledSoFar Date_now evaluateHealth transitionState).

(** *** Failures that are swallowed, and one that is not *)

(** A kill and a nudge return whatever the collaborator does. *)

Lemma tryKill_spec tmux name w :
  tryKill tmux name w =
    (Ok tt, record (EvKillSession name (killSession tmux (trace w) name)) w).
Proof. reflexivity. Qed.

Lemma tryNudge_spec nudge r name msg w :
  tryNudge nudge r name msg w =
    (Ok tt, record (EvNudge r name msg true (nudge (trace w) r name msg true)) w).
Proof. reflexivity. Qed.

(** At level 2 with triage enabled, an exception of the triage call is
    the exception of [executeEscalationAction]. *)
Lemma executeEscalationAction_triage_raises ctx w e :
  escalationLevel (ctx_session ctx) = 2 ->
  ctx_tier1Enabled ctx = true ->
  ctx_triage ctx (trace w)
    (mkTriageOptions (agentName (ctx_session ctx)) (ctx_root ctx)
       (lastActivity (ctx_session ctx))) = Raised e ->
  executeEscalationAction ctx w =
    (Raised e,
     record (EvTriage
               (mkTriageOptions (agentName (ctx_session ctx)) (ctx_root ctx)
                  (lastActivity (ctx_session ctx))) (Raised e)) w).
Proof.
  intros H2 H1 Ht. unfold executeEscalationAction.
  rewrite H2, H1. cbn. unfold bind, call. now rewrite Ht.
Qed.

(** Whatever the tick does, the scheduled run returns. *)
Lemma scheduledTick_returns o : returns (scheduledTick o).
Proof.
  intros w. unfold scheduledTick, swallow, attempt, bind, ret.
  destruct (runDaemonTick o w) as [r w']. eauto.
Qed.

(** *** The first half of the loop body *)

(** What [assess] did when it returned: one probe, one clock read, at most
    one report, nothing else. *)
Lemma assess_ok o s u w alive check s1 u1 w1 :
  assess o s u w = (Ok (alive, check, s1, u1), w1) ->
  isSessionAlive (opt_tmux o) (trace w) (tmuxSession s) = Ok alive /\
  check =
    evaluateHealth s alive
      (mkThresholds (staleThresholdMs o) (zombieThresholdMs o))
      (Date_now (trace w ++ [EvIsSessionAlive (tmuxSession s) (Ok alive)])) /\
  (s1, u1) =
    (if decide (transitionState (state s) check = state s) then (s, u)
     else (set_state s (transitionState (state s) check), true)) /\
  exists evs,
    extends w w1 evs /\
    probes evs = [tmuxSession s] /\
    kills evs = [] /\
    triaged evs = [] /\
    reported evs =
      match onHealthCheck o with Some _ => [check] | None => [] end.
Proof.
  unfold assess, bind, call, now, reportCheck, ret.
  destruct (isSessionAlive _ _ _) as [a|e] eqn:Hp; [|discriminate].
  cbn -[decide].
  set (t := Date_now _). set (c := evaluateHealth _ _ _ _).
  destruct (decide (transitionState (state s) c = state s)) as [Hs|Hs] eqn:Hd;
    (destruct (onHealthCheck o) as [f|] eqn:Hf;
     [ unfold call; destruct (f _ c) as [[]|e] eqn:Hr; [|discriminate] | ]);
    cbn; intros [= <- <- <- <- <-]; rewrite Hd;
    (split; [reflexivity|]); (split; [reflexivity|]);
    (split; [reflexivity|]);
    eexists; (split; [repeat split; cbn; rewrite <- ?app_assoc; reflexivity|]);
    cbn; auto.
Qed.
(** *** The events of each part of the tick *)

Lemma emits_ret {A} P (a : A) : emits P (ret a).
Proof.
  intros w r w' [= <- <-]. exists []. now rewrite app_nil_r.
Qed.

Lemma emits_bind {A B} P (m : M A) (k : A -> M B) :
  emits P m -> (forall a, emits P (k a)) -> emits P (bind m k).
Proof.
  intros Hm Hk w r w'. unfold bind.
  destruct (m w) as [[a|e] w1] eqn:E;
    destruct (Hm _ _ _ E) as (e1 & T1 & F1 & P1).
  - intros E2. destruct (Hk _ _ _ _ E2) as (e2 & T2 & F2 & P2).
    exists (e1 ++ e2).
    rewrite T2, T1, F2, F1, forallb_app, P1, P2, app_assoc. auto.
  - intros [= <- <-]. eauto.
Qed.

Lemma emits_call {A} P (oracle : History -> Outcome A) ev :
  (forall r, P (ev r) = true) -> emits P (call oracle ev).
Proof.
  intros H w r w' [= <- <-]. exists [ev (oracle (trace w))].
  cbn. rewrite H. auto.
Qed.

Lemma emits_swallow {A} P (m : M A) : emits P m -> emits P (swallow m).
Proof.
  intros Hm w r w'. unfold swallow, attempt, bind, ret.
  destruct (m w) as [r1 w1] eqn:E. intros [= <- <-]. eauto.
Qed.

Lemma emits_weaken {A} (P Q : Event -> bool) (m : M A) :
  (forall e, P e = true -> Q e = true) -> emits P m -> emits Q m.
Proof.
  intros HPQ Hm w r w' E. destruct (Hm _ _ _ E) as (evs & T & F & HP).
  exists evs. repeat split; auto.
  rewrite forallb_forall in *. auto.
Qed.

Lemma emits_now P :
  P (EvClock 0) = true -> (forall t, P (EvClock t) = P (EvClock 0)) ->
  emits P now.
Proof.
  intros H0 H w r w' [= <- <-]. exists [EvClock (Date_now (trace w))].
  cbn. rewrite H, H0. auto.
Qed.

Lemma emits_tryKill tmux name : emits remedial (tryKill tmux name).
Proof. apply emits_swallow, emits_call. reflexivity. Qed.

Lemma emits_tryNudge nudge r name msg :
  emits remedial (tryNudge nudge r name msg).
Proof. apply emits_swallow, emits_call. reflexivity. Qed.

Lemma emits_now_remedial : emits remedial now.
Proof. now apply emits_now. Qed.

Lemma emits_now_observing : emits observing now.
Proof. now apply emits_now. Qed.

Create HintDb emits.

#[local] Hint Resolve emits_ret emits_now_remedial emits_now_observing
  emits_tryKill emits_tryNudge : emits.

Ltac emits_step :=
  match goal with
  | |- forall _, _ => intro
  | |- emits _ (bind _ _) => apply emits_bind
  | |- emits _ (call _ _) => apply emits_call; reflexivity
  | |- emits _ (match ?x with _ => _ end) => destruct x
  | |- emits _ _ => solve [eauto with emits]
  end.

Lemma emits_executeEscalationAction ctx :
  emits remedial (executeEscalationAction ctx).
Proof.
  unfold executeEscalationAction.
  destruct (escalationLevel (ctx_session ctx)) as [|[p|p|]|p];
    repeat emits_step.
Qed.

Lemma emits_beginStall s u : emits remedial (beginStall s u).
Proof. unfold beginStall. repeat emits_step. Qed.

Lemma emits_raisePhase n s u : emits remedial (raisePhase n s u).
Proof.
  unfold raisePhase. apply emits_bind; [apply emits_beginStall|].
  intros [[s1 since] u1]. repeat emits_step.
Qed.

Lemma emits_escalate o n tier1 alive s u :
  emits remedial (escalate o n tier1 alive s u).
Proof.
  unfold escalate. apply emits_bind; [apply emits_raisePhase|].
  intros [s1 u1]. apply emits_bind; [apply emits_executeEscalationAction|].
  intros r. repeat emits_step.
Qed.

Lemma emits_reportCheck o check : emits observing (reportCheck o check).
Proof. unfold reportCheck. repeat emits_step. Qed.

Lemma emits_assess o s u : emits observing (assess o s u).
Proof.
  unfold assess. apply emits_bind; [apply emits_call; reflexivity|].
  intros alive. apply emits_bind; [apply emits_now_observing|]. intros t.
  destruct (decide _); (apply emits_bind; [apply emits_reportCheck|]);
    intros _; apply emits_ret.
Qed.

Lemma emits_act o alive check s u : emits remedial (act o alive check s u).
Proof.
  unfold act. destruct (action check).
  - repeat emits_step.
  - apply emits_escalate.
  - apply emits_ret.
  - repeat emits_step.
Qed.

Lemma observing_notWrite e : observing e = true -> notWrite e = true.
Proof. now destruct e. Qed.

Lemma remedial_notWrite e : remedial e = true -> notWrite e = true.
Proof. now destruct e. Qed.

Lemma emits_monitorSession o s u : emits notWrite (monitorSession o s u).
Proof.
  unfold monitorSession. destruct (decide _); [apply emits_ret|].
  apply emits_bind.
  - eapply emits_weaken; [apply observing_notWrite|apply emits_assess].
  - intros [[[alive check] s1] u1].
    eapply emits_weaken; [apply remedial_notWrite|apply emits_act].
Qed.

Lemma emits_monitorSessions o l :
  forall u, emits notWrite (monitorSessions o l u).
Proof.
  induction l as [|s l IH]; intros u; simpl.
  - apply emits_ret.
  - apply emits_bind; [apply emits_monitorSession|].
    intros [s1 u1]. apply emits_bind; [apply IH|].
    intros [l1 u2]. apply emits_ret.
Qed.

(** Reading the classes back as facts about the history. *)
Lemma notWrite_writes evs : forallb notWrite evs = true -> writes evs = [].
Proof.
  induction evs as [|e evs IH]; [reflexivity|]. cbn.
  intros [He H]%andb_true_iff. unfold writes in *. cbn.
  destruct e; try discriminate; cbn; auto.
Qed.


Lemma emits_extends {A} (m : M A) w r w' :
  emits notWrite m -> m w = (r, w') -> exists evs, extends w w' evs.
Proof.
  intros Hm E. destruct (Hm _ _ _ E) as (evs & T & F & HP).
  exists evs. repeat split; auto using notWrite_writes.
Qed.


(** *** Completed sessions *)

Lemma monitorSession_completed o s u w :
  state s = completed -> monitorSession o s u w = (Ok (s, u), w).
Proof.
  intros H. unfold monitorSession. destruct (decide _); [reflexivity|].
  contradiction.
Qed.

Lemma monitorSessions_cons o s l u w :
  monitorSessions o (s :: l) u w =
    match monitorSession o s u w with
    | (Ok (s', u1), w1) =>
        match monitorSessions o l u1 w1 with
        | (Ok (l', u2), w2) => (Ok (s' :: l', u2), w2)
        | (Raised e, w2) => (Raised e, w2)
        end
    | (Raised e, w1) => (Raised e, w1)
    end.
Proof.
  simpl. unfold bind.
  destruct (monitorSession o s u w) as [[[s' u1]|e] w1]; [|reflexivity].
  destruct (monitorSessions o l u1 w1) as [[[l' u2]|e] w2]; reflexivity.
Qed.

Lemma monitorSessions_length o l :
  forall u w l' u' w',
    monitorSessions o l u w = (Ok (l', u'), w') -> length l' = length l.
Proof.
  induction l as [|s l IH]; intros u w l' u' w'.
  - intros [= <- <- <-]. reflexivity.
  - rewrite monitorSessions_cons.
    destruct (monitorSession o s u w) as [[[s1 u1]|e] w1]; [|discriminate].
    destruct (monitorSessions o l u1 w1) as [[[l1 u2]|e] w2] eqn:E;
      [|discriminate].
    intros [= <- <- <-]. simpl. f_equal. eapply IH, E.
Qed.

(** Wherever a completed record stands in the list, the pass is the pass
    over the list without it, with the record put back unchanged in its
    place. *)
Lemma monitorSessions_without_completed o s l1 l2 u w :
  state s = completed ->
  monitorSessions o (l1 ++ s :: l2) u w =
    match monitorSessions o (l1 ++ l2) u w with
    | (Ok (l', u'), w') =>
        (Ok (take (length l1) l' ++ s :: drop (length l1) l', u'), w')
    | (Raised e, w') => (Raised e, w')
    end.
Proof.
  intros Hs. revert u w. induction l1 as [|s0 l1 IH]; intros u w.
  - cbn [app length]. rewrite monitorSessions_cons.
    rewrite (monitorSession_completed _ _ _ _ Hs).
    destruct (monitorSessions o l2 u w) as [[[l' u']|e] w'];
      [|reflexivity].
    now rewrite take_0, drop_0.
  - cbn [app length]. rewrite !monitorSessions_cons.
    destruct (monitorSession o s0 u w) as [[[s1 u1]|e] w1]; [|reflexivity].
    rewrite IH.
    destruct (monitorSessions o (l1 ++ l2) u1 w1) as [[[l' u']|e] w'];
      reflexivity.
Qed.

(** *** The registry file *)

Lemma runDaemonTick_cases o w :
  runDaemonTick o w =
    match parseRegistry (files w !! sessionsPathOf (root o)) with
    | Raised e => (Raised e, w)
    | Ok l =>
        match monitorSessions o l false w with
        | (Raised e, w1) => (Raised e, w1)
        | (Ok (l', true), w1) => saveSessions (sessionsPathOf (root o)) l' w1
        | (Ok (l', false), w1) => (Ok tt, w1)
        end
    end.
Proof.
  unfold runDaemonTick, bind, loadSessions.
  destruct (parseRegistry _) as [l|e]; [|reflexivity].
  destruct (monitorSessions o l false w) as [[[l' [|]]|e] w1]; reflexivity.
Qed.

(** C9. When an exception escapes the pass over the sessions, the tick
    ends with that exception and without a write: the files are as they
    were, whatever was changed in the session records before. *)
Theorem escaping_exception_skips_write o w l e w1 :
  parseRegistry (files w !! sessionsPathOf (root o)) = Ok l ->
  monitorSessions o l false w = (Raised e, w1) ->
  runDaemonTick o w = (Raised e, w1) /\
  files w1 = files w /\
  exists evs, trace w1 = trace w ++ evs /\ writes evs = [].
Proof.
  intros Hl Hm. rewrite runDaemonTick_cases, Hl, Hm.
  destruct (emits_extends _ _ _ _ (emits_monitorSessions o l false) Hm)
    as (evs & T & F & W).
  eauto.
Qed.

(** *** Termination *)

(** The record [assess] hands on differs from the one it was given in
    [state] at most. *)
Lemma assess_session o s u w alive check s1 u1 w1 :
  assess o s u w = (Ok (alive, check, s1, u1), w1) ->
  exists st, s1 = set_state s st.
Proof.
  intros H. apply assess_ok in H as (_ & _ & H & _).
  destruct (decide _); injection H as -> ->; [|eauto].
  exists (state s). now destruct s.
Qed.

(** C4. Under a [terminate] verdict the backing session is killed exactly
    when the probe of this tick found it alive, whether or not the kill
    succeeds, and the record ends as a zombie with the escalation fields
    cleared. *)
Theorem terminate_kills_iff_alive o s u w alive check s1 u1 w1 :
  state s <> completed ->
  assess o s u w = (Ok (alive, check, s1, u1), w1) ->
  action check = ActTerminate ->
  isSessionAlive (opt_tmux o) (trace w) (tmuxSession s) = Ok alive /\
  exists s' w' evs,
    monitorSession o s u w = (Ok (s', true), w') /\
    trace w' = trace w ++ evs /\
    kills evs = (if alive then [tmuxSession s] else []) /\
    s' = markZombie s /\
    state s' = zombie /\ escalationLevel s' = 0 /\ stalledSince s' = None.
Proof.
  intros Hc Ha Ht.
  destruct (assess_session _ _ _ _ _ _ _ _ _ Ha) as [st ->].
  destruct (assess_ok _ _ _ _ _ _ _ _ _ Ha)
    as (Hp & _ & _ & evs & (T & F & W) & _ & K & _).
  split; [exact Hp|].
  unfold monitorSession. destruct (decide _); [contradiction|].
  unfold bind. rewrite Ha. unfold act. rewrite Ht.
  destruct alive; cbn.
  - eexists _, _, (evs ++ [_]). split; [reflexivity|].
    cbn. rewrite T, <- app_assoc. split; [reflexivity|].
    unfold kills in *. rewrite omap_app, K. cbn. auto 10.
  - exists (markZombie s), w1, evs. auto 10.
Qed.

(** *** The escalation controller *)

Lemma raisePhase_spec n s u w :
  raisePhase n s u w =
    match stalledSince s with
    | None =>
        let t0 := Date_now (trace w) in
        let w0 := record (EvClock t0) w in
        let t := Date_now (trace w0) in
        (Ok (raiseLevel n t t0
               (set_escalationLevel (set_stalledSince s (Some t0)) 0) true),
         record (EvClock t) w0)
    | Some since =>
        let t := Date_now (trace w) in
        (Ok (raiseLevel n t since s u), record (EvClock t) w)
    end.
Proof.
  unfold raisePhase, beginStall, bind, now, ret.
  destruct (stalledSince s); reflexivity.
Qed.

(** The raise phase touches the two escalation fields only, and the stall
    episode is open when it ends. *)
Lemma raiseLevel_fields n t since s u :
  exists lvl,
    fst (raiseLevel n t since s u) = set_escalationLevel s lvl.
Proof.
  unfold raiseLevel.
  destruct (js_gt _ _); [destruct (expectedLevel _ _)|]; cbn; eauto;
    exists (escalationLevel s); now destruct s.
Qed.

Lemma raisePhase_ok n s u w s1 u1 w1 :
  raisePhase n s u w = (Ok (s1, u1), w1) ->
  (exists lvl since,
      s1 = set_escalationLevel (set_stalledSince s (Some since)) lvl) /\
  exists evs,
    trace w1 = trace w ++ evs /\ files w1 = files w /\ kills evs = [].
Proof.
  rewrite raisePhase_spec.
  destruct (stalledSince s) as [since|] eqn:Hs; cbn zeta.
  - destruct (raiseLevel_fields n (Date_now (trace w)) since s u)
      as [lvl Hl].
    destruct (raiseLevel _ _ _ _ _) as [s2 u2]. cbn in Hl.
    intros [= <- <- <-]. split.
    + exists lvl, since. rewrite Hl. destruct s; cbn in *. now subst.
    + eexists [_]. cbn. auto.
  - set (t0 := Date_now (trace w)).
    set (s0 := set_escalationLevel (set_stalledSince s (Some t0)) 0).
    set (t := Date_now _).
    destruct (raiseLevel_fields n t t0 s0 true) as [lvl Hl].
    destruct (raiseLevel _ _ _ _ _) as [s2 u2]. cbn in Hl.
    intros [= <- <- <-]. split.
    + exists lvl, t0. now rewrite Hl.
    + eexists [_; _]. cbn. rewrite <- app_assoc. auto.
Qed.

(** Level 3 and beyond: the [default] branch of the switch. *)
Lemma executeEscalationAction_beyond ctx w :
  3 <= escalationLevel (ctx_session ctx) ->
  executeEscalationAction ctx w =
    if ctx_tmuxAlive ctx
    then (Ok (mkResult true true),
          record (EvKillSession (tmuxSession (ctx_session ctx))
                    (killSession (ctx_tmux ctx) (trace w)
                       (tmuxSession (ctx_session ctx)))) w)
    else (Ok (mkResult true true), w).
Proof.
  intros H. unfold executeEscalationAction.
  destruct (escalationLevel (ctx_session ctx)) as [|[[p|p|]|[p|p|]|]|p];
    try lia; destruct (ctx_tmuxAlive ctx); reflexivity.
Qed.

(** Level 2 with triage enabled and a [terminate] verdict. *)
Lemma executeEscalationAction_triage_terminate ctx w :
  escalationLevel (ctx_session ctx) = 2 ->
  ctx_tier1Enabled ctx = true ->
  ctx_triage ctx (trace w)
    (mkTriageOptions (agentName (ctx_session ctx)) (ctx_root ctx)
       (lastActivity (ctx_session ctx))) = Ok TriageTerminate ->
  let w1 :=
    record (EvTriage
              (mkTriageOptions (agentName (ctx_session ctx)) (ctx_root ctx)
                 (lastActivity (ctx_session ctx))) (Ok TriageTerminate)) w in
  executeEscalationAction ctx w =
    if ctx_tmuxAlive ctx
    then (Ok (mkResult true true),
          record (EvKillSession (tmuxSession (ctx_session ctx))
                    (killSession (ctx_tmux ctx) (trace w1)
                       (tmuxSession (ctx_session ctx)))) w1)
    else (Ok (mkResult true true), w1).
Proof.
  intros H2 H1 Ht. unfold executeEscalationAction.
  rewrite H2, H1. cbn. unfold bind, call. rewrite Ht. cbn.
  destruct (ctx_tmuxAlive ctx); reflexivity.
Qed.

(** C5. Under an [escalate] verdict, when the level after the raise is 3 or
    more, or is 2 with triage enabled and a [terminate] verdict from triage,
    the backing session is killed exactly when the probe of this tick found
    it alive, whether or not the kill succeeds, and the record ends as a
    zombie with the escalation fields cleared. *)
Theorem escalation_terminates o s u w alive check s0 u0 w0 s1 u1 w1 :
  state s <> completed ->
  assess o s u w = (Ok (alive, check, s0, u0), w0) ->
  action check = ActEscalate ->
  raisePhase (default 60000 (nudgeIntervalMs o)) s0 u0 w0
    = (Ok (s1, u1), w1) ->
  3 <= escalationLevel s1 \/
  (escalationLevel s1 = 2 /\ tier1Enabled o = Some true /\
   opt_triage o (trace w1)
     (mkTriageOptions (agentName s) (root o) (lastActivity s))
     = Ok TriageTerminate) ->
  isSessionAlive (opt_tmux o) (trace w) (tmuxSession s) = Ok alive /\
  exists s' w' evs,
    monitorSession o s u w = (Ok (s', true), w') /\
    trace w' = trace w ++ evs /\
    kills evs = (if alive then [tmuxSession s] else []) /\
    s' = markZombie s /\
    state s' = zombie /\ escalationLevel s' = 0 /\ stalledSince s' = None.
Proof.
  intros Hc Ha He Hr Hlvl.
  destruct (assess_session _ _ _ _ _ _ _ _ _ Ha) as [st ->].
  destruct (assess_ok _ _ _ _ _ _ _ _ _ Ha)
    as (Hp & _ & _ & evs0 & (T0 & F0 & W0) & _ & K0 & _).
  destruct (raisePhase_ok _ _ _ _ _ _ _ Hr)
    as ((lvl & since & ->) & evs1 & T1 & F1 & K1).
  split; [exact Hp|].
  unfold monitorSession. destruct (decide _); [contradiction|].
  unfold bind. rewrite Ha. unfold act. rewrite He.
  unfold escalate, bind. rewrite Hr.
  cbn [escalationLevel set_escalationLevel] in Hlvl.
  destruct Hlvl as [H3|(H2 & H1 & Ht)].
  - rewrite executeEscalationAction_beyond by exact H3.
    cbn [ctx_tmuxAlive]. destruct alive; cbn.
    + eexists _, _, (evs0 ++ evs1 ++ [_]). split; [reflexivity|].
      cbn. rewrite T1, T0, <- !app_assoc. split; [reflexivity|].
      unfold kills in *. rewrite !omap_app, K0, K1. cbn. auto 10.
    + eexists _, _, (evs0 ++ evs1). split; [reflexivity|].
      rewrite T1, T0, <- !app_assoc. split; [reflexivity|].
      unfold kills in *. rewrite !omap_app, K0, K1. cbn. auto 10.
  - rewrite executeEscalationAction_triage_terminate;
      [|exact H2|cbn; now rewrite H1|exact Ht].
    cbn [ctx_tmuxAlive]. destruct alive; cbn.
    + eexists _, _, (evs0 ++ evs1 ++ [_; _]). split; [reflexivity|].
      cbn. rewrite T1, T0, <- !app_assoc. split; [reflexivity|].
      unfold kills in *. rewrite !omap_app, K0, K1. cbn. auto 10.
    + eexists _, _, (evs0 ++ evs1 ++ [_]). split; [reflexivity|].
      cbn. rewrite T1, T0, <- !app_assoc. split; [reflexivity|].
      unfold kills in *. rewrite !omap_app, K0, K1. cbn. auto 10.
Qed.

(** *** The [updated] flag *)

(** Every change of a record raises the flag: a step that leaves the flag
    as it was has left the record as it was. *)
Lemma raiseLevel_flag n t since s u :
  snd (raiseLevel n t since s u) = true \/
  raiseLevel n t since s u = (s, u).
Proof.
  unfold raiseLevel.
  destruct (js_gt _ _); [destruct (expectedLevel _ _)|]; cbn; auto.
Qed.

Lemma raisePhase_flag n s u w s1 u1 w1 :
  raisePhase n s u w = (Ok (s1, u1), w1) ->
  u1 = true \/ (u1 = u /\ s1 = s).
Proof.
  rewrite raisePhase_spec. destruct (stalledSince s) as [since|]; cbn zeta.
  - destruct (raiseLevel_flag n (Date_now (trace w)) since s u) as [H|H].
    + destruct (raiseLevel _ _ _ _ _); cbn in H.
      intros [= <- <- <-]. auto.
    + rewrite H. intros [= <- <- <-]. auto.
  - match goal with
    | |- context [raiseLevel ?a ?b ?c ?d ?e] =>
        destruct (raiseLevel_flag a b c d e) as [H|H]
    end.
    + destruct (raiseLevel _ _ _ _ _); cbn in H.
      intros [= <- <- <-]. auto.
    + rewrite H. intros [= <- <- <-]. auto.
Qed.

Lemma escalate_flag o n tier1 alive s u w s' u' w' :
  escalate o n tier1 alive s u w = (Ok (s', u'), w') ->
  u' = true \/ (u' = u /\ s' = s).
Proof.
  unfold escalate, bind.
  destruct (raisePhase n s u w) as [[[s1 u1]|e] w1] eqn:Hr; [|discriminate].
  apply raisePhase_flag in Hr.
  destruct (executeEscalationAction _ w1) as [[r|e] w2]; [|discriminate].
  destruct (terminated r); [intros [= <- <- <-]; auto|].
  destruct (stateChanged r); intros [= <- <- <-]; auto.
Qed.

Lemma assess_flag o s u w alive check s1 u1 w1 :
  assess o s u w = (Ok (alive, check, s1, u1), w1) ->
  u1 = true \/ (u1 = u /\ s1 = s).
Proof.
  intros H. apply assess_ok in H as (_ & _ & H & _).
  destruct (decide _); injection H as -> ->; auto.
Qed.

Lemma act_flag o alive check s u w s' u' w' :
  act o alive check s u w = (Ok (s', u'), w') ->
  u' = true \/ (u' = u /\ s' = s).
Proof.
  unfold act. destruct (action check).
  - destruct (stalledSince s); intros [= <- <- <-]; auto.
  - apply escalate_flag.
  - intros [= <- <- <-]; auto.
  - unfold bind. destruct alive; cbn; intros [= <- <- <-]; auto.
Qed.

Lemma monitorSession_flag o s u w s' u' w' :
  monitorSession o s u w = (Ok (s', u'), w') ->
  u' = true \/ (u' = u /\ s' = s).
Proof.
  unfold monitorSession. destruct (decide _); [intros [= <- <- <-]; auto|].
  unfold bind.
  destruct (assess o s u w) as [[[[[alive check] s1] u1]|e] w1] eqn:Ha;
    [|discriminate].
  intros Hact. apply assess_flag in Ha. apply act_flag in Hact.
  destruct Ha as [->|[-> ->]], Hact as [->|[-> ->]]; auto.
Qed.

Lemma monitorSessions_flag o l :
  forall u w l' u' w',
    monitorSessions o l u w = (Ok (l', u'), w') ->
    u' = true \/ (u' = u /\ l' = l).
Proof.
  induction l as [|s l IH]; intros u w l' u' w'.
  - intros [= <- <- <-]. auto.
  - rewrite monitorSessions_cons.
    destruct (monitorSession o s u w) as [[[s1 u1]|e] w1] eqn:E1;
      [|discriminate].
    destruct (monitorSessions o l u1 w1) as [[[l1 u2]|e] w2] eqn:E2;
      [|discriminate].
    intros [= <- <- <-].
    apply monitorSession_flag in E1. apply IH in E2.
    destruct E1 as [->|[-> ->]], E2 as [->|[-> ->]]; auto.
Qed.

(** *** Legacy records *)

Lemma backfill_legacy (r : RawSession) :
  escalationLevel r = None -> stalledSince r = None ->
  escalationLevel (backfill r) = 0 /\ stalledSince (backfill r) = None.
Proof. unfold backfill. intros -> ->. auto. Qed.

Lemma backfill_stored s : backfill (stored s) = s.
Proof. now destruct s. Qed.

(** C10. The backfill of the escalation fields by [loadSessions] is made
    in memory and does not raise the flag: when the pass over the loaded
    records raises no flag, the tick writes nothing, the file still holds
    the records as they were, without the two fields where they were
    missing, while the records in memory carry the defaults. *)
Theorem backfill_alone_is_not_written o w raws l' w' :
  files w !! sessionsPathOf (root o) = Some (JsonArray raws) ->
  Forall (fun r : RawSession =>
            escalationLevel r = None /\ stalledSince r = None) raws ->
  monitorSessions o (map backfill raws) false w = (Ok (l', false), w') ->
  runDaemonTick o w = (Ok tt, w') /\
  (exists evs, trace w' = trace w ++ evs /\ writes evs = []) /\
  files w' !! sessionsPathOf (root o) = Some (JsonArray raws) /\
  l' = map backfill raws /\
  Forall (fun s : AgentSession =>
            escalationLevel s = 0 /\ stalledSince s = None) l'.
Proof.
  intros Hf Hleg Hm.
  rewrite runDaemonTick_cases, Hf. cbn [parseRegistry]. rewrite Hm.
  destruct (emits_extends _ _ _ _ (emits_monitorSessions o _ false) Hm)
    as (evs & T & F & W).
  destruct (monitorSessions_flag _ _ _ _ _ _ _ Hm) as [?|[_ ->]];
    [discriminate|].
  repeat split; eauto.
  - now rewrite F.
  - rewrite Forall_map. eapply Forall_impl; [exact Hleg|].
    intros r [H1 H2]. now apply backfill_legacy.
Qed.

(** *** Completed records in the file *)

Lemma backfill_state (r : RawSession) : state (backfill r) = state r.
Proof. reflexivity. Qed.

(** C8, as the code has it. A record whose state is [completed] is skipped
    by the loop: its processing leaves the record, the flag and the world as
    they are (no probe, no report, no event at all), so the tick is the pass
    over the other records of the registry, followed, when one of them
    changed, by the write of all records with the back-filled completed
    record in its place. In the file the tick leaves, the record is either
    the record as it was or, after a write, the record as [loadSessions]
    back-filled it: the fields are as they were, except that an absent
    [escalationLevel] is stored as 0 and an absent [stalledSince] as
    [null]. *)
Theorem completed_session_is_skipped o w raws1 raw raws2 r w' :
  files w !! sessionsPathOf (root o)
    = Some (JsonArray (raws1 ++ raw :: raws2)) ->
  state raw = completed ->
  runDaemonTick o w = (r, w') ->
  (forall u w0,
      monitorSession o (backfill raw) u w0 = (Ok (backfill raw, u), w0)) /\
  (exists out w1,
      monitorSessions o (map backfill (raws1 ++ raws2)) false w = (out, w1) /\
      match out with
      | Ok (l', true) =>
          r = Ok tt /\
          w' = snd (saveSessions (sessionsPathOf (root o))
                      (take (length raws1) l' ++
                       backfill raw :: drop (length raws1) l') w1)
      | Ok (_, false) => r = Ok tt /\ w' = w1
      | Raised e => r = Raised e /\ w' = w1
      end /\
      probes (trace w') = probes (trace w1) /\
      reported (trace w') = reported (trace w1)) /\
  exists raws' raw',
    files w' !! sessionsPathOf (root o) = Some (JsonArray raws') /\
    raws' !! length raws1 = Some raw' /\
    (raw' = raw \/ raw' = stored (backfill raw)) /\
    backfill raw' = backfill raw.
Proof.
  intros Hf Hc Hrun.
  assert (Hcb : state (backfill raw) = completed)
    by now rewrite backfill_state.
  split; [intros u w0; now apply monitorSession_completed|].
  revert Hrun. rewrite runDaemonTick_cases, Hf. cbn [parseRegistry].
  rewrite map_app. cbn [map].
  rewrite (monitorSessions_without_completed _ _ _ _ _ _ Hcb).
  rewrite <- map_app, length_map.
  destruct (monitorSessions o (map backfill (raws1 ++ raws2)) false w)
    as [[[l' u']|e] w1] eqn:Hm.
  - pose proof (monitorSessions_length _ _ _ _ _ _ _ Hm) as Hlen.
    rewrite length_map, length_app in Hlen.
    destruct (emits_extends _ _ _ _ (emits_monitorSessions o _ false) Hm)
      as (evs & T & F & W).
    destruct u'.
    + unfold saveSessions. intros [= <- <-]. split.
      * eexists _, _. split; [reflexivity|]. cbn [snd trace].
        split; [auto|].
        unfold probes, reported. rewrite !omap_app. cbn.
        now rewrite !app_nil_r.
      * eexists _, (stored (backfill raw)). cbn [files].
        rewrite lookup_insert_eq. split; [reflexivity|].
        split; [|split; [now right|apply backfill_stored]].
        rewrite map_app. cbn [map]. apply list_lookup_middle.
        rewrite length_map, length_take. lia.
    + intros [= <- <-]. split.
      * eexists _, _. split; [reflexivity|]. auto.
      * exists (raws1 ++ raw :: raws2), raw. rewrite F.
        split; [exact Hf|]. split; [now apply list_lookup_middle|auto].
  - destruct (emits_extends _ _ _ _ (emits_monitorSessions o _ false) Hm)
      as (evs & T & F & W).
    intros [= <- <-]. split.
    + eexists _, _. split; [reflexivity|]. auto.
    + exists (raws1 ++ raw :: raws2), raw. rewrite F.
      split; [exact Hf|]. split; [now apply list_lookup_middle|auto].
Qed.

(** *** A tick whose collaborators do not throw runs to its end *)

Lemma returns_ret {A} (a : A) : returns (ret a).
Proof. intros w. now exists a, w. Qed.

Lemma returns_bind {A B} (m : M A) (k : A -> M B) :
  returns m -> (forall a, returns (k a)) -> returns (bind m k).
Proof.
  intros Hm Hk w. unfold bind. destruct (Hm w) as (a & w1 & ->).
  apply Hk.
Qed.

Lemma returns_call {A} (oracle : History -> Outcome A) ev :
  (forall h, exists a, oracle h = Ok a) -> returns (call oracle ev).
Proof.
  intros H w. unfold call. destruct (H (trace w)) as [a ->]. eauto.
Qed.

Lemma returns_swallow {A} (m : M A) : returns (swallow m).
Proof.
  intros w. unfold swallow, attempt, bind, ret. destruct (m w). eauto.
Qed.

Lemma returns_now : returns now.
Proof. intros w. unfold now. eauto. Qed.

Section Returns.

Variable o : DaemonOptions.
Hypothesis probe_returns :
  forall h name, exists alive, isSessionAlive (opt_tmux o) h name = Ok alive.
Hypothesis triage_returns :
  forall h args, exists verdict, opt_triage o h args = Ok verdict.
Hypothesis observer_returns :
  forall f, onHealthCheck o = Some f ->
  forall h check, exists u, f h check = Ok u.

Ltac returns_step :=
  match goal with
  | |- forall _, _ => intro
  | |- returns (bind _ _) => apply returns_bind
  | |- returns (ret _) => apply returns_ret
  | |- returns (tryKill _ _) => apply returns_swallow
  | |- returns (tryNudge _ _ _ _) => apply returns_swallow
  | |- returns now => apply returns_now
  | |- returns (call _ _) => apply returns_call; intros; apply triage_returns
  | |- returns (match ?x with _ => _ end) => destruct x
  end.

Lemma returns_executeEscalationAction s alive tier1 :
  returns
    (executeEscalationAction
       (mkCtx s (root o) alive tier1 (opt_tmux o) (opt_triage o)
          (opt_nudge o))).
Proof.
  unfold executeEscalationAction.
  cbn [ctx_session ctx_root ctx_tmuxAlive ctx_tier1Enabled ctx_tmux
       ctx_triage ctx_nudge].
  destruct (escalationLevel s) as [|[[p|p|]|[p|p|]|]|p];
    repeat returns_step.
Qed.

Lemma returns_monitorSession s u : returns (monitorSession o s u).
Proof.
  unfold monitorSession. destruct (decide _); [apply returns_ret|].
  apply returns_bind.
  - unfold assess.
    apply returns_bind; [apply returns_call; intros; apply probe_returns|].
    intros alive. apply returns_bind; [apply returns_now|]. intros t.
    destruct (decide _);
      (apply returns_bind; [|intros; apply returns_ret]);
      unfold reportCheck; (destruct (onHealthCheck o) as [f|] eqn:Hf;
        [apply returns_call; intros; now apply observer_returns
        |apply returns_ret]).
  - intros [[[alive check] s1] u1]. unfold act.
    destruct (action check); repeat returns_step.
    unfold escalate. apply returns_bind.
    + unfold raisePhase, beginStall. repeat returns_step.
    + intros [s2 u2].
      apply returns_bind; [apply returns_executeEscalationAction|].
      repeat returns_step.
Qed.

Lemma returns_monitorSessions l : forall u, returns (monitorSessions o l u).
Proof.
  induction l as [|s l IH]; intros u; simpl; [apply returns_ret|].
  apply returns_bind; [apply returns_monitorSession|].
  intros [s1 u1]. apply returns_bind; [apply IH|].
  intros [l1 u2]. apply returns_ret.
Qed.

(** With a registry that parses and collaborators that do not throw, the
    tick returns. *)
Lemma runDaemonTick_returns w l :
  parseRegistry (files w !! sessionsPathOf (root o)) = Ok l ->
  exists w', runDaemonTick o w = (Ok tt, w').
Proof.
  intros Hl. rewrite runDaemonTick_cases, Hl.
  destruct (returns_monitorSessions l false w) as ([l' u'] & w1 & ->).
  destruct u'; [unfold saveSessions|]; eauto.
Qed.

End Returns.

(** *** The observer *)





(** The action of a level reports a change of state exactly when it
    reports a termination. *)
Lemma executeEscalationAction_result ctx w r w' :
  executeEscalationAction ctx w = (Ok r, w') ->
  stateChanged r = terminated r.
Proof.
  unfold executeEscalationAction, bind, tryNudge, tryKill, swallow, attempt,
    call, ret.
  destruct (escalationLevel (ctx_session ctx)) as [|[[p|p|]|[p|p|]|]|p];
    try (destruct (ctx_tmuxAlive ctx); intros [= <- <-]; reflexivity);
    try (intros [= <- <-]; reflexivity).
  destruct (ctx_tier1Enabled ctx); cbn; [|intros [= <- <-]; reflexivity].
  destruct (ctx_triage ctx _ _) as [[]|e]; cbn; try discriminate;
    try (destruct (ctx_tmuxAlive ctx)); intros [= <- <-]; reflexivity.
Qed.

Lemma escalate_inv o n tier1 a s u w s' u' w' :
  escalate o n tier1 a s u w = (Ok (s', u'), w') ->
  exists sr ur wr r wx,
    raisePhase n s u w = (Ok (sr, ur), wr) /\
    executeEscalationAction
      (mkCtx sr (root o) a tier1 (opt_tmux o) (opt_triage o) (opt_nudge o))
      wr = (Ok r, wx) /\
    s' = (if terminated r then markZombie sr else sr) /\
    u' = (if terminated r then true else ur).
Proof.
  unfold escalate, bind.
  destruct (raisePhase n s u w) as [[[sr ur]|e] wr] eqn:Hr; [|discriminate].
  destruct (executeEscalationAction _ wr) as [[r|e] wx] eqn:Hx;
    [|discriminate].
  intros H. exists sr, ur, wr, r, wx. repeat split; [exact Hx| |];
    rewrite (executeEscalationAction_result _ _ _ _ Hx) in H;
    destruct (terminated r); now injection H as <- <- <-.
Qed.

(** *** The escalation fields move together *)

Lemma stallInvariant_markZombie s : stallInvariant (markZombie s).
Proof. intros _. reflexivity. Qed.

Lemma stallInvariant_resetEscalation s : stallInvariant (resetEscalation s).
Proof. intros _. reflexivity. Qed.

Lemma stallInvariant_set_state s st :
  stallInvariant s -> stallInvariant (set_state s st).
Proof. exact (fun H => H). Qed.

Lemma escalate_outcome o n tier1 alive s u w s' u' w' :
  escalate o n tier1 alive s u w = (Ok (s', u'), w') ->
  exists s1 u1 w1,
    raisePhase n s u w = (Ok (s1, u1), w1) /\
    (s' = s1 \/ s' = markZombie s1).
Proof.
  unfold escalate, bind.
  destruct (raisePhase n s u w) as [[[s1 u1]|e] w1] eqn:Hr; [|discriminate].
  destruct (executeEscalationAction _ w1) as [[r|e] w2]; [|discriminate].
  intros H. exists s1, u1, w1. split; [reflexivity|].
  destruct (terminated r); [injection H as <- <- <-; auto|].
  destruct (stateChanged r); injection H as <- <- <-; auto.
Qed.

Lemma monitorSession_stallInvariant o s u w s' u' w' :
  stallInvariant s ->
  monitorSession o s u w = (Ok (s', u'), w') ->
  stallInvariant s'.
Proof.
  intros Hs. unfold monitorSession.
  destruct (decide _); [now intros [= <- <- <-]|].
  unfold bind.
  destruct (assess o s u w) as [[[[[alive check] s1] u1]|e] w1] eqn:Ha;
    [|discriminate].
  destruct (assess_session _ _ _ _ _ _ _ _ _ Ha) as [st ->].
  unfold act. destruct (action check).
  - destruct (stalledSince (set_state s st)) eqn:E; intros [= <- <- <-].
    + apply stallInvariant_resetEscalation.
    + now apply stallInvariant_set_state.
  - intros He. apply escalate_outcome in He as (s2 & u2 & w2 & Hr & Hs').
    apply raisePhase_ok in Hr as ((lvl & since & ->) & _).
    destruct Hs' as [->| ->]; [discriminate|].
    apply stallInvariant_markZombie.
  - intros [= <- <- <-]. now apply stallInvariant_set_state.
  - unfold bind. destruct alive; cbn; intros [= <- <- <-];
      apply stallInvariant_markZombie.
Qed.

Lemma monitorSessions_stallInvariant o l :
  forall u w l' u' w',
    Forall stallInvariant l ->
    monitorSessions o l u w = (Ok (l', u'), w') ->
    Forall stallInvariant l'.
Proof.
  induction l as [|s l IH]; intros u w l' u' w' Hl.
  - intros [= <- <- <-]. constructor.
  - rewrite monitorSessions_cons.
    destruct (monitorSession o s u w) as [[[s1 u1]|e] w1] eqn:E1;
      [|discriminate].
    destruct (monitorSessions o l u1 w1) as [[[l1 u2]|e] w2] eqn:E2;
      [|discriminate].
    intros [= <- <- <-]. inversion Hl; subst. constructor.
    + eapply monitorSession_stallInvariant; eauto.
    + eapply IH; eauto.
Qed.

(** C3, as the code has it. In the registry a tick leaves behind, every
    record with [stalledSince = null] has [escalationLevel = 0], provided
    that held of the records the tick loaded. (The converse is not an
    invariant: a stall episode begins, and may stay, at level 0.) *)
Theorem null_stall_means_level_zero o w raws w' :
  files w !! sessionsPathOf (root o) = Some (JsonArray raws) ->
  Forall stallInvariant (map backfill raws) ->
  runDaemonTick o w = (Ok tt, w') ->
  exists raws',
    files w' !! sessionsPathOf (root o) = Some (JsonArray raws') /\
    Forall stallInvariant (map backfill raws').
Proof.
  intros Hf Hinv. rewrite runDaemonTick_cases, Hf. cbn [parseRegistry].
  destruct (monitorSessions o _ false w) as [[[l' u']|e] w1] eqn:Hm;
    [|discriminate].
  pose proof (monitorSessions_stallInvariant _ _ _ _ _ _ _ Hinv Hm) as Hl'.
  destruct u'.
  - unfold saveSessions. intros [= <-]. cbn [files].
    exists (map stored l'). rewrite lookup_insert_eq. split; [reflexivity|].
    rewrite map_map. erewrite map_ext; [rewrite map_id; exact Hl'|].
    intros s. apply backfill_stored.
  - intros [= <-]. exists raws.
    destruct (emits_extends _ _ _ _ (emits_monitorSessions o _ false) Hm)
      as (evs & T & F & W).
    rewrite F. auto.
Qed.

(** *** The level follows the elapsed time *)

Lemma expectedLevel_pos stalledMs n :
  0 < n -> expectedLevel stalledMs n = JsInt (Z.min (stalledMs / n) 3).
Proof.
  intros Hn. unfold expectedLevel, js_floor_div.
  destruct (Z.eqb_spec n 0); [lia|reflexivity].
Qed.

(** With a positive interval the raise step sets the level to the larger of
    the level it finds and the level the elapsed time calls for. *)
Lemma raiseLevel_level n t since s u :
  0 < n ->
  escalationLevel (fst (raiseLevel n t since s u)) =
    Z.max (escalationLevel s) (Z.min ((t - since) / n) 3).
Proof.
  intros Hn. unfold raiseLevel. rewrite expectedLevel_pos by exact Hn.
  cbn [js_gt]. destruct (Z.ltb_spec (escalationLevel s)
                           (Z.min ((t - since) / n) 3)); cbn; lia.
Qed.

Lemma raiseLevel_stalledSince n t since s u :
  stalledSince (fst (raiseLevel n t since s u)) = stalledSince s.
Proof.
  destruct (raiseLevel_fields n t since s u) as [lvl ->]. reflexivity.
Qed.

Lemma elapsed_level_mono n since t t' :
  0 < n -> t <= t' ->
  Z.min ((t - since) / n) 3 <= Z.min ((t' - since) / n) 3.
Proof.
  intros Hn Ht. apply Z.min_le_compat_r, Z.div_le_mono; lia.
Qed.

Lemma elapsed_level_nonneg n since t :
  0 < n -> since <= t -> 0 <= Z.min ((t - since) / n) 3.
Proof.
  intros Hn Ht. apply Z.min_glb; [apply Z.div_pos|]; lia.
Qed.

Lemma clockReads_snoc h t : clockReads (h ++ [EvClock t]) = clockReads h ++ [t].
Proof. unfold clockReads. now rewrite omap_app. Qed.

(** What the raise step of a tick leaves, for a positive interval: in an
    open episode, the larger of the level on record and the level of the
    elapsed time; in the tick that opens the episode, the level of the time
    between its two reads of the clock. *)
Lemma raiseStep_level o s u w sr t :
  0 < default 60000 (nudgeIntervalMs o) ->
  raiseStep o s u w sr t ->
  match stalledSince s with
  | Some since =>
      stalledSince sr = Some since /\
      escalationLevel sr =
        Z.max (escalationLevel s)
          (Z.min ((t - since) / default 60000 (nudgeIntervalMs o)) 3)
  | None =>
      exists since,
        stalledSince sr = Some since /\
        escalationLevel sr =
          Z.max 0 (Z.min ((t - since) / default 60000 (nudgeIntervalMs o)) 3)
  end.
Proof.
  intros Hn (_ & alive & check & s1 & u1 & w1 & ur & wr & Ha & _ & Hr & Ht).
  destruct (assess_session _ _ _ _ _ _ _ _ _ Ha) as [st ->].
  rewrite raisePhase_spec in Hr. cbn [stalledSince set_state] in Hr.
  destruct (stalledSince s) as [since|] eqn:Hs; cbn zeta in Hr.
  - match type of Hr with
    | (Ok (raiseLevel ?n ?t' ?c ?d ?e), _) = _ =>
        pose proof (raiseLevel_level n t' c d e Hn) as Hl;
        pose proof (raiseLevel_stalledSince n t' c d e) as Hst;
        destruct (raiseLevel n t' c d e) as [s2 u2]
    end.
    injection Hr as <- <- <-. cbn [fst] in Hl, Hst.
    cbn [trace record] in Ht. rewrite clockReads_snoc, last_snoc in Ht.
    injection Ht as <-. split; [now rewrite Hst|exact Hl].
  - match type of Hr with
    | (Ok (raiseLevel ?n ?t' ?c ?d ?e), _) = _ =>
        pose proof (raiseLevel_level n t' c d e Hn) as Hl;
        pose proof (raiseLevel_stalledSince n t' c d e) as Hst;
        destruct (raiseLevel n t' c d e) as [s2 u2]
    end.
    injection Hr as <- <- <-. cbn [fst] in Hl, Hst.
    cbn [trace record] in Ht. rewrite clockReads_snoc, last_snoc in Ht.
    injection Ht as <-. eexists. split; [exact Hst|exact Hl].
Qed.

(** The raise step is a step of the loop body: after it the body goes on
    with the action of the level the step left. *)
Lemma raiseStep_in_tick o s u w sr t :
  raiseStep o s u w sr t ->
  exists alive ur wr,
    last (clockReads (trace wr)) = Some t /\
    monitorSession o s u w =
      bind (executeEscalationAction
              (mkCtx sr (root o) alive (default false (tier1Enabled o))
                 (opt_tmux o) (opt_triage o) (opt_nudge o)))
        (fun actionResult =>
           if terminated actionResult then ret (markZombie sr, true)
           else if stateChanged actionResult then ret (sr, true)
           else ret (sr, ur)) wr.
Proof.
  intros (Hc & alive & check & s1 & u1 & w1 & ur & wr & Ha & He & Hr & Ht).
  exists alive, ur, wr. split; [exact Ht|].
  unfold monitorSession. destruct (decide _); [contradiction|].
  unfold bind at 1. rewrite Ha. unfold act. rewrite He.
  unfold escalate. unfold bind at 1. rewrite Hr. reflexivity.
Qed.


(** A tick that returns with the episode still open leaves the record of
    its raise step. *)
Lemma raiseStep_kept o s u w sr t s' u' w' since :
  raiseStep o s u w sr t ->
  monitorSession o s u w = (Ok (s', u'), w') ->
  stalledSince s' = Some since ->
  s' = sr.
Proof.
  intros (Hc & alive & check & s1 & u1 & w1 & ur & wr & Ha & He & Hr & _).
  unfold monitorSession. destruct (decide _); [contradiction|].
  unfold bind. rewrite Ha. unfold act. rewrite He.
  intros Hesc Hs'.
  apply escalate_inv in Hesc
    as (sr' & ur' & wr' & r & wx & Hr' & _ & -> & _).
  rewrite Hr in Hr'. injection Hr' as <- <- <-.
  destruct (terminated r); [discriminate|reflexivity].
Qed.

Lemma stalledSoFar_begin o since s t0 :
  stalledSoFar o since s t0 ->
  match stalledSince s with
  | Some since' => since' = since
  | None => t0 = since
  end.
Proof.
  destruct 1 as [s Hs|s t0 u w sr t s' u' w' _ _ _ Hs' _].
  - now rewrite Hs.
  - now rewrite Hs'.
Qed.

(** In an open episode the level on record is the level of the time elapsed
    at the last raise step. *)
Lemma stalledSoFar_level o since s t0 :
  0 < default 60000 (nudgeIntervalMs o) ->
  stalledSoFar o since s t0 ->
  since <= t0 /\
  (stalledSince s = Some since ->
   escalationLevel s =
     Z.min ((t0 - since) / default 60000 (nudgeIntervalMs o)) 3).
Proof.
  intros Hn. induction 1 as [s Hs|s t0 u w sr t s' u' w' Hso IH Hrs Hm Hs' Ht].
  - split; [lia|]. rewrite Hs. discriminate.
  - destruct IH as [Hle IH]. split; [lia|]. intros _.
    pose proof (raiseStep_kept _ _ _ _ _ _ _ _ _ _ Hrs Hm Hs') as ->.
    pose proof (raiseStep_level _ _ _ _ _ _ Hn Hrs) as Hl.
    pose proof (stalledSoFar_begin _ _ _ _ Hso) as Hb.
    destruct (stalledSince s) as [since'|].
    + subst since'. destruct Hl as [_ ->]. rewrite IH by reflexivity.
      pose proof (elapsed_level_mono _ since _ _ Hn Ht). lia.
    + subst t0. destruct Hl as (since' & Hst & ->).
      rewrite Hs' in Hst. injection Hst as <-.
      pose proof (elapsed_level_nonneg _ since t Hn Ht). lia.
Qed.

(** C2, as the code has it. Take a positive [nudgeIntervalMs] and a stall
    episode that a tick opened at [since] and that earlier ticks, any number
    of them, have kept open, each under the verdict [escalate] and none
    reading the clock earlier than the one before. Then the raise step of a
    tick that reads the clock at [t], not earlier than the ticks before,
    leaves the level at [min (floor ((t - since) / nudgeIntervalMs)) 3]:
    the level depends on the elapsed time only, not on the ticks in between;
    it is not below the level on record, and not above the level of any
    later instant. *)
Theorem level_follows_elapsed_time o since s t0 u w sr t :
  0 < default 60000 (nudgeIntervalMs o) ->
  stalledSoFar o since s t0 ->
  raiseStep o s u w sr t ->
  stalledSince sr = Some since ->
  t0 <= t ->
  escalationLevel sr =
    Z.min ((t - since) / default 60000 (nudgeIntervalMs o)) 3 /\
  (stalledSince s = Some since -> escalationLevel s <= escalationLevel sr) /\
  forall t',
    t <= t' ->
    escalationLevel sr <=
      Z.min ((t' - since) / default 60000 (nudgeIntervalMs o)) 3.
Proof.
  intros Hn Hso Hrs Hsr Ht.
  destruct (stalledSoFar_level _ _ _ _ Hn Hso) as [Hle Hlvl].
  pose proof (raiseStep_level _ _ _ _ _ _ Hn Hrs) as Hl.
  pose proof (stalledSoFar_begin _ _ _ _ Hso) as Hb.
  assert (Heq : escalationLevel sr =
                Z.min ((t - since) / default 60000 (nudgeIntervalMs o)) 3 /\
                (stalledSince s = Some since ->
                 escalationLevel s <= escalationLevel sr)).
  { destruct (stalledSince s) as [since'|].
    - subst since'. destruct Hl as [_ ->]. rewrite Hlvl by reflexivity.
      pose proof (elapsed_level_mono _ since _ _ Hn Ht). lia.
    - subst t0. destruct Hl as (since' & Hst & ->).
      rewrite Hsr in Hst. injection Hst as <-.
      pose proof (elapsed_level_nonneg _ since t Hn Ht).
      split; [lia|discriminate]. }
  destruct Heq as [Heq Hmono]. split; [exact Heq|]. split; [exact Hmono|].
  intros t' Ht'. rewrite Heq. now apply elapsed_level_mono.
Qed.

End Properties.

(* ================================================================== *)
(** ** Two runs in an unchanging environment *)

Section Agreement.

(** *** Runs that end the same way *)

Lemma agree_ret {A} (a : A) : agree (ret a) (ret a).
Proof. intros w w'. reflexivity. Qed.

Lemma agree_bind {A B} (m m' : M A) (k k' : A -> M B) :
  agree m m' -> (forall a, agree (k a) (k' a)) ->
  agree (bind m k) (bind m' k').
Proof.
  intros Hm Hk w w'. unfold bind. specialize (Hm w w').
  destruct (m w) as [[a|e] w1], (m' w') as [[a'|e'] w1'];
    cbn in Hm; try discriminate; injection Hm as <-; [apply Hk|reflexivity].
Qed.

Lemma agree_call {A} (oracle oracle' : History -> Outcome A) ev ev' :
  (forall h h', oracle h = oracle' h') ->
  agree (call oracle ev) (call oracle' ev').
Proof. intros H w w'. cbn. apply H. Qed.

Lemma agree_swallow {A} (m m' : M A) : agree (swallow m) (swallow m').
Proof.
  intros w w'. unfold swallow, attempt, bind, ret.
  destruct (m w), (m' w'). reflexivity.
Qed.

Lemma agree_tryKill tmux tmux' name name' :
  agree (tryKill tmux name) (tryKill tmux' name').
Proof. apply agree_swallow. Qed.

Lemma agree_tryNudge nudge nudge' r r' name name' msg msg' :
  agree (tryNudge nudge r name msg) (tryNudge nudge' r' name' msg').
Proof. apply agree_swallow. Qed.

Lemma agree_left {A} (m m' : M A) : agree m m' -> agree m m.
Proof.
  intros H w w'. rewrite (H w w'). symmetry. apply (H w' w').
Qed.

Variable Date_now : History -> Z.
Variable evaluateHealth :
  AgentSession -> bool -> Thresholds -> Z -> HealthCheck.
Variable transitionState : AgentState -> HealthCheck -> AgentState.
Variable o : DaemonOptions.
Variable t : Z.
Variable alive0 : string -> Outcome bool.
Variable triage0 : TriageOptions -> Outcome TriageVerdict.
Variable observe0 : HealthCheck -> Outcome unit.
Hypothesis env : unchanging Date_now o t alive0 triage0 observe0.

Local Abbreviation o0 := (frozenOptions o alive0 triage0 observe0).

Lemma agree_now : agree (now Date_now) (now (frozenClock t)).
Proof. intros w w'. cbn. f_equal. apply env. Qed.

Lemma env_probe h h' name :
  isSessionAlive (opt_tmux o) h name = isSessionAlive (opt_tmux o0) h' name.
Proof. apply env. Qed.

Lemma env_triage h h' args : opt_triage o h args = opt_triage o0 h' args.
Proof. apply env. Qed.

Ltac agree_step :=
  match goal with
  | |- forall _, _ => intro
  | |- agree (bind _ _) (bind _ _) => apply agree_bind
  | |- agree (ret _) (ret _) => apply agree_ret
  | |- agree (tryKill _ _) (tryKill _ _) => apply agree_tryKill
  | |- agree (tryNudge _ _ _ _) (tryNudge _ _ _ _) => apply agree_tryNudge
  | |- agree (now _) (now _) => apply agree_now
  | |- agree (call _ _) (call _ _) =>
      apply agree_call; intros; apply env_triage
  | |- agree (match ?x with _ => _ end) (match ?x with _ => _ end) =>
      destruct x
  end.

Lemma agree_executeEscalationAction s alive tier1 :
  agree
    (executeEscalationAction
       (mkCtx s (root o) alive tier1 (opt_tmux o) (opt_triage o)
          (opt_nudge o)))
    (executeEscalationAction
       (mkCtx s (root o0) alive tier1 (opt_tmux o0) (opt_triage o0)
          (opt_nudge o0))).
Proof.
  unfold executeEscalationAction.
  cbn [ctx_session ctx_root ctx_tmuxAlive ctx_tier1Enabled ctx_tmux
       ctx_triage ctx_nudge].
  destruct (escalationLevel s) as [|[[p|p|]|[p|p|]|]|p];
    repeat agree_step.
Qed.

Lemma agree_raisePhase n s u :
  agree (raisePhase Date_now n s u) (raisePhase (frozenClock t) n s u).
Proof.
  intros w w'. rewrite !raisePhase_spec. destruct env as (Hc & _).
  destruct (stalledSince s); cbn; rewrite !Hc; reflexivity.
Qed.

Lemma agree_escalate n tier1 alive s u :
  agree (escalate Date_now o n tier1 alive s u)
    (escalate (frozenClock t) o0 n tier1 alive s u).
Proof.
  unfold escalate. apply agree_bind; [apply agree_raisePhase|].
  intros [s1 u1]. apply agree_bind; [apply agree_executeEscalationAction|].
  repeat agree_step.
Qed.

Lemma agree_reportCheck check : agree (reportCheck o check) (reportCheck o0 check).
Proof.
  unfold reportCheck. cbn [onHealthCheck frozenOptions].
  destruct (onHealthCheck o) as [f|] eqn:Hf; [|apply agree_ret].
  apply agree_call. intros h h'. destruct env as (_ & _ & _ & Ho).
  now apply Ho.
Qed.

Lemma agree_assess s u :
  agree (assess Date_now evaluateHealth transitionState o s u)
    (assess (frozenClock t) evaluateHealth transitionState o0 s u).
Proof.
  unfold assess.
  apply agree_bind; [apply agree_call; intros; apply env_probe|].
  intros alive. apply agree_bind; [apply agree_now|]. intros t'.
  cbn [staleThresholdMs zombieThresholdMs frozenOptions].
  destruct (decide _); (apply agree_bind; [apply agree_reportCheck|]);
    intros _; apply agree_ret.
Qed.

Lemma agree_act alive check s u :
  agree (act Date_now o alive check s u)
    (act (frozenClock t) o0 alive check s u).
Proof.
  unfold act. destruct (action check).
  - repeat agree_step.
  - apply agree_escalate.
  - apply agree_ret.
  - repeat agree_step.
Qed.

Lemma agree_monitorSession s u :
  agree (monitorSession Date_now evaluateHealth transitionState o s u)
    (monitorSession (frozenClock t) evaluateHealth transitionState o0 s u).
Proof.
  unfold monitorSession. destruct (decide _); [apply agree_ret|].
  apply agree_bind; [apply agree_assess|].
  intros [[[alive check] s1] u1]. apply agree_act.
Qed.

Lemma agree_monitorSessions l :
  forall u,
    agree (monitorSessions Date_now evaluateHealth transitionState o l u)
      (monitorSessions (frozenClock t) evaluateHealth transitionState o0 l u).
Proof.
  induction l as [|s l IH]; intros u; simpl; [apply agree_ret|].
  apply agree_bind; [apply agree_monitorSession|].
  intros [s1 u1]. apply agree_bind; [apply IH|].
  intros [l1 u2]. apply agree_ret.
Qed.


End Agreement.

(* ================================================================== *)
(** ** A second run in an unchanging environment finds nothing to do *)

Section Idempotence.

Variable o : DaemonOptions.
Variable t : Z.
Variable alive0 : string -> Outcome bool.
Variable triage0 : TriageOptions -> Outcome TriageVerdict.
Variable observe0 : HealthCheck -> Outcome unit.

Local Abbreviation o0 := (frozenOptions o alive0 triage0 observe0).
Local Abbreviation evalH := SpecHealth.evaluateHealth.
Local Abbreviation thresholds :=
  (mkThresholds (staleThresholdMs o) (zombieThresholdMs o)).
Local Abbreviation raisePhase0 := (raisePhase (frozenClock t)).
Local Abbreviation escalate0 := (escalate (frozenClock t) o0).
Local Abbreviation assess0 :=
  (assess (frozenClock t) SpecHealth.evaluateHealth
     SpecHealth.transitionState o0).
Local Abbreviation act0 := (act (frozenClock t) o0).
Local Abbreviation run0 :=
  (monitorSession (frozenClock t) SpecHealth.evaluateHealth
     SpecHealth.transitionState o0).
Local Abbreviation runs0 :=
  (monitorSessions (frozenClock t) SpecHealth.evaluateHealth
     SpecHealth.transitionState o0).

Lemma frozen_unchanging :
  unchanging (frozenClock t) o0 t alive0 triage0 observe0.
Proof.
  repeat split; try reflexivity.
  cbn. intros f Hf h check. destruct (onHealthCheck o); [|discriminate].
  now injection Hf as <-.
Qed.

(** In the frozen environment the way the action of a level ends does not
    depend on the world it starts in. *)
Lemma execute0_indep s alive tier1 w w' :
  fst (executeEscalationAction
         (mkCtx s (root o0) alive tier1 (opt_tmux o0) (opt_triage o0)
            (opt_nudge o0)) w) =
  fst (executeEscalationAction
         (mkCtx s (root o0) alive tier1 (opt_tmux o0) (opt_triage o0)
            (opt_nudge o0)) w').
Proof.
  apply (agree_left _ _
           (agree_executeEscalationAction _ _ _ _ _ _ frozen_unchanging
              s alive tier1)).
Qed.

(** *** The raise step at a standing clock *)

Lemma raiseLevel_idem n tt since s u u2 :
  raiseLevel n tt since (fst (raiseLevel n tt since s u)) u2 =
    (fst (raiseLevel n tt since s u), u2).
Proof.
  unfold raiseLevel.
  destruct (js_gt _ (escalationLevel s)) eqn:G; cbn [fst].
  - destruct (expectedLevel (tt - since) n) as [e| | |] eqn:E; cbn [fst];
      rewrite ?G; try reflexivity.
    cbn. now rewrite Z.ltb_irrefl.
  - now rewrite G.
Qed.

Lemma raisePhase0_idem n s u w sr ur wr :
  raisePhase0 n s u w = (Ok (sr, ur), wr) ->
  forall u2 w2,
    raisePhase0 n sr u2 w2 = (Ok (sr, u2), record (EvClock t) w2).
Proof.
  rewrite raisePhase_spec. unfold frozenClock.
  destruct (stalledSince s) as [since|] eqn:Hs; cbn zeta;
    intros H u2 w2; rewrite raisePhase_spec.
  - assert (sr = fst (raiseLevel n t since s u)) as ->
      by (injection H as H1 _; now rewrite H1).
    rewrite raiseLevel_stalledSince, Hs. cbn zeta.
    now rewrite raiseLevel_idem.
  - match type of H with
    | (Ok (raiseLevel ?a ?b ?c ?d ?e), _) = _ =>
        assert (sr = fst (raiseLevel a b c d e)) as ->
          by (injection H as H1 _; now rewrite H1)
    end.
    rewrite raiseLevel_stalledSince. cbn [stalledSince set_escalationLevel
      set_stalledSince]. cbn zeta.
    now rewrite raiseLevel_idem.
Qed.

(** *** The evaluator of the specification *)

Lemma evalH_zombie s a thr tt :
  state s = zombie ->
  action (evalH s a thr tt) = if a then ActInvestigate else ActNone.
Proof.
  intros H. unfold SpecHealth.evaluateHealth. cbn [action].
  destruct (decide _); [reflexivity|contradiction].
Qed.

Lemma evalH_not_zombie s a thr tt :
  action (evalH s a thr tt) = ActTerminate \/
  action (evalH s a thr tt) = ActEscalate ->
  state s <> zombie.
Proof.
  intros H Hz. rewrite (evalH_zombie _ _ _ _ Hz) in H.
  destruct a, H; discriminate.
Qed.

Lemma transitionState_holds st check :
  action check <> ActTerminate ->
  SpecHealth.transitionState st check = st.
Proof.
  unfold SpecHealth.transitionState. destruct (action check); congruence.
Qed.

Lemma transitionState_terminate st check :
  action check = ActTerminate ->
  SpecHealth.transitionState st check = zombie.
Proof. unfold SpecHealth.transitionState. now intros ->. Qed.

(** *** The shape of a run in the frozen environment *)

Lemma run0_shape s u w :
  state s <> completed ->
  (exists e, fst (run0 s u w) = Raised e) \/
  exists a wa,
    alive0 (tmuxSession s) = Ok a /\
    run0 s u w =
      act0 a (evalH s a thresholds t)
        (if decide (SpecHealth.transitionState (state s)
                      (evalH s a thresholds t) = state s)
         then s
         else set_state s (SpecHealth.transitionState (state s)
                             (evalH s a thresholds t)))
        (if decide (SpecHealth.transitionState (state s)
                      (evalH s a thresholds t) = state s)
         then u else true)
        wa.
Proof.
  intros Hc. unfold monitorSession. destruct (decide _); [contradiction|].
  unfold bind.
  destruct (assess0 s u w) as [[[[[a c] s1] u1]|e] wa] eqn:Ha;
    [right|left; eauto].
  destruct (assess_ok _ _ _ _ _ _ _ _ _ _ _ _ Ha) as (Hp & -> & Hs & _).
  exists a, wa. split; [exact Hp|].
  cbn [staleThresholdMs zombieThresholdMs frozenOptions] in *.
  unfold frozenClock in *.
  destruct (decide _); now injection Hs as -> ->.
Qed.

(** [settled s]: a run on [s] in the frozen environment leaves the record
    and the flag as they are, or ends with an exception. *)
Local Abbreviation settled s :=
  (forall u w,
      fst (run0 s u w) = Ok (s, u) \/ exists e, fst (run0 s u w) = Raised e).

Lemma settled_completed s : state s = completed -> settled s.
Proof.
  intros H u w. left. now rewrite monitorSession_completed.
Qed.

Lemma settled_investigate s a :
  state s <> completed ->
  alive0 (tmuxSession s) = Ok a ->
  action (evalH s a thresholds t) = ActInvestigate ->
  settled s.
Proof.
  intros Hc Ha Hact u w.
  destruct (run0_shape s u w Hc) as [?|(a' & wa & Ha' & ->)]; [now right|].
  left. rewrite Ha in Ha'. injection Ha' as <-.
  rewrite transitionState_holds by (rewrite Hact; discriminate).
  destruct (decide _); [|contradiction].
  unfold act. now rewrite Hact.
Qed.

Lemma settled_none s a :
  state s <> completed ->
  alive0 (tmuxSession s) = Ok a ->
  action (evalH s a thresholds t) = ActNone ->
  stalledSince s = None ->
  settled s.
Proof.
  intros Hc Ha Hact Hs u w.
  destruct (run0_shape s u w Hc) as [?|(a' & wa & Ha' & ->)]; [now right|].
  left. rewrite Ha in Ha'. injection Ha' as <-.
  rewrite transitionState_holds by (rewrite Hact; discriminate).
  destruct (decide _); [|contradiction].
  unfold act. now rewrite Hact, Hs.
Qed.

Lemma settled_markZombie s a :
  alive0 (tmuxSession s) = Ok a -> settled (markZombie s).
Proof.
  intros Ha.
  pose proof (evalH_zombie (markZombie s) a thresholds t eq_refl) as Hact.
  destruct a.
  - now apply (settled_investigate _ true).
  - now apply (settled_none _ false).
Qed.

(** After a step that went on past the raise without a termination, the
    same step finds the level where it should be and gets the same answer
    from the action of the level. *)
Lemma settled_escalated s a sr ur wr r wx u w :
  state s <> completed ->
  alive0 (tmuxSession s) = Ok a ->
  action (evalH s a thresholds t) = ActEscalate ->
  raisePhase0 (default 60000 (nudgeIntervalMs o)) s u w
    = (Ok (sr, ur), wr) ->
  executeEscalationAction
    (mkCtx sr (root o0) a (default false (tier1Enabled o)) (opt_tmux o0)
       (opt_triage o0) (opt_nudge o0)) wr = (Ok r, wx) ->
  terminated r = false ->
  settled sr.
Proof.
  intros Hc Ha Hact Hr Hx Ht u2 w2.
  destruct (raisePhase_ok _ _ _ _ _ _ _ _ Hr) as ((lvl & since & ->) & _).
  set (sr := set_escalationLevel (set_stalledSince s (Some since)) lvl) in *.
  destruct (run0_shape sr u2 w2 Hc) as [?|(a' & wa & Ha' & ->)]; [now right|].
  left. change (tmuxSession sr) with (tmuxSession s) in Ha'.
  rewrite Ha in Ha'. injection Ha' as <-.
  change (evalH sr a thresholds t) with (evalH s a thresholds t).
  rewrite transitionState_holds by (rewrite Hact; discriminate).
  change (state sr) with (state s).
  destruct (decide _); [|contradiction].
  unfold act. rewrite Hact. unfold escalate, bind.
  cbn [nudgeIntervalMs tier1Enabled frozenOptions].
  rewrite (raisePhase0_idem _ _ _ _ _ _ _ Hr).
  pose proof (execute0_indep sr a (default false (tier1Enabled o)) wr
                (record (EvClock t) wa)) as Hi.
  rewrite Hx in Hi. cbn [fst] in Hi.
  destruct (executeEscalationAction _ (record (EvClock t) wa))
    as [[r2|e2] wx2] eqn:Hx2; cbn [fst] in Hi; [|discriminate].
  injection Hi as <-.
  pose proof (executeEscalationAction_result _ _ _ _ Hx) as Hsc.
  rewrite Ht in *. now rewrite Hsc.
Qed.

(** A run that returned leaves every record settled. *)
Lemma settled_after_run s u w s' u' w' :
  run0 s u w = (Ok (s', u'), w') -> settled s'.
Proof.
  intros H.
  destruct (decide (state s = completed)) as [Hc|Hc].
  { rewrite monitorSession_completed in H by exact Hc.
    injection H as <- <- <-. now apply settled_completed. }
  destruct (run0_shape s u w Hc) as [[e He]|(a & wa & Ha & Hrun)];
    [now rewrite H in He|].
  rewrite Hrun in H. clear Hrun.
  destruct (action (evalH s a thresholds t)) eqn:Hact.
  - (* none *)
    rewrite transitionState_holds in H by (rewrite Hact; discriminate).
    destruct (decide _); [|contradiction].
    unfold act in H. rewrite Hact in H.
    destruct (stalledSince s) eqn:Hs; injection H as <- <- <-.
    + now apply (settled_none _ a).
    + now apply (settled_none _ a).
  - (* escalate *)
    rewrite transitionState_holds in H by (rewrite Hact; discriminate).
    destruct (decide _); [|contradiction].
    unfold act in H. rewrite Hact in H.
    cbn [nudgeIntervalMs tier1Enabled frozenOptions] in H.
    apply escalate_inv in H as (sr & ur & wr & r & wx & Hr & Hx & -> & _).
    destruct (terminated r) eqn:Ht.
    + destruct (raisePhase_ok _ _ _ _ _ _ _ _ Hr) as ((lvl & since & ->) & _).
      now apply (settled_markZombie s a).
    + eapply settled_escalated; eauto.
  - (* investigate *)
    rewrite transitionState_holds in H by (rewrite Hact; discriminate).
    destruct (decide _); [|contradiction].
    unfold act in H. rewrite Hact in H. injection H as <- <- <-.
    now apply (settled_investigate _ a).
  - (* terminate *)
    unfold act in H. rewrite Hact in H. unfold bind in H.
    destruct (decide _);
      (destruct a; cbn in H; injection H as <- <- <-;
       exact (settled_markZombie s _ Ha)).
Qed.

Lemma settled_after_runs l :
  forall u w l' u' w',
    runs0 l u w = (Ok (l', u'), w') ->
    forall u2 w2,
      fst (runs0 l' u2 w2) = Ok (l', u2) \/
      exists e, fst (runs0 l' u2 w2) = Raised e.
Proof.
  induction l as [|s l IH]; intros u w l' u' w'.
  - intros [= <- <- <-] u2 w2. now left.
  - rewrite monitorSessions_cons.
    destruct (run0 s u w) as [[[s1 u1]|e] w1] eqn:E1; [|discriminate].
    destruct (runs0 l u1 w1) as [[[l1 u3]|e] w3] eqn:E2; [|discriminate].
    intros [= <- <- <-] u2 w2. rewrite monitorSessions_cons.
    destruct (settled_after_run _ _ _ _ _ _ E1 u2 w2) as [H|[e H]];
      destruct (run0 s1 u2 w2) as [[[s2 u4]|e2] w4]; cbn [fst] in H;
      try discriminate; [|right; eauto].
    injection H as -> ->.
    destruct (IH _ _ _ _ _ E2 u2 w4) as [H|[e H]];
      destruct (runs0 l1 u2 w4) as [[[l2 u5]|e2] w5]; cbn [fst] in H;
      try discriminate; [|right; eauto].
    injection H as -> ->. now left.
Qed.

End Idempotence.

(* ================================================================== *)
(** ** What a tick writes *)

Section Writes.

Variable Date_now : History -> Z.

Local Abbreviation evalH := SpecHealth.evaluateHealth.
Local Abbreviation run :=
  (monitorSession Date_now SpecHealth.evaluateHealth
     SpecHealth.transitionState).
Local Abbreviation runs :=
  (monitorSessions Date_now SpecHealth.evaluateHealth
     SpecHealth.transitionState).
Local Abbreviation tick :=
  (runDaemonTick Date_now SpecHealth.evaluateHealth
     SpecHealth.transitionState).

(** *** A raised flag means a changed record *)

Lemma raisePhase_changed n s w sr wr :
  raisePhase Date_now n s false w = (Ok (sr, true), wr) -> sr <> s.
Proof.
  rewrite raisePhase_spec.
  destruct (stalledSince s) as [since|] eqn:Hs; cbn zeta.
  - unfold raiseLevel.
    destruct (js_gt _ _) eqn:G; [|discriminate].
    destruct (expectedLevel _ _) as [e| | |]; try discriminate.
    intros [= <- _] E. cbn in G. apply Z.ltb_lt in G.
    apply (f_equal escalationLevel) in E. cbn in E. lia.
  - intros [= H _] E.
    match type of H with
    | raiseLevel ?a ?b ?c ?d ?e = _ =>
        pose proof (raiseLevel_stalledSince a b c d e) as Hst;
        rewrite H in Hst
    end.
    cbn in Hst. rewrite E, Hs in Hst. discriminate.
Qed.

Lemma run_changed o s w s' w' :
  run o s false w = (Ok (s', true), w') -> s' <> s.
Proof.
  unfold monitorSession. destruct (decide _); [discriminate|].
  unfold bind.
  destruct (assess _ _ _ o s false w) as [[[[[a c] s1] u1]|e] wa] eqn:Ha;
    [|discriminate].
  destruct (assess_ok _ _ _ _ _ _ _ _ _ _ _ _ Ha) as (_ & Hc & Hs & _).
  unfold act. destruct (action c) eqn:Hact.
  - rewrite transitionState_holds in Hs by (rewrite Hact; discriminate).
    destruct (decide _); [|contradiction]. injection Hs as -> ->.
    destruct (stalledSince s) eqn:Hst; [|discriminate].
    intros [= <- _] E. rewrite <- E in Hst. discriminate.
  - rewrite transitionState_holds in Hs by (rewrite Hact; discriminate).
    destruct (decide _); [|contradiction]. injection Hs as -> ->.
    intros H. apply escalate_inv in H
      as (sr & ur & wr & r & wx & Hr & Hx & -> & Hu).
    assert (Hz : state s <> zombie).
    { apply (evalH_not_zombie s a
               (mkThresholds (staleThresholdMs o) (zombieThresholdMs o))
               (Date_now (trace w ++
                  [EvIsSessionAlive (tmuxSession s) (Ok a)]))).
      right. now rewrite <- Hc. }
    destruct (terminated r).
    + destruct (raisePhase_ok _ _ _ _ _ _ _ _ Hr) as ((lvl & since & ->) & _).
      intros E. apply (f_equal state) in E. cbn in E. congruence.
    + subst ur. eapply raisePhase_changed, Hr.
  - rewrite transitionState_holds in Hs by (rewrite Hact; discriminate).
    destruct (decide _); [|contradiction]. injection Hs as -> ->.
    discriminate.
  - assert (Hz : state s <> zombie).
    { apply (evalH_not_zombie s a
               (mkThresholds (staleThresholdMs o) (zombieThresholdMs o))
               (Date_now (trace w ++
                  [EvIsSessionAlive (tmuxSession s) (Ok a)]))).
      left. now rewrite <- Hc. }
    destruct (assess_session _ _ _ _ _ _ _ _ _ _ _ _ Ha) as [st ->].
    unfold bind. destruct a; cbn; intros [= <- _] E;
      apply (f_equal state) in E; cbn in E; congruence.
Qed.

Lemma runs_changed o l :
  forall w l' w', runs o l false w = (Ok (l', true), w') -> l' <> l.
Proof.
  induction l as [|s l IH]; intros w l' w'; [discriminate|].
  rewrite monitorSessions_cons.
  destruct (run o s false w) as [[[s1 u1]|e] w1] eqn:E1; [|discriminate].
  destruct (runs o l u1 w1) as [[[l1 u2]|e] w2] eqn:E2; [|discriminate].
  intros [= <- -> <-] E. injection E as -> ->.
  destruct u1.
  - now apply run_changed in E1.
  - now apply IH in E2.
Qed.

(** A tick writes the registry at most once, and only when the pass changed
    a record; otherwise it leaves the files alone. *)
Lemma tick_writes o w r w' :
  tick o w = (r, w') ->
  exists evs,
    trace w' = trace w ++ evs /\
    ((writes evs = [] /\ files w' = files w) \/
     exists l l',
       parseRegistry (files w !! sessionsPathOf (root o)) = Ok l /\
       l' <> l /\
       writes evs = [(sessionsPathOf (root o), JsonArray (map stored l'))] /\
       files w' =
         <[sessionsPathOf (root o) := JsonArray (map stored l')]> (files w)).
Proof.
  rewrite runDaemonTick_cases.
  destruct (parseRegistry _) as [l|e] eqn:Hl.
  2:{ intros [= <- <-]. exists []. rewrite app_nil_r. auto. }
  destruct (runs o l false w) as [[[l' u']|e] w1] eqn:Hm.
  2:{ intros [= <- <-].
      destruct (emits_extends _ _ _ _
                  (emits_monitorSessions _ _ _ o l false) Hm)
        as (evs & T & F & W). eauto. }
  destruct (emits_extends _ _ _ _
              (emits_monitorSessions _ _ _ o l false) Hm)
    as (evs & T & F & W).
  destruct u'.
  - unfold saveSessions. intros [= <- <-]. cbn [trace files].
    exists (evs ++ [EvWrite (sessionsPathOf (root o))
                      (JsonArray (map stored l'))]).
    rewrite T, app_assoc. split; [reflexivity|]. right.
    exists l, l'. repeat split.
    + eapply runs_changed, Hm.
    + unfold writes in *. rewrite omap_app, W. reflexivity.
    + now rewrite F.
  - intros [= <- <-]. eauto.
Qed.

(** *** The second of two runs *)

Lemma tick_without_flag o w l l' r w' :
  parseRegistry (files w !! sessionsPathOf (root o)) = Ok l ->
  fst (runs o l false w) = Ok (l', false) \/
    (exists e, fst (runs o l false w) = Raised e) ->
  tick o w = (r, w') ->
  files w' = files w /\
  exists evs, trace w' = trace w ++ evs /\ writes evs = [].
Proof.
  intros Hl Hfst. rewrite runDaemonTick_cases, Hl.
  destruct (runs o l false w) as [[[l1 u1]|e] w1] eqn:Hm; cbn [fst] in Hfst.
  - destruct Hfst as [[= -> ->]|[e [=]]]. intros [= <- <-].
    destruct (emits_extends _ _ _ _
                (emits_monitorSessions _ _ _ o l false) Hm)
      as (evs & T & F & W). eauto.
  - intros [= <- <-].
    destruct (emits_extends _ _ _ _
                (emits_monitorSessions _ _ _ o l false) Hm)
      as (evs & T & F & W). eauto.
Qed.

Lemma parseRegistry_saved (fs : gmap string FileContent) path l :
  parseRegistry (<[path := JsonArray (map stored l)]> fs !! path) = Ok l.
Proof.
  rewrite lookup_insert_eq. cbn. f_equal. rewrite map_map.
  erewrite map_ext; [apply map_id|]. intros s. apply backfill_stored.
Qed.

(** C6, as the code has it. When the clock stands still and the probe,
    the triage and the observer give the same answers in both runs, the
    second of two ticks writes nothing and leaves the files as the first
    left them. In any tick the registry is written at most once, and only
    if the pass changed a record. *)
Theorem second_tick_writes_nothing o t alive0 triage0 observe0
    w r1 w1 r2 w2 :
  unchanging Date_now o t alive0 triage0 observe0 ->
  tick o w = (r1, w1) ->
  tick o w1 = (r2, w2) ->
  (files w2 = files w1 /\
   exists evs2, trace w2 = trace w1 ++ evs2 /\ writes evs2 = []) /\
  exists evs1,
    trace w1 = trace w ++ evs1 /\
    ((writes evs1 = [] /\ files w1 = files w) \/
     exists l l',
       parseRegistry (files w !! sessionsPathOf (root o)) = Ok l /\
       l' <> l /\
       writes evs1 = [(sessionsPathOf (root o), JsonArray (map stored l'))] /\
       files w1 =
         <[sessionsPathOf (root o) := JsonArray (map stored l')]> (files w)).
Proof.
  intros env H1 H2. split; [|eapply tick_writes, H1].
  pose proof (agree_monitorSessions Date_now SpecHealth.evaluateHealth
                SpecHealth.transitionState o t alive0 triage0 observe0 env)
    as Hag.
  assert (Hindep : forall l u wa wb,
             fst (runs o l u wa) = fst (runs o l u wb)).
  { intros l u. apply (agree_left _ _ (Hag l u)). }
  pose proof H1 as H1'. rewrite runDaemonTick_cases in H1'.
  destruct (parseRegistry (files w !! sessionsPathOf (root o)))
    as [l|e] eqn:Hl.
  2:{ injection H1' as <- <-. rewrite runDaemonTick_cases, Hl in H2.
      injection H2 as <- <-. split; [reflexivity|].
      exists []. now rewrite app_nil_r. }
  destruct (runs o l false w) as [[[l' u']|e] wa] eqn:Hm.
  - destruct u'.
    + (* the first run wrote [l'] *)
      unfold saveSessions in H1'. injection H1' as <- <-.
      eapply (tick_without_flag o _ l' l'); [apply parseRegistry_saved| |exact H2].
      pose proof (Hag l false w w) as Ha.
      rewrite Hm in Ha. cbn [fst] in Ha.
      destruct (monitorSessions (frozenClock t) _ _ _ l false w)
        as [[[l0 u0]|e0] w0] eqn:Hm0; cbn [fst] in Ha; [|discriminate].
      injection Ha as <- <-.
      rewrite (Hag l' false _ (mkWorld [] ∅)).
      eapply settled_after_runs, Hm0.
    + (* the first run changed nothing *)
      injection H1' as <- <-.
      destruct (emits_extends _ _ _ _
                  (emits_monitorSessions _ _ _ o l false) Hm)
        as (evs & T & F & W).
      eapply (tick_without_flag o _ l l'); [now rewrite F| |exact H2].
      left. rewrite (Hindep l false wa w), Hm. reflexivity.
  - (* the first run ended with an exception *)
    injection H1' as <- <-.
    destruct (emits_extends _ _ _ _
                (emits_monitorSessions _ _ _ o l false) Hm)
      as (evs & T & F & W).
    eapply (tick_without_flag o _ l l); [now rewrite F| |exact H2].
    right. exists e. rewrite (Hindep l false wa w), Hm. reflexivity.
Qed.

End Writes.

(* ================================================================== *)
(** ** The properties on the scenarios *)

Section Instances.

Import Scenario.

Local Abbreviation monitorSessionsAt t :=
  (monitorSessions (frozenClock t) SpecHealth.evaluateHealth
     SpecHealth.transitionState).
Local Abbreviation runDaemonTickAt t :=
  (runDaemonTick (frozenClock t) SpecHealth.evaluateHealth
     SpecHealth.transitionState).

Local Abbreviation monitorSessionAt t :=
  (monitorSession (frozenClock t) SpecHealth.evaluateHealth
     SpecHealth.transitionState).

(** *** A failing triage call *)

(** C1 on the code. The first session has been stalled for 125 s and is
    raised to level 2; triage is enabled and throws. The exception leaves
    the tick: the second session is never probed and nothing is written,
    so the level reached in memory is lost. *)
Theorem triage_failure_aborts_tick :
  let o := options true None (tmuxWith [tmuxA; tmuxB]) triageFails in
  let w := disk (JsonArray (map stored stalledThenHealthy)) in
  fst (runDaemonTickAt T0 o w) = Raised "triage failed"%string /\
  probes (trace (snd (runDaemonTickAt T0 o w))) = [tmuxA] /\
  writes (trace (snd (runDaemonTickAt T0 o w))) = [] /\
  files (snd (runDaemonTickAt T0 o w)) = files w.
Proof. vm_compute. repeat split; reflexivity. Qed.

(** The neighbouring calls: a nudge that throws at level 1 and a kill that
    throws at level 3 are swallowed; the tick goes on to the second session
    and writes the registry. *)
Example nudge_and_kill_failures_are_swallowed :
  let nudging :=
    optionsWith true None (tmuxWith [tmuxA; tmuxB])
      (triageAlways TriageExtend) nudgeFails in
  let killing :=
    options true None (tmuxKillFails [tmuxA; tmuxB])
      (triageAlways TriageExtend) in
  let w1 := disk (JsonArray (map stored nudgedThenHealthy)) in
  let w3 := disk (JsonArray (map stored expiredThenHealthy)) in
  (fst (runDaemonTickAt T0 nudging w1) = Ok tt /\
   probes (trace (snd (runDaemonTickAt T0 nudging w1))) = [tmuxA; tmuxB] /\
   length (writes (trace (snd (runDaemonTickAt T0 nudging w1)))) = 1%nat) /\
  (fst (runDaemonTickAt T0 killing w3) = Ok tt /\
   probes (trace (snd (runDaemonTickAt T0 killing w3))) = [tmuxA; tmuxB] /\
   kills (trace (snd (runDaemonTickAt T0 killing w3))) = [tmuxA] /\
   length (writes (trace (snd (runDaemonTickAt T0 killing w3)))) = 1%nat).
Proof. vm_compute. repeat split; reflexivity. Qed.

(** *** The start of a stall episode *)

(** C3 as stated fails. A session silent for 90 s is found stale: the tick
    opens a stall episode and the registry it writes has [stalledSince] set
    and [escalationLevel] 0. *)
Lemma level_zero_with_stall_open :
  let o := options false None (tmuxWith [tmuxA]) (triageAlways TriageExtend) in
  let w := disk (JsonArray [stored freshlyStale]) in
  exists s' w',
    runDaemonTickAt T0 o w = (Ok tt, w') /\
    parseRegistry (files w' !! registryPath) = Ok [s'] /\
    ~ (escalationLevel s' = 0 <-> stalledSince s' = None).
Proof.
  eexists _, _. split; [vm_compute; reflexivity|].
  split; [vm_compute; reflexivity|].
  cbn. intros [H _]. specialize (H eq_refl). discriminate.
Qed.

(** *** A triage that changes its mind *)

(** C6 as stated fails. The clock stands still and the probe answers the
    same in both runs, but triage says [extend] in the first run and
    [terminate] in the second: the first run writes nothing, the second
    one kills the session and writes the registry. *)
Lemma second_tick_writes_after_new_verdict :
  let o := options true None (tmuxWith [tmuxA]) triageChangesMind in
  let w := disk (JsonArray [stored atTriage]) in
  let w1 := snd (runDaemonTickAt T0 o w) in
  let w2 := snd (runDaemonTickAt T0 o w1) in
  (forall h h', frozenClock T0 h = frozenClock T0 h') /\
  (forall h h' name,
      isSessionAlive (opt_tmux o) h name =
      isSessionAlive (opt_tmux o) h' name) /\
  fst (runDaemonTickAt T0 o w) = Ok tt /\
  files w1 = files w /\
  files w2 !! registryPath <> files w1 !! registryPath /\
  writes (skipn (length (trace w1)) (trace w2)) <> [].
Proof.
  intros o w w1 w2. split; [reflexivity|]. split; [reflexivity|].
  split; [vm_compute; reflexivity|]. split; [vm_compute; reflexivity|].
  split; vm_compute; discriminate.
Qed.

(** *** An exception that leaves the pass *)

(** The first session is found dead and marked a zombie in memory, then the
    observer throws on the second: nothing reaches the file. *)
Lemma escaping_exception_skips_write_witness :
  let o := options false (Some (observerFailsOn "b")) (tmuxWith [tmuxB])
             (triageAlways TriageExtend) in
  let w := disk (JsonArray (map stored deadThenHealthy)) in
  let w1 := snd (monitorSessionsAt T0 o deadThenHealthy false w) in
  runDaemonTickAt T0 o w = (Raised "observer failed"%string, w1) /\
  files w1 = files w /\
  exists evs, trace w1 = trace w ++ evs /\ writes evs = [].
Proof.
  intros o w w1.
  apply (escaping_exception_skips_write _ _ _ o w deadThenHealthy);
    vm_compute; reflexivity.
Defined.

(** *** Termination *)

(** A session silent for 700 s whose backend is still alive: the verdict is
    [terminate] and the backend is killed. *)
Lemma terminate_kills_iff_alive_witness :
  let o := options false (Some observerOk) (tmuxWith [tmuxA])
             (triageAlways TriageExtend) in
  let s := session "a" working (T0 - 700000) 0 None in
  let w := disk (JsonArray [stored s]) in
  isSessionAlive (opt_tmux o) (trace w) (tmuxSession s) = Ok true /\
  exists s' w' evs,
    monitorSessionAt T0 o s false w = (Ok (s', true), w') /\
    trace w' = trace w ++ evs /\
    kills evs = [tmuxSession s] /\
    s' = markZombie s /\
    state s' = zombie /\ escalationLevel s' = 0 /\ stalledSince s' = None.
Proof.
  intros o s w.
  eapply (terminate_kills_iff_alive _ _ _ o s false w true).
  - discriminate.
  - vm_compute. reflexivity.
  - reflexivity.
Defined.

(** A session stalled for 125 s, at level 2, with triage enabled: triage
    says [terminate] and the backend is killed. *)
Lemma escalation_terminates_witness :
  let o := options true None (tmuxWith [tmuxA])
             (triageAlways TriageTerminate) in
  let s := atTriage in
  let w := disk (JsonArray [stored s]) in
  isSessionAlive (opt_tmux o) (trace w) (tmuxSession s) = Ok true /\
  exists s' w' evs,
    monitorSessionAt T0 o s false w = (Ok (s', true), w') /\
    trace w' = trace w ++ evs /\
    kills evs = [tmuxSession s] /\
    s' = markZombie s /\
    state s' = zombie /\ escalationLevel s' = 0 /\ stalledSince s' = None.
Proof.
  intros o s w.
  eapply (escalation_terminates _ _ _ o s false w true).
  - discriminate.
  - vm_compute. reflexivity.
  - reflexivity.
  - vm_compute. reflexivity.
  - right. repeat split; reflexivity.
Defined.

(** *** The level as the ticks go by *)

(** C2 as stated fails. The options carry [nudgeIntervalMs = -60000], which
    the tick accepts as it is. The first tick finds the session stale and
    opens the episode; the second, 125 s later, gets the verdict [escalate]
    again and its raise step computes [min (floor (125000 / -60000)) 3],
    which is -3 and not above the level on record: the level stays 0. *)
Lemma level_stays_zero_for_negative_interval :
  let clock := clockByProbes T0 125000 in
  let o := mkOptions "/proj" 60000 600000 (Some (-60000)) (Some false) None
             (tmuxWith [tmuxA]) (triageAlways TriageExtend) nudgeDelivered in
  let tick :=
    runDaemonTick clock SpecHealth.evaluateHealth SpecHealth.transitionState
      o in
  let s0 := session "a" working T0 0 None in
  let since := T0 + 125000 in
  let s1 := set_escalationLevel (set_stalledSince s0 (Some since)) 0 in
  let w0 := disk (JsonArray [stored s0]) in
  let w1 := snd (tick w0) in
  let w2 := snd (tick w1) in
  fst (tick w0) = Ok tt /\
  parseRegistry (files w1 !! registryPath) = Ok [s1] /\
  raiseStep clock SpecHealth.evaluateHealth SpecHealth.transitionState o
    s1 false w1 s1 (T0 + 250000) /\
  fst (tick w1) = Ok tt /\
  parseRegistry (files w2 !! registryPath) = Ok [s1] /\
  escalationLevel s1 = 0 /\
  Z.min ((T0 + 250000 - since) / default 60000 (nudgeIntervalMs o)) 3 = -3.
Proof.
  intros clock o tick s0 since s1 w0 w1 w2.
  split; [vm_compute; reflexivity|].
  split; [vm_compute; reflexivity|].
  split.
  { split; [discriminate|].
    eexists _, _, _, _, _, _, _. repeat split; vm_compute; reflexivity. }
  repeat split; vm_compute; reflexivity.
Qed.

(** An episode opened by a first tick, a second tick 65 s later that
    raises the level to 1 and nudges, and the raise step of a third tick
    130 s after the start: level 2. *)
Lemma level_follows_elapsed_time_witness :
  let clock := clockByProbes T0 65000 in
  let o := options false None (tmuxWith [tmuxA]) (triageAlways TriageExtend) in
  let tick :=
    monitorSession clock SpecHealth.evaluateHealth SpecHealth.transitionState
      o in
  let s0 := session "a" working (T0 - 30000) 0 None in
  let since := T0 + 65000 in
  let s1 := set_escalationLevel (set_stalledSince s0 (Some since)) 0 in
  let s2 := set_escalationLevel s1 1 in
  let sr := set_escalationLevel s2 2 in
  let w0 := disk (JsonArray [stored s0]) in
  let w1 := snd (tick s0 false w0) in
  let w2 := snd (tick s1 false w1) in
  stalledSoFar clock SpecHealth.evaluateHealth SpecHealth.transitionState o
    since s2 (T0 + 130000) /\
  raiseStep clock SpecHealth.evaluateHealth SpecHealth.transitionState o
    s2 false w2 sr (T0 + 195000) /\
  escalationLevel sr =
    Z.min ((T0 + 195000 - since) / default 60000 (nudgeIntervalMs o)) 3 /\
  (stalledSince s2 = Some since -> escalationLevel s2 <= escalationLevel sr) /\
  forall t',
    T0 + 195000 <= t' ->
    escalationLevel sr <=
      Z.min ((t' - since) / default 60000 (nudgeIntervalMs o)) 3.
Proof.
  intros clock o tick s0 since s1 s2 sr w0 w1 w2.
  assert (Hso : stalledSoFar clock SpecHealth.evaluateHealth
                  SpecHealth.transitionState o since s2 (T0 + 130000)).
  { apply (stall_continued clock SpecHealth.evaluateHealth
             SpecHealth.transitionState o since s1 since false w1 s2
             (T0 + 130000) s2 true (snd (tick s1 false w1))).
    - apply (stall_continued clock SpecHealth.evaluateHealth
               SpecHealth.transitionState o since s0 since false w0 s1
               since s1 true (snd (tick s0 false w0))).
      + apply stall_not_begun. reflexivity.
      + split; [discriminate|].
        eexists _, _, _, _, _, _, _. repeat split; vm_compute; reflexivity.
      + vm_compute. reflexivity.
      + reflexivity.
      + lia.
    - split; [discriminate|].
      eexists _, _, _, _, _, _, _. repeat split; vm_compute; reflexivity.
    - vm_compute. reflexivity.
    - reflexivity.
    - unfold since. lia. }
  assert (Hrs : raiseStep clock SpecHealth.evaluateHealth
                  SpecHealth.transitionState o s2 false w2 sr (T0 + 195000)).
  { split; [discriminate|].
    eexists _, _, _, _, _, _, _. repeat split; vm_compute; reflexivity. }
  split; [exact Hso|]. split; [exact Hrs|].
  apply (level_follows_elapsed_time clock SpecHealth.evaluateHealth
           SpecHealth.transitionState o since s2 (T0 + 130000) false w2 sr
           (T0 + 195000)).
  - vm_compute. reflexivity.
  - exact Hso.
  - exact Hrs.
  - reflexivity.
  - lia.
Defined.

(** *** The registry after the start of an episode *)

Lemma null_stall_means_level_zero_witness :
  let o := options false None (tmuxWith [tmuxA]) (triageAlways TriageExtend) in
  let w := disk (JsonArray [stored freshlyStale]) in
  exists raws',
    files (snd (runDaemonTickAt T0 o w)) !! sessionsPathOf (root o)
      = Some (JsonArray raws') /\
    Forall stallInvariant (map backfill raws').
Proof.
  intros o w.
  apply (null_stall_means_level_zero (frozenClock T0)
           SpecHealth.evaluateHealth SpecHealth.transitionState o w
           [stored freshlyStale]).
  - reflexivity.
  - repeat constructor.
  - vm_compute. reflexivity.
Defined.

(** *** Two ticks at the same instant *)

Lemma second_tick_writes_nothing_witness :
  let o := options true (Some observerOk) (tmuxWith [tmuxA])
             (triageAlways TriageExtend) in
  let w := disk (JsonArray [stored freshlyStale]) in
  let w1 := snd (runDaemonTickAt T0 o w) in
  let w2 := snd (runDaemonTickAt T0 o w1) in
  (files w2 = files w1 /\
   exists evs2, trace w2 = trace w1 ++ evs2 /\ writes evs2 = []) /\
  exists evs1,
    trace w1 = trace w ++ evs1 /\
    ((writes evs1 = [] /\ files w1 = files w) \/
     exists l l',
       parseRegistry (files w !! sessionsPathOf (root o)) = Ok l /\
       l' <> l /\
       writes evs1 = [(sessionsPathOf (root o), JsonArray (map stored l'))] /\
       files w1 =
         <[sessionsPathOf (root o) := JsonArray (map stored l')]> (files w)).
Proof.
  intros o w w1 w2.
  apply (second_tick_writes_nothing (frozenClock T0) o T0
           (fun name => Ok (bool_decide (name ∈ [tmuxA])))
           (fun _ => Ok TriageExtend) (fun _ => Ok tt)
           w (fst (runDaemonTickAt T0 o w)) w1
           (fst (runDaemonTickAt T0 o w1)) w2).
  - repeat split; try reflexivity.
    intros f [= <-]. reflexivity.
  - apply surjective_pairing.
  - apply surjective_pairing.
Defined.

(** *** The observer *)



(** *** A completed session between two others *)

(** C8 as stated fails. A completed record written before progressive
    nudging, and a working one whose backend is gone: the tick marks the
    second a zombie and writes the registry, and the completed record is
    now stored with [escalationLevel] 0 and [stalledSince] [null], two
    fields it did not have. *)
Lemma completed_legacy_record_is_rewritten :
  let o := options false None (tmuxWith []) (triageAlways TriageExtend) in
  let c := legacy "c" completed (T0 - 700000) in
  let w := disk (JsonArray [c; legacy "a" working (T0 - 1000)]) in
  exists c' a' w',
    runDaemonTickAt T0 o w = (Ok tt, w') /\
    files w !! registryPath
      = Some (JsonArray [c; legacy "a" working (T0 - 1000)]) /\
    files w' !! registryPath = Some (JsonArray [c'; a']) /\
    state c = completed /\
    (escalationLevel c = None /\ stalledSince c = None) /\
    (escalationLevel c' = Some 0 /\ stalledSince c' = Some None) /\
    c' <> c.
Proof.
  eexists _, _, _. split; [vm_compute; reflexivity|].
  split; [vm_compute; reflexivity|].
  split; [vm_compute; reflexivity|].
  cbn. repeat split; discriminate.
Qed.

(** A healthy session, a completed record written before progressive
    nudging and a session whose backend is gone: the tick writes, and the
    completed record is stored as [loadSessions] back-filled it. *)
Lemma completed_session_is_skipped_witness :
  let o := options false (Some observerOk) (tmuxWith [tmuxB])
             (triageAlways TriageExtend) in
  let c := legacy "c" completed (T0 - 700000) in
  let raws1 := [stored (session "b" working (T0 - 1000) 0 None)] in
  let raws2 := [stored (session "a" working (T0 - 1000) 0 None)] in
  let w := disk (JsonArray (raws1 ++ c :: raws2)) in
  let r := fst (runDaemonTickAt T0 o w) in
  let w' := snd (runDaemonTickAt T0 o w) in
  (forall u w0,
      monitorSessionAt T0 o (backfill c) u w0 = (Ok (backfill c, u), w0)) /\
  (exists out w1,
      monitorSessionsAt T0 o (map backfill (raws1 ++ raws2)) false w
        = (out, w1) /\
      match out with
      | Ok (l', true) =>
          r = Ok tt /\
          w' = snd (saveSessions (sessionsPathOf (root o))
                      (take (length raws1) l' ++
                       backfill c :: drop (length raws1) l') w1)
      | Ok (_, false) => r = Ok tt /\ w' = w1
      | Raised e => r = Raised e /\ w' = w1
      end /\
      probes (trace w') = probes (trace w1) /\
      reported (trace w') = reported (trace w1)) /\
  exists raws' raw',
    files w' !! sessionsPathOf (root o) = Some (JsonArray raws') /\
    raws' !! length raws1 = Some raw' /\
    (raw' = c \/ raw' = stored (backfill c)) /\
    backfill raw' = backfill c.
Proof.
  intros o c raws1 raws2 w r w'.
  apply (completed_session_is_skipped (frozenClock T0)
           SpecHealth.evaluateHealth SpecHealth.transitionState o w raws1 c
           raws2 r w').
  - reflexivity.
  - reflexivity.
  - apply surjective_pairing.
Defined.

(** *** A registry written before progressive nudging *)

(** A healthy session and a completed one, both without the escalation
    fields: the tick writes nothing and the file keeps its shape. *)
Lemma backfill_alone_is_not_written_witness :
  let o := options false (Some observerOk) (tmuxWith [tmuxA])
             (triageAlways TriageExtend) in
  let raws := [legacy "a" working (T0 - 1000);
               legacy "c" completed (T0 - 700000)] in
  let w := disk (JsonArray raws) in
  let w' := snd (runDaemonTickAt T0 o w) in
  runDaemonTickAt T0 o w = (Ok tt, w') /\
  (exists evs, trace w' = trace w ++ evs /\ writes evs = []) /\
  files w' !! sessionsPathOf (root o) = Some (JsonArray raws) /\
  map backfill raws = map backfill raws /\
  Forall (fun s : AgentSession =>
            escalationLevel s = 0 /\ stalledSince s = None)
    (map backfill raws).
Proof.
  intros o raws w w'.
  apply (backfill_alone_is_not_written (frozenClock T0)
           SpecHealth.evaluateHealth SpecHealth.transitionState o w raws
           (map backfill raws) w').
  - reflexivity.
  - repeat constructor.
  - vm_compute. reflexivity.
Defined.

End Instances.


(* ================================================================== *)
(** ** Further properties of the tick *)

Section Further.

Variable Date_now : History -> Z.
Variable evaluateHealth :
  AgentSession -> bool -> Thresholds -> Z -> HealthCheck.
Variable transitionState : AgentState -> HealthCheck -> AgentState.

Local Abbreviation clock := (now Date_now).
Local Abbreviation raisePhase := (raisePhase Date_now).
Local Abbreviation escalate := (escalate Date_now).
Local Abbreviation assess := (assess Date_now evaluateHealth transitionState).
Local Abbreviation act := (act Date_now).
Local Abbreviation monitorSession :=
  (monitorSession Date_now evaluateHealth transitionState).
Local Abbreviation monitorSessions :=
  (monitorSessions Date_now evaluateHealth transitionState).
Local Abbreviation runDaemonTick :=
  (runDaemonTick Date_now evaluateHealth transitionState).
Local Abbreviation scheduledTick :=
  (scheduledTick Date_now evaluateHealth transitionState).

(** *** The registry file *)

(** What a tick does to the files, whatever way it ends. *)
Lemma tick_files o w :
  exists evs,
    trace (snd (runDaemonTick o w)) = trace w ++ evs /\
    ((writes evs = [] /\ files (snd (runDaemonTick o w)) = files w) \/
     exists l',
       fst (runDaemonTick o w) = Ok tt /\
       writes evs = [(sessionsPathOf (root o), JsonArray (map stored l'))] /\
       files (snd (runDaemonTick o w)) =
         <[sessionsPathOf (root o) := JsonArray (map stored l')]> (files w)).
Proof.
  rewrite runDaemonTick_cases.
  destruct (parseRegistry _) as [l|e].
  2:{ exists []. cbn. rewrite app_nil_r. auto. }
  destruct (monitorSessions o l false w) as [[[l' u']|e] w1] eqn:Hm;
    destruct (emits_extends _ _ _ _
                (emits_monitorSessions _ _ _ o l false) Hm)
      as (evs & T & F & W).
  - destruct u'; [|exists evs; cbn; auto].
    exists (evs ++ [EvWrite (sessionsPathOf (root o))
                      (JsonArray (map stored l'))]).
    cbn. rewrite T, app_assoc. split; [reflexivity|]. right.
    exists l'. unfold writes in *. rewrite omap_app, W, F. auto.
  - exists evs. cbn. auto.
Qed.

(** X1. A tick on a project without a registry file, or whose registry
    file holds JSON that is not an array, does nothing at all: it returns,
    calls no collaborator, reads no clock and creates no file. *)
Theorem tick_without_registry o w :
  files w !! sessionsPathOf (root o) = None \/
  files w !! sessionsPathOf (root o) = Some NotAnArray ->
  runDaemonTick o w = (Ok tt, w).
Proof.
  intros H. rewrite runDaemonTick_cases.
  destruct H as [-> | ->]; reflexivity.
Qed.

(** X2. A registry file that is not JSON makes the tick throw before any
    collaborator is called; the scheduled run swallows the exception. In
    both cases the world is left exactly as it was, so the file is never
    repaired and every later tick fails the same way. *)
Theorem tick_on_malformed_registry o w :
  files w !! sessionsPathOf (root o) = Some NotJson ->
  runDaemonTick o w = (Raised "SyntaxError"%string, w) /\
  scheduledTick o w = (Ok tt, w).
Proof.
  intros H.
  assert (runDaemonTick o w = (Raised "SyntaxError"%string, w)) as E.
  { now rewrite runDaemonTick_cases, H. }
  split; [exact E|].
  unfold scheduledTick, swallow, attempt, bind, ret. now rewrite E.
Qed.

(** X3. Saving sessions and loading them again gives the same sessions,
    every record written carries both escalation fields, and no other
    file is touched. *)
Theorem save_then_load path sessions w :
  bind (saveSessions path sessions) (fun _ => loadSessions path) w =
    (Ok sessions, snd (saveSessions path sessions w)) /\
  (exists raws : list RawSession,
      files (snd (saveSessions path sessions w)) !! path
        = Some (JsonArray raws) /\
      Forall (fun r : RawSession =>
                is_Some (escalationLevel r) /\ is_Some (stalledSince r))
        raws) /\
  forall p,
    p <> path ->
    files (snd (saveSessions path sessions w)) !! p = files w !! p.
Proof.
  unfold bind, saveSessions, loadSessions. cbn [fst snd files].
  split; [|split].
  - now rewrite parseRegistry_saved.
  - exists (map stored sessions). rewrite lookup_insert_eq.
    split; [reflexivity|]. rewrite Forall_map. apply Forall_true.
    intros s. cbn. eauto.
  - intros p Hp. now rewrite lookup_insert_ne.
Qed.

(** X4. Whatever way a tick ends, it writes at most once, only to the
    registry file of its root, and leaves every other file as it was. *)
Theorem tick_touches_registry_only o w :
  exists evs,
    trace (snd (runDaemonTick o w)) = trace w ++ evs /\
    (length (writes evs) <= 1)%nat /\
    (forall p content,
        (p, content) ∈ writes evs -> p = sessionsPathOf (root o)) /\
    forall p,
      p <> sessionsPathOf (root o) ->
      files (snd (runDaemonTick o w)) !! p = files w !! p.
Proof.
  destruct (tick_files o w) as (evs & T & [[W F]|(l' & _ & W & F)]);
    exists evs; rewrite W, F; (split; [exact T|]).
  - split; [cbn; lia|]. split; [|reflexivity].
    intros p c H. now apply elem_of_nil in H.
  - split; [cbn; lia|]. split.
    + intros p c H. apply list_elem_of_singleton in H. congruence.
    + intros p Hp. now rewrite lookup_insert_ne.
Qed.

(** X5. After a tick that ran to its end, the registry file reads back as
    the records the pass ended with, whether or not the tick wrote. *)
Theorem registry_agrees_with_pass o w l l' u' w1 :
  parseRegistry (files w !! sessionsPathOf (root o)) = Ok l ->
  monitorSessions o l false w = (Ok (l', u'), w1) ->
  fst (runDaemonTick o w) = Ok tt /\
  parseRegistry (files (snd (runDaemonTick o w)) !! sessionsPathOf (root o))
    = Ok l'.
Proof.
  intros Hl Hm. rewrite runDaemonTick_cases, Hl, Hm.
  destruct u'.
  - cbn. split; [reflexivity|]. apply parseRegistry_saved.
  - cbn. split; [reflexivity|].
    destruct (monitorSessions_flag _ _ _ _ _ _ _ _ _ _ Hm) as [?|[_ ->]];
      [discriminate|].
    destruct (emits_extends _ _ _ _
                (emits_monitorSessions _ _ _ o l false) Hm)
      as (evs & T & F & W).
    now rewrite F.
Qed.

(** *** What a pass may change in a record *)

Lemma monitorSession_frame o s u w s' u' w' :
  monitorSession o s u w = (Ok (s', u'), w') -> frameOf s' = frameOf s.
Proof.
  unfold monitorSession.
  destruct (decide _); [now intros [= <- <- <-]|].
  unfold bind.
  destruct (assess o s u w) as [[[[[alive check] s1] u1]|e] w1] eqn:Ha;
    [|discriminate].
  destruct (assess_session _ _ _ _ _ _ _ _ _ _ _ _ Ha) as [st ->].
  unfold act. destruct (action check).
  - destruct (stalledSince (set_state s st)); now intros [= <- <- <-].
  - intros He. apply escalate_inv in He
      as (sr & ur & wr & r & wx & Hr & _ & -> & _).
    apply raisePhase_ok in Hr as ((lvl & since & ->) & _).
    now destruct (terminated r).
  - now intros [= <- <- <-].
  - unfold bind. destruct alive; cbn; now intros [= <- <- <-].
Qed.

Lemma monitorSessions_frame o l :
  forall u w l' u' w',
    monitorSessions o l u w = (Ok (l', u'), w') ->
    map frameOf l' = map frameOf l.
Proof.
  induction l as [|s l IH]; intros u w l' u' w'.
  - now intros [= <- <- <-].
  - rewrite monitorSessions_cons.
    destruct (monitorSession o s u w) as [[[s1 u1]|e] w1] eqn:E1;
      [|discriminate].
    destruct (monitorSessions o l u1 w1) as [[[l1 u2]|e] w2] eqn:E2;
      [|discriminate].
    intros [= <- <- <-]. cbn [map]. f_equal.
    + eapply monitorSession_frame, E1.
    + eapply IH, E2.
Qed.

(** X6. A pass neither adds nor drops a record, keeps the order, and
    assigns no field other than [state], [escalationLevel] and
    [stalledSince]: identifiers, names, paths, pid, parent, depth and both
    activity timestamps come out as they went in. *)
Theorem pass_keeps_records o l u w l' u' w' :
  monitorSessions o l u w = (Ok (l', u'), w') ->
  map frameOf l' = map frameOf l /\ length l' = length l.
Proof.
  intros H. pose proof (monitorSessions_frame _ _ _ _ _ _ _ H) as E.
  split; [exact E|].
  apply (f_equal length) in E. now rewrite !length_map in E.
Qed.

(** *** The range of the level *)

Lemma expectedLevel_le stalledMs n e :
  expectedLevel stalledMs n = JsInt e -> e <= MAX_ESCALATION_LEVEL.
Proof.
  unfold expectedLevel, js_floor_div, js_min, MAX_ESCALATION_LEVEL.
  destruct (n =? 0); [destruct (stalledMs =? 0); [discriminate|];
                       destruct (0 <? stalledMs); [|discriminate]|];
    intros [= <-]; lia.
Qed.

Lemma raiseLevel_range n t since s u :
  levelInRange s -> levelInRange (fst (raiseLevel n t since s u)).
Proof.
  unfold levelInRange, raiseLevel. intros Hs.
  destruct (js_gt _ _) eqn:G; [|exact Hs].
  destruct (expectedLevel _ _) as [e| | |] eqn:E; try exact Hs.
  cbn in *. apply Z.ltb_lt in G. apply expectedLevel_le in E. lia.
Qed.

Lemma raisePhase_range n s u w s1 u1 w1 :
  levelInRange s ->
  raisePhase n s u w = (Ok (s1, u1), w1) -> levelInRange s1.
Proof.
  intros Hs. rewrite raisePhase_spec.
  destruct (stalledSince s) as [since|]; cbn zeta; intros [= H _].
  - pose proof (raiseLevel_range n (Date_now (trace w)) since s u Hs) as R.
    now rewrite H in R.
  - match type of H with
    | raiseLevel ?a ?b ?c ?d ?e = _ =>
        pose proof (raiseLevel_range a b c d e) as R; rewrite H in R
    end.
    apply R. unfold levelInRange, MAX_ESCALATION_LEVEL. cbn. lia.
Qed.

Lemma levelInRange_zero (s : AgentSession) :
  escalationLevel s = 0 -> levelInRange s.
Proof. unfold levelInRange, MAX_ESCALATION_LEVEL. lia. Qed.

Lemma monitorSession_range o s u w s' u' w' :
  levelInRange s ->
  monitorSession o s u w = (Ok (s', u'), w') -> levelInRange s'.
Proof.
  intros Hs. unfold monitorSession.
  destruct (decide _); [now intros [= <- <- <-]|].
  unfold bind.
  destruct (assess o s u w) as [[[[[alive check] s1] u1]|e] w1] eqn:Ha;
    [|discriminate].
  destruct (assess_session _ _ _ _ _ _ _ _ _ _ _ _ Ha) as [st ->].
  unfold act. destruct (action check).
  - destruct (stalledSince (set_state s st)); intros [= <- <- <-];
      [now apply levelInRange_zero|exact Hs].
  - intros He. apply escalate_inv in He
      as (sr & ur & wr & r & wx & Hr & _ & -> & _).
    apply raisePhase_range in Hr; [|exact Hs].
    destruct (terminated r); [now apply levelInRange_zero|exact Hr].
  - now intros [= <- <- <-].
  - unfold bind. destruct alive; cbn; intros [= <- <- <-];
      now apply levelInRange_zero.
Qed.

(** X7. Whatever the nudge interval (zero and negative ones included), a
    pass over records whose level is between 0 and 3 ends with records
    whose level is between 0 and 3. *)
Theorem pass_keeps_level_in_range o l :
  forall u w l' u' w',
    Forall levelInRange l ->
    monitorSessions o l u w = (Ok (l', u'), w') ->
    Forall levelInRange l'.
Proof.
  induction l as [|s l IH]; intros u w l' u' w' Hl.
  - intros [= <- <- <-]. constructor.
  - rewrite monitorSessions_cons.
    destruct (monitorSession o s u w) as [[[s1 u1]|e] w1] eqn:E1;
      [|discriminate].
    destruct (monitorSessions o l u1 w1) as [[[l1 u2]|e] w2] eqn:E2;
      [|discriminate].
    intros [= <- <- <-]. inversion Hl; subst. constructor.
    + eapply monitorSession_range; eauto.
    + eapply IH; eauto.
Qed.

(** *** Kills and triage calls *)

Lemma emits_bind_post {A B} P (Q : A -> Prop) (m : M A) (k : A -> M B) :
  emits P m ->
  (forall w a w', m w = (Ok a, w') -> Q a) ->
  (forall a, Q a -> emits P (k a)) ->
  emits P (bind m k).
Proof.
  intros Hm HQ Hk w r w'. unfold bind.
  destruct (m w) as [[a|e] w1] eqn:E;
    destruct (Hm _ _ _ E) as (e1 & T1 & F1 & P1).
  - intros E2. destruct (Hk _ (HQ _ _ _ E) _ _ _ E2) as (e2 & T2 & F2 & P2).
    exists (e1 ++ e2).
    rewrite T2, T1, F2, F1, forallb_app, P1, P2, app_assoc. auto.
  - intros [= <- <-]. eauto.
Qed.

Ltac emits_auto :=
  repeat match goal with
    | |- forall _, _ => intro
    | |- emits _ (bind _ _) => apply emits_bind
    | |- emits _ (ret _) => apply emits_ret
    | |- emits _ (swallow _) => apply emits_swallow
    | |- emits _ (call _ _) => apply emits_call; reflexivity
    | |- emits _ (tryNudge _ _ _ _) => unfold tryNudge
    | |- emits _ clock => apply emits_now; reflexivity
    | |- emits _ (match ?x with _ => _ end) => destruct x
    end.

Lemma emits_tryKill_guard tmux name :
  emits (killGuard true name) (tryKill tmux name).
Proof.
  apply emits_swallow, emits_call. intros r. cbn.
  now apply bool_decide_eq_true_2.
Qed.

Lemma emits_execute_guard ctx :
  emits (killGuard (ctx_tmuxAlive ctx) (tmuxSession (ctx_session ctx)))
    (executeEscalationAction ctx).
Proof.
  unfold executeEscalationAction.
  destruct (escalationLevel (ctx_session ctx)) as [|[[p|p|]|[p|p|]|]|p];
    emits_auto; apply emits_tryKill_guard.
Qed.

Lemma emits_raisePhase_any P n s u :
  (forall t, P (EvClock t) = true) -> emits P (raisePhase n s u).
Proof.
  intros HP. unfold raisePhase, beginStall.
  assert (emits P clock).
  { intros w r w' [= <- <-]. exists [EvClock (Date_now (trace w))].
    cbn. rewrite HP. auto. }
  destruct (stalledSince s); repeat (apply emits_bind; [|intros]);
    try apply emits_ret; try assumption.
  all: destruct a as [[? ?] ?]; apply emits_bind; [assumption|].
  all: intros; apply emits_ret.
Qed.

Lemma emits_escalate_guard o n tier1 alive s u :
  emits (killGuard alive (tmuxSession s)) (escalate o n tier1 alive s u).
Proof.
  unfold escalate.
  apply (emits_bind_post _
           (fun su : AgentSession * bool =>
              tmuxSession (fst su) = tmuxSession s)).
  - now apply emits_raisePhase_any.
  - intros w [s1 u1] w1 Hr.
    now apply raisePhase_ok in Hr as ((lvl & since & ->) & _).
  - intros [s1 u1] Hs. cbn in Hs. rewrite <- Hs.
    apply emits_bind;
      [apply (emits_execute_guard
                (mkCtx s1 (root o) alive tier1 (opt_tmux o) (opt_triage o)
                   (opt_nudge o)))|].
    intros r. emits_auto.
Qed.

Lemma emits_act_guard o alive check s u :
  emits (killGuard alive (tmuxSession s)) (act o alive check s u).
Proof.
  unfold act. destruct (action check).
  - emits_auto.
  - apply emits_escalate_guard.
  - apply emits_ret.
  - destruct alive; emits_auto. apply emits_tryKill_guard.
Qed.

Lemma killGuard_kills alive n evs name :
  forallb (killGuard alive n) evs = true ->
  name ∈ kills evs -> alive = true /\ name = n.
Proof.
  unfold kills. induction evs as [|e evs IH]; cbn.
  - intros _ H. now apply elem_of_nil in H.
  - intros [He H]%andb_true_iff.
    destruct e; cbn; try discriminate; try (now apply IH).
    intros [->|Hin]%elem_of_cons; [|now apply IH].
    apply andb_true_iff in He as [-> Hn].
    now apply bool_decide_eq_true_1 in Hn.
Qed.

Lemma observing_no_kill evs :
  forallb observing evs = true -> kills evs = [].
Proof.
  unfold kills. induction evs as [|e evs IH]; [reflexivity|]. cbn.
  intros [He H]%andb_true_iff. destruct e; try discriminate; cbn; auto.
Qed.

(** The probe of [assess] is the only probe, and it is in the history with
    its answer. *)
Lemma assess_probedAlive o s u w alive check s1 u1 w1 :
  assess o s u w = (Ok (alive, check, s1, u1), w1) ->
  exists evs,
    trace w1 = trace w ++ evs /\
    kills evs = [] /\
    probedAlive evs = (if alive then [tmuxSession s] else []).
Proof.
  intros Ha.
  destruct (emits_assess _ _ _ _ _ _ _ _ _ Ha) as (evs & T & _ & P).
  exists evs. split; [exact T|]. split; [now apply observing_no_kill|].
  revert Ha T. unfold assess, bind, call, clock, reportCheck, ret.
  destruct (isSessionAlive _ _ _) as [a|e] eqn:Hp; [|discriminate].
  cbn -[decide].
  destruct (decide _);
    (destruct (onHealthCheck o) as [f|];
     [ unfold call; destruct (f _ _) as [[]|e']; [|discriminate] | ]);
    cbn; intros [= <- <- <- <- <-]; cbn; rewrite <- ?app_assoc;
    intros T; apply app_inv_head in T; subst evs; now destruct a.
Qed.

Lemma monitorSession_kills o s u w :
  exists evs,
    trace (snd (monitorSession o s u w)) = trace w ++ evs /\
    forall name, name ∈ kills evs -> name ∈ probedAlive evs.
Proof.
  unfold monitorSession. destruct (decide _).
  { exists []. cbn. rewrite app_nil_r. split; [reflexivity|].
    intros name H. now apply elem_of_nil in H. }
  unfold bind.
  destruct (assess o s u w) as [[[[[alive check] s1] u1]|e] w1] eqn:Ha.
  - destruct (assess_probedAlive _ _ _ _ _ _ _ _ _ Ha) as (e0 & T0 & K0 & A0).
    destruct (assess_session _ _ _ _ _ _ _ _ _ _ _ _ Ha) as [st ->].
    destruct (act o alive check (set_state s st) u1 w1) as [r w2] eqn:Hact.
    destruct (emits_act_guard _ _ _ _ _ _ _ _ Hact) as (e1 & T1 & _ & G).
    exists (e0 ++ e1). cbn [snd]. rewrite T1, T0, app_assoc.
    split; [reflexivity|]. intros name.
    unfold kills, probedAlive in *. rewrite !omap_app, K0. cbn [app].
    intros Hin. destruct (killGuard_kills _ _ _ _ G Hin) as [-> ->].
    apply elem_of_app. left. rewrite A0. cbn. left.
  - destruct (emits_assess _ _ _ _ _ _ _ _ _ Ha) as (evs & T & _ & P).
    exists evs. split; [exact T|]. rewrite (observing_no_kill _ P).
    intros name H. now apply elem_of_nil in H.
Qed.

Lemma monitorSessions_kills o l :
  forall u w,
    exists evs,
      trace (snd (monitorSessions o l u w)) = trace w ++ evs /\
      forall name, name ∈ kills evs -> name ∈ probedAlive evs.
Proof.
  induction l as [|s l IH]; intros u w.
  - exists []. cbn. rewrite app_nil_r. split; [reflexivity|].
    intros name H. now apply elem_of_nil in H.
  - rewrite monitorSessions_cons.
    destruct (monitorSession_kills o s u w) as (e1 & T1 & K1).
    destruct (monitorSession o s u w) as [[[s1 u1]|e] w1]; cbn [snd] in T1;
      [|exists e1; auto].
    destruct (IH u1 w1) as (e2 & T2 & K2).
    exists (e1 ++ e2). split.
    + destruct (monitorSessions o l u1 w1) as [[[l1 u2]|e] w2];
        cbn [snd] in *; now rewrite T2, T1, app_assoc.
    + intros name. unfold kills, probedAlive in *. rewrite !omap_app.
      intros [H|H]%elem_of_app; apply elem_of_app; auto.
Qed.

(** X8. Whatever way a tick ends, every backend it killed is one that a
    probe of the same tick had found alive. *)
Theorem kills_only_what_was_probed_alive o w :
  exists evs,
    trace (snd (runDaemonTick o w)) = trace w ++ evs /\
    forall name, name ∈ kills evs -> name ∈ probedAlive evs.
Proof.
  rewrite runDaemonTick_cases.
  destruct (parseRegistry _) as [l|e].
  2:{ exists []. cbn. rewrite app_nil_r. split; [reflexivity|].
      intros name H. now apply elem_of_nil in H. }
  destruct (monitorSessions_kills o l false w) as (evs & T & K).
  destruct (monitorSessions o l false w) as [[[l' u']|e] w1];
    cbn [snd] in T; [|exists evs; auto].
  destruct u'; [|exists evs; auto].
  exists (evs ++ [EvWrite (sessionsPathOf (root o))
                    (JsonArray (map stored l'))]).
  cbn. rewrite T, app_assoc. split; [reflexivity|].
  intros name. unfold kills, probedAlive in *. rewrite !omap_app. cbn.
  rewrite !app_nil_r. apply K.
Qed.

Lemma emits_execute_notTriage ctx :
  ctx_tier1Enabled ctx = false ->
  emits notTriage (executeEscalationAction ctx).
Proof.
  intros H. unfold executeEscalationAction. rewrite H. cbn [negb].
  destruct (escalationLevel (ctx_session ctx)) as [|[[p|p|]|[p|p|]|]|p];
    emits_auto; unfold tryKill; emits_auto.
Qed.

Lemma emits_act_notTriage o alive check s u :
  default false (tier1Enabled o) = false ->
  emits notTriage (act o alive check s u).
Proof.
  intros H. unfold act. rewrite H. destruct (action check).
  - emits_auto.
  - unfold escalate.
    apply emits_bind; [now apply emits_raisePhase_any|].
    intros [s1 u1].
    apply emits_bind; [now apply emits_execute_notTriage|].
    intros r. emits_auto.
  - apply emits_ret.
  - emits_auto; unfold tryKill; emits_auto.
Qed.

Lemma observing_notTriage e : observing e = true -> notTriage e = true.
Proof. now destruct e. Qed.

Lemma emits_monitorSessions_notTriage o l :
  default false (tier1Enabled o) = false ->
  forall u, emits notTriage (monitorSessions o l u).
Proof.
  intros H. induction l as [|s l IH]; intros u; simpl; [apply emits_ret|].
  apply emits_bind.
  - unfold monitorSession. destruct (decide _); [apply emits_ret|].
    apply emits_bind.
    + eapply emits_weaken; [apply observing_notTriage|apply emits_assess].
    + intros [[[alive check] s1] u1]. now apply emits_act_notTriage.
  - intros [s1 u1]. apply emits_bind; [apply IH|].
    intros [l1 u2]. apply emits_ret.
Qed.

Lemma notTriage_triaged evs :
  forallb notTriage evs = true -> triaged evs = [].
Proof.
  unfold triaged. induction evs as [|e evs IH]; [reflexivity|]. cbn.
  intros [He H]%andb_true_iff. destruct e; try discriminate; cbn; auto.
Qed.

(** X9. Unless [tier1Enabled] is set to [true], a tick never calls the
    triage collaborator, whatever the levels of the sessions and whatever
    way the tick ends. *)
Theorem triage_only_when_enabled o w :
  tier1Enabled o <> Some true ->
  exists evs,
    trace (snd (runDaemonTick o w)) = trace w ++ evs /\
    triaged evs = [].
Proof.
  intros Ht.
  assert (H : default false (tier1Enabled o) = false).
  { destruct (tier1Enabled o) as [[|]|]; [congruence|reflexivity..]. }
  rewrite runDaemonTick_cases.
  destruct (parseRegistry _) as [l|e].
  2:{ exists []. cbn. now rewrite app_nil_r. }
  destruct (monitorSessions o l false w) as [[[l' u']|e] w1] eqn:Hm;
    destruct (emits_monitorSessions_notTriage o l H false _ _ _ Hm)
      as (evs & T & _ & P); apply notTriage_triaged in P.
  - destruct u'; [|exists evs; auto].
    exists (evs ++ [EvWrite (sessionsPathOf (root o))
                      (JsonArray (map stored l'))]).
    cbn. rewrite T, app_assoc. split; [reflexivity|].
    unfold triaged in *. now rewrite omap_app, P.
  - exists evs. auto.
Qed.

(** *** The branches that spare the session *)

Lemma observing_quiet evs :
  forallb observing evs = true ->
  kills evs = [] /\ nudges evs = [] /\ triaged evs = [].
Proof.
  unfold kills, nudges, triaged.
  induction evs as [|e evs IH]; [auto|]. cbn.
  intros [He H]%andb_true_iff. destruct e; try discriminate; cbn; auto.
Qed.

Lemma assess_quiet o s u w alive check s1 u1 w1 :
  assess o s u w = (Ok (alive, check, s1, u1), w1) ->
  exists evs,
    trace w1 = trace w ++ evs /\
    kills evs = [] /\ nudges evs = [] /\ triaged evs = [].
Proof.
  intros Ha.
  destruct (emits_assess _ _ _ _ _ _ _ _ _ Ha) as (evs & T & _ & P).
  exists evs. split; [exact T|]. now apply observing_quiet.
Qed.

(** X10. Recovery: when the verdict is [none] for a session with an open
    stall episode, the tick clears [stalledSince], resets the level to 0
    and raises the flag; it sends no kill, nudge or triage call and leaves
    [state] as the transition set it. *)
Theorem recovery_resets_escalation o s u w alive check s1 u1 w1 since :
  state s <> completed ->
  assess o s u w = (Ok (alive, check, s1, u1), w1) ->
  action check = ActNone ->
  stalledSince s = Some since ->
  monitorSession o s u w = (Ok (resetEscalation s1, true), w1) /\
  stalledSince (resetEscalation s1) = None /\
  escalationLevel (resetEscalation s1) = 0 /\
  state (resetEscalation s1) = state s1 /\
  exists evs,
    trace w1 = trace w ++ evs /\
    kills evs = [] /\ nudges evs = [] /\ triaged evs = [].
Proof.
  intros Hc Ha Hact Hs.
  pose proof (assess_quiet _ _ _ _ _ _ _ _ _ Ha) as Hq.
  destruct (assess_session _ _ _ _ _ _ _ _ _ _ _ _ Ha) as [st ->].
  repeat split; [|exact Hq].
  unfold monitorSession. destruct (decide _); [contradiction|].
  unfold bind. rewrite Ha. unfold act. rewrite Hact.
  cbn [stalledSince set_state]. now rewrite Hs.
Qed.

(** X11. Under an [investigate] verdict, and under a [none] verdict with
    no stall episode open, the second half of the loop body does nothing:
    no kill, nudge or triage call, the escalation fields stay as loaded,
    the flag stays as the first half left it. *)
Theorem investigate_and_healthy_change_nothing
    o s u w alive check s1 u1 w1 :
  state s <> completed ->
  assess o s u w = (Ok (alive, check, s1, u1), w1) ->
  action check = ActInvestigate \/
    (action check = ActNone /\ stalledSince s = None) ->
  monitorSession o s u w = (Ok (s1, u1), w1) /\
  escalationLevel s1 = escalationLevel s /\
  stalledSince s1 = stalledSince s /\
  exists evs,
    trace w1 = trace w ++ evs /\
    kills evs = [] /\ nudges evs = [] /\ triaged evs = [].
Proof.
  intros Hc Ha Hact.
  pose proof (assess_quiet _ _ _ _ _ _ _ _ _ Ha) as Hq.
  destruct (assess_session _ _ _ _ _ _ _ _ _ _ _ _ Ha) as [st ->].
  repeat split; [|exact Hq].
  unfold monitorSession. destruct (decide _); [contradiction|].
  unfold bind. rewrite Ha. unfold act.
  destruct Hact as [-> | [-> Hs]]; [reflexivity|].
  cbn [stalledSince set_state]. now rewrite Hs.
Qed.

(** *** The action of each level *)

Lemma observing_clock t : observing (EvClock t) = true.
Proof. reflexivity. Qed.

(** What has happened when the action of the level is about to run. *)
Lemma before_action o s u w alive check s1 u1 w1 n s2 u2 w2 :
  assess o s u w = (Ok (alive, check, s1, u1), w1) ->
  raisePhase n s1 u1 w1 = (Ok (s2, u2), w2) ->
  tmuxSession s2 = tmuxSession s /\
  agentName s2 = agentName s /\
  lastActivity s2 = lastActivity s /\
  state s2 = state s1 /\
  exists evs,
    trace w2 = trace w ++ evs /\
    kills evs = [] /\ nudges evs = [] /\ triaged evs = [].
Proof.
  intros Ha Hr.
  destruct (assess_quiet _ _ _ _ _ _ _ _ _ Ha) as (e0 & T0 & K0 & N0 & G0).
  destruct (assess_session _ _ _ _ _ _ _ _ _ _ _ _ Ha) as [st ->].
  destruct (emits_raisePhase_any observing n _ _ observing_clock _ _ _ Hr)
    as (e1 & T1 & _ & P1).
  apply observing_quiet in P1 as (K1 & N1 & G1).
  apply raisePhase_ok in Hr as ((lvl & since & ->) & _).
  repeat split. exists (e0 ++ e1). rewrite T1, T0, app_assoc.
  unfold kills, nudges, triaged in *.
  rewrite !omap_app, K0, K1, N0, N1, G0, G1. auto.
Qed.

Lemma monitorSession_escalate o s u w alive check s1 u1 w1 s2 u2 w2 :
  state s <> completed ->
  assess o s u w = (Ok (alive, check, s1, u1), w1) ->
  action check = ActEscalate ->
  raisePhase (default 60000 (nudgeIntervalMs o)) s1 u1 w1
    = (Ok (s2, u2), w2) ->
  monitorSession o s u w =
    match
      executeEscalationAction
        (mkCtx s2 (root o) alive (default false (tier1Enabled o))
           (opt_tmux o) (opt_triage o) (opt_nudge o)) w2
    with
    | (Ok r, w3) =>
        (Ok (if terminated r then (markZombie s2, true)
             else if stateChanged r then (s2, true) else (s2, u2)), w3)
    | (Raised e, w3) => (Raised e, w3)
    end.
Proof.
  intros Hc Ha He Hr.
  unfold monitorSession. destruct (decide _); [contradiction|].
  unfold bind. rewrite Ha. unfold act. rewrite He.
  unfold escalate, bind. rewrite Hr.
  destruct (executeEscalationAction _ w2) as [[r|e] w3]; [|reflexivity].
  destruct (terminated r); [reflexivity|].
  now destruct (stateChanged r).
Qed.

(** X12. Under an [escalate] verdict, at level 0, and at level 2 when
    triage is not enabled, the tick takes no action: no kill, nudge or
    triage call; the session keeps running with the escalation fields the
    raise left and the flag the raise left. *)
Theorem warning_levels_take_no_action
    o s u w alive check s1 u1 w1 s2 u2 w2 :
  state s <> completed ->
  assess o s u w = (Ok (alive, check, s1, u1), w1) ->
  action check = ActEscalate ->
  raisePhase (default 60000 (nudgeIntervalMs o)) s1 u1 w1
    = (Ok (s2, u2), w2) ->
  escalationLevel s2 = 0 \/
    (escalationLevel s2 = 2 /\ tier1Enabled o <> Some true) ->
  monitorSession o s u w = (Ok (s2, u2), w2) /\
  state s2 = state s1 /\
  exists evs,
    trace w2 = trace w ++ evs /\
    kills evs = [] /\ nudges evs = [] /\ triaged evs = [].
Proof.
  intros Hc Ha He Hr Hl.
  destruct (before_action _ _ _ _ _ _ _ _ _ _ _ _ _ Ha Hr)
    as (_ & _ & _ & Hst & Hev).
  split; [|split; [exact Hst|exact Hev]].
  rewrite (monitorSession_escalate _ _ _ _ _ _ _ _ _ _ _ _ Hc Ha He Hr).
  unfold executeEscalationAction. cbn [ctx_session ctx_tier1Enabled].
  destruct Hl as [-> | [-> Ht]]; [reflexivity|].
  destruct (tier1Enabled o) as [[|]|]; [congruence|reflexivity..].
Qed.

(** X13. Under an [escalate] verdict at level 1 the tick sends exactly one
    nudge, forced, with the fixed stall notice naming the agent, to the
    agent of the session under the root of the options; whether the nudge
    returns or throws, the session keeps running, and there is no kill and
    no triage call. *)
Theorem level_one_sends_one_forced_nudge
    o s u w alive check s1 u1 w1 s2 u2 w2 :
  state s <> completed ->
  assess o s u w = (Ok (alive, check, s1, u1), w1) ->
  action check = ActEscalate ->
  raisePhase (default 60000 (nudgeIntervalMs o)) s1 u1 w1
    = (Ok (s2, u2), w2) ->
  escalationLevel s2 = 1 ->
  exists w' evs,
    monitorSession o s u w = (Ok (s2, u2), w') /\
    trace w' = trace w ++ evs /\
    nudges evs =
      [(root o, agentName s, stalledMessage (agentName s), true)] /\
    kills evs = [] /\ triaged evs = [].
Proof.
  intros Hc Ha He Hr Hl.
  destruct (before_action _ _ _ _ _ _ _ _ _ _ _ _ _ Ha Hr)
    as (_ & Hn & _ & _ & evs & T & K & N & G).
  rewrite (monitorSession_escalate _ _ _ _ _ _ _ _ _ _ _ _ Hc Ha He Hr).
  unfold executeEscalationAction. cbn [ctx_session]. rewrite Hl.
  cbn. eexists _, (evs ++ [_]). split; [reflexivity|].
  cbn. rewrite T, <- app_assoc. split; [reflexivity|].
  unfold kills, nudges, triaged in *. rewrite !omap_app, K, N, G. cbn.
  now rewrite Hn.
Qed.

(** X14. Under an [escalate] verdict at level 2 with triage enabled, a
    verdict other than [terminate] spares the session: triage is called
    once with the agent name, the root and the last activity of the
    session; [retry] is followed by one forced recovery nudge and [extend]
    by nothing; there is no kill and the session keeps running. *)
Theorem triage_spares_unless_terminate
    o s u w alive check s1 u1 w1 s2 u2 w2 verdict :
  state s <> completed ->
  assess o s u w = (Ok (alive, check, s1, u1), w1) ->
  action check = ActEscalate ->
  raisePhase (default 60000 (nudgeIntervalMs o)) s1 u1 w1
    = (Ok (s2, u2), w2) ->
  escalationLevel s2 = 2 ->
  tier1Enabled o = Some true ->
  opt_triage o (trace w2)
    (mkTriageOptions (agentName s) (root o) (lastActivity s)) = Ok verdict ->
  verdict <> TriageTerminate ->
  exists w' evs,
    monitorSession o s u w = (Ok (s2, u2), w') /\
    trace w' = trace w ++ evs /\
    triaged evs = [mkTriageOptions (agentName s) (root o) (lastActivity s)] /\
    nudges evs =
      (if decide (verdict = TriageRetry)
       then [(root o, agentName s, recoveryMessage, true)] else []) /\
    kills evs = [].
Proof.
  intros Hc Ha He Hr Hl H1 Ht Hv.
  destruct (before_action _ _ _ _ _ _ _ _ _ _ _ _ _ Ha Hr)
    as (_ & Hn & Hla & _ & evs & T & K & N & G).
  rewrite (monitorSession_escalate _ _ _ _ _ _ _ _ _ _ _ _ Hc Ha He Hr).
  unfold executeEscalationAction.
  cbn [ctx_session ctx_tier1Enabled ctx_triage ctx_root ctx_nudge].
  rewrite Hl, H1, Hn, Hla. cbn -[decide]. unfold bind, call.
  rewrite Ht. destruct (decide (verdict = TriageTerminate)); [contradiction|].
  destruct (decide (verdict = TriageRetry)); cbn.
  - eexists _, (evs ++ [_; _]). split; [reflexivity|].
    cbn. rewrite T, <- !app_assoc. split; [reflexivity|].
    unfold kills, nudges, triaged in *. rewrite !omap_app, K, N, G. cbn.
    auto.
  - eexists _, (evs ++ [_]). split; [reflexivity|].
    cbn. rewrite T, <- !app_assoc. split; [reflexivity|].
    unfold kills, nudges, triaged in *. rewrite !omap_app, K, N, G. cbn.
    auto.
Qed.

(** *** The clock and the interval *)

(** X15. After three nudge intervals of an open stall episode, an
    [escalate] verdict ends in termination whatever the level the record
    held and whether or not triage is enabled: triage is not consulted, no
    nudge is sent, the backend is killed exactly when the probe found it
    alive, and the record ends as a zombie with the escalation fields
    cleared. *)
Theorem three_intervals_terminate o s u w alive check s1 u1 w1 since :
  state s <> completed ->
  assess o s u w = (Ok (alive, check, s1, u1), w1) ->
  action check = ActEscalate ->
  stalledSince s = Some since ->
  0 < default 60000 (nudgeIntervalMs o) ->
  3 * default 60000 (nudgeIntervalMs o) <= Date_now (trace w1) - since ->
  exists w' evs,
    monitorSession o s u w = (Ok (markZombie s, true), w') /\
    trace w' = trace w ++ evs /\
    kills evs = (if alive then [tmuxSession s] else []) /\
    triaged evs = [] /\ nudges evs = [].
Proof.
  intros Hc Ha He Hs Hn Hel.
  set (n := default 60000 (nudgeIntervalMs o)) in *.
  destruct (raisePhase n s1 u1 w1) as [[[s2 u2]|e] w2] eqn:Hr.
  2:{ rewrite raisePhase_spec in Hr.
      destruct (stalledSince s1); cbn zeta in Hr; discriminate. }
  destruct (before_action _ _ _ _ _ _ _ _ _ _ _ _ _ Ha Hr)
    as (Htm & _ & _ & _ & evs & T & K & N & G).
  assert (Hlvl : 3 <= escalationLevel s2).
  { destruct (assess_session _ _ _ _ _ _ _ _ _ _ _ _ Ha) as [st ->].
    rewrite raisePhase_spec in Hr. cbn [stalledSince set_state] in Hr.
    rewrite Hs in Hr. cbn zeta in Hr. injection Hr as Hr _.
    pose proof (raiseLevel_level n (Date_now (trace w1)) since
                  (set_state s st) u1 Hn) as Hl.
    rewrite Hr in Hl. cbn [fst] in Hl. rewrite Hl.
    assert (3 <= (Date_now (trace w1) - since) / n).
    { apply Z.div_le_lower_bound; lia. }
    lia. }
  assert (Hz : markZombie s2 = markZombie s).
  { destruct (assess_session _ _ _ _ _ _ _ _ _ _ _ _ Ha) as [st ->].
    now apply raisePhase_ok in Hr as ((lvl & since' & ->) & _). }
  rewrite (monitorSession_escalate _ _ _ _ _ _ _ _ _ _ _ _ Hc Ha He Hr).
  rewrite executeEscalationAction_beyond by exact Hlvl.
  cbn [ctx_tmuxAlive ctx_session ctx_tmux]. rewrite Hz, Htm.
  destruct alive; cbn.
  - eexists _, (evs ++ [_]). split; [reflexivity|].
    cbn. rewrite T, <- app_assoc. split; [reflexivity|].
    unfold kills, nudges, triaged in *. rewrite !omap_app, K, N, G.
    cbn. auto.
  - exists w2, evs. auto.
Qed.

(** X16. A nudge interval of zero is not rejected. In an open stall
    episode the raise step then jumps straight to level 3 as soon as the
    clock is past the start of the stall (the quotient is [Infinity]), and
    leaves the level alone when no time has passed ([NaN]) or the clock is
    behind the start ([-Infinity]). *)
Theorem zero_interval_jumps_to_level_three s u w since :
  stalledSince s = Some since ->
  raisePhase 0 s u w =
    (Ok (if decide (since < Date_now (trace w) /\ escalationLevel s < 3)
         then (set_escalationLevel s 3, true) else (s, u)),
     record (EvClock (Date_now (trace w))) w).
Proof.
  intros Hs. rewrite raisePhase_spec, Hs. cbn zeta. f_equal. f_equal.
  unfold raiseLevel, expectedLevel, js_floor_div, js_min, js_gt,
    MAX_ESCALATION_LEVEL.
  cbn [Z.eqb].
  destruct (Z.eqb_spec (Date_now (trace w) - since) 0).
  { destruct (decide _) as [[? ?]|]; [lia|reflexivity]. }
  destruct (Z.ltb_spec 0 (Date_now (trace w) - since)).
  - destruct (Z.ltb_spec (escalationLevel s) 3);
      destruct (decide _) as [[? ?]|Hn]; try reflexivity; lia.
  - destruct (decide _) as [[? ?]|]; [lia|reflexivity].
Qed.

(** X17. A negative nudge interval is not rejected either: in an open
    stall episode with the clock at or past its start, the raise step never
    raises a level that is not negative, so the session stays at its level
    for ever. *)
Theorem negative_interval_never_raises n s u w since :
  n < 0 ->
  stalledSince s = Some since ->
  since <= Date_now (trace w) ->
  0 <= escalationLevel s ->
  raisePhase n s u w = (Ok (s, u), record (EvClock (Date_now (trace w))) w).
Proof.
  intros Hn Hs Ht Hl. rewrite raisePhase_spec, Hs. cbn zeta. f_equal. f_equal.
  unfold raiseLevel, expectedLevel, js_floor_div, js_min, js_gt.
  destruct (Z.eqb_spec n 0); [lia|].
  assert ((Date_now (trace w) - since) / n <= 0).
  { rewrite <- Z.div_opp_opp by lia.
    apply Z.div_le_upper_bound; lia. }
  destruct (Z.ltb_spec (escalationLevel s)
              (Z.min ((Date_now (trace w) - since) / n)
                 MAX_ESCALATION_LEVEL)); [lia|reflexivity].
Qed.

(** X18. First detection: under an [escalate] verdict on a record with no
    stall episode open, the tick reads the clock twice; when less than one
    (positive) interval lies between the two reads, the record ends with
    [stalledSince] at the first read and level 0, whatever level it held,
    the flag is raised, and nothing else happens: no kill, nudge or triage
    call. *)
Theorem first_detection_opens_episode o s u w alive check s1 u1 w1 :
  state s <> completed ->
  assess o s u w = (Ok (alive, check, s1, u1), w1) ->
  action check = ActEscalate ->
  stalledSince s = None ->
  0 <= Date_now (trace w1 ++ [EvClock (Date_now (trace w1))])
       - Date_now (trace w1)
    < default 60000 (nudgeIntervalMs o) ->
  monitorSession o s u w =
    (Ok (set_escalationLevel
           (set_stalledSince s1 (Some (Date_now (trace w1)))) 0, true),
     record
       (EvClock (Date_now (trace w1 ++ [EvClock (Date_now (trace w1))])))
       (record (EvClock (Date_now (trace w1))) w1)) /\
  exists evs,
    trace w1 = trace w ++ evs /\
    kills evs = [] /\ nudges evs = [] /\ triaged evs = [].
Proof.
  intros Hc Ha He Hs Ht.
  split; [|eapply assess_quiet, Ha].
  set (n := default 60000 (nudgeIntervalMs o)) in *.
  set (t0 := Date_now (trace w1)) in *.
  set (t1 := Date_now (trace w1 ++ [EvClock t0])) in *.
  assert (Hr : raisePhase n s1 u1 w1 =
               (Ok (set_escalationLevel (set_stalledSince s1 (Some t0)) 0,
                    true),
                record (EvClock t1) (record (EvClock t0) w1))).
  { destruct (assess_session _ _ _ _ _ _ _ _ _ _ _ _ Ha) as [st ->].
    rewrite raisePhase_spec. cbn [stalledSince set_state]. rewrite Hs.
    cbn zeta. fold t0. cbn [trace record]. fold t1. f_equal. f_equal.
    unfold raiseLevel. rewrite expectedLevel_pos by lia.
    rewrite Z.div_small by lia. reflexivity. }
  rewrite (monitorSession_escalate _ _ _ _ _ _ _ _ _ _ _ _ Hc Ha He Hr).
  reflexivity.
Qed.

(** *** The scheduled run *)

(** X19. A scheduled run never throws; it leaves the world as the tick
    left it, and when the tick threw, for whatever reason, no file was
    written. *)
Theorem scheduled_run_never_throws o w :
  fst (scheduledTick o w) = Ok tt /\
  snd (scheduledTick o w) = snd (runDaemonTick o w) /\
  forall e,
    fst (runDaemonTick o w) = Raised e ->
    files (snd (scheduledTick o w)) = files w /\
    exists evs,
      trace (snd (scheduledTick o w)) = trace w ++ evs /\ writes evs = [].
Proof.
  assert (H : scheduledTick o w = (Ok tt, snd (runDaemonTick o w))).
  { unfold scheduledTick, swallow, attempt, bind, ret.
    now destruct (runDaemonTick o w). }
  rewrite H. cbn [fst snd]. repeat split.
  - destruct (tick_files o w) as (evs & T & [[W F]|(l' & R & _)]);
      [exact F|congruence].
  - destruct (tick_files o w) as (evs & T & [[W F]|(l' & R & _)]);
      [eauto|congruence].
Qed.

(** *** The state *)

Lemma monitorSession_state o s u w s' u' w' :
  (forall st check,
      transitionState st check = st \/ transitionState st check = zombie) ->
  monitorSession o s u w = (Ok (s', u'), w') ->
  state s' = state s \/ state s' = zombie.
Proof.
  intros Htr. unfold monitorSession.
  destruct (decide _); [intros [= <- <- <-]; auto|].
  unfold bind.
  destruct (assess o s u w) as [[[[[alive check] s1] u1]|e] w1] eqn:Ha;
    [|discriminate].
  assert (H1 : state s1 = state s \/ state s1 = zombie).
  { destruct (assess_ok _ _ _ _ _ _ _ _ _ _ _ _ Ha) as (_ & _ & Hs & _).
    destruct (decide _); injection Hs as -> _; [auto|]. cbn.
    destruct (Htr (state s) check); auto. }
  unfold act. destruct (action check).
  - destruct (stalledSince s1); now intros [= <- <- <-].
  - intros He. apply escalate_inv in He
      as (sr & ur & wr & r & wx & Hr & _ & -> & _).
    apply raisePhase_ok in Hr as ((lvl & since & ->) & _).
    destruct (terminated r); cbn; auto.
  - now intros [= <- <- <-].
  - unfold bind. destruct alive; cbn; intros [= <- <- <-]; cbn; auto.
Qed.

(** X20. Provided [transitionState] holds the state or moves it to
    [zombie], so does a pass: every record ends in the state it had or as
    a zombie. The tick itself assigns no state other than [zombie]; in
    particular it never marks a session [completed] and never takes a
    session back to [booting] or [working]. *)
Theorem pass_moves_state_only_to_zombie o l :
  (forall st check,
      transitionState st check = st \/ transitionState st check = zombie) ->
  forall u w l' u' w',
    monitorSessions o l u w = (Ok (l', u'), w') ->
    Forall2 (fun s s' : AgentSession =>
               state s' = state s \/ state s' = zombie) l l'.
Proof.
  intros Htr. induction l as [|s l IH]; intros u w l' u' w'.
  - intros [= <- <- <-]. constructor.
  - rewrite monitorSessions_cons.
    destruct (monitorSession o s u w) as [[[s1 u1]|e] w1] eqn:E1;
      [|discriminate].
    destruct (monitorSessions o l u1 w1) as [[[l1 u2]|e] w2] eqn:E2;
      [|discriminate].
    intros [= <- <- <-]. constructor.
    + eapply monitorSession_state; eauto.
    + eapply IH, E2.
Qed.

(** *** A write brings every record up to date *)

Lemma frameOf_stored s : frameOf (stored s) = frameOf s.
Proof. reflexivity. Qed.

Lemma frameOf_backfill r : frameOf (backfill r) = frameOf r.
Proof. reflexivity. Qed.

(** X21. When the pass over a registry raises the flag, the tick rewrites
    the whole file: the same number of records in the same order, with the
    fields the tick does not assign unchanged, and every record, also the
    completed and untouched ones, now carrying both escalation fields. *)
Theorem write_brings_every_record_up_to_date o w raws l' w1 :
  files w !! sessionsPathOf (root o) = Some (JsonArray raws) ->
  monitorSessions o (map backfill raws) false w = (Ok (l', true), w1) ->
  exists raws' : list RawSession,
    files (snd (runDaemonTick o w)) !! sessionsPathOf (root o)
      = Some (JsonArray raws') /\
    map frameOf raws' = map frameOf raws /\
    Forall (fun r : RawSession =>
              is_Some (escalationLevel r) /\ is_Some (stalledSince r))
      raws'.
Proof.
  intros Hf Hm. rewrite runDaemonTick_cases, Hf. cbn [parseRegistry].
  rewrite Hm. cbn. exists (map stored l'). rewrite lookup_insert_eq.
  split; [reflexivity|]. split.
  - pose proof (monitorSessions_frame _ _ _ _ _ _ _ Hm) as Hk.
    transitivity (map (@frameOf Z (option Z)) l').
    + rewrite map_map. now apply map_ext.
    + rewrite Hk, map_map. now apply map_ext.
  - rewrite Forall_map. apply Forall_true. intros s. cbn. eauto.
Qed.

End Further.

(* ================================================================== *)
(** ** The further properties on the scenarios *)

Section FurtherInstances.

Import Scenario.

Local Abbreviation assessAt t :=
  (assess (frozenClock t) SpecHealth.evaluateHealth
     SpecHealth.transitionState).
Local Abbreviation sessionAt t :=
  (monitorSession (frozenClock t) SpecHealth.evaluateHealth
     SpecHealth.transitionState).
Local Abbreviation passAt t :=
  (monitorSessions (frozenClock t) SpecHealth.evaluateHealth
     SpecHealth.transitionState).
Local Abbreviation tickAt t :=
  (runDaemonTick (frozenClock t) SpecHealth.evaluateHealth
     SpecHealth.transitionState).
Local Abbreviation scheduledAt t :=
  (scheduledTick (frozenClock t) SpecHealth.evaluateHealth
     SpecHealth.transitionState).

(** A project without a registry file. *)
Lemma tick_without_registry_witness :
  let o := options true (Some observerOk) (tmuxWith [tmuxA])
             (triageAlways TriageExtend) in
  tickAt T0 o (mkWorld [] ∅) = (Ok tt, mkWorld [] ∅).
Proof.
  intros o.
  apply (tick_without_registry (frozenClock T0) SpecHealth.evaluateHealth
           SpecHealth.transitionState o (mkWorld [] ∅)).
  left. reflexivity.
Defined.

(** A registry file that is not JSON. *)
Lemma tick_on_malformed_registry_witness :
  let o := options true (Some observerOk) (tmuxWith [tmuxA])
             (triageAlways TriageExtend) in
  tickAt T0 o (disk NotJson) = (Raised "SyntaxError"%string, disk NotJson) /\
  scheduledAt T0 o (disk NotJson) = (Ok tt, disk NotJson).
Proof.
  intros o.
  apply (tick_on_malformed_registry (frozenClock T0)
           SpecHealth.evaluateHealth SpecHealth.transitionState o
           (disk NotJson)).
  reflexivity.
Defined.

(** A dead session and a healthy one: the file reads back as the pass
    left the records. *)
Lemma registry_agrees_with_pass_witness :
  let o := options false None (tmuxWith [tmuxB]) (triageAlways TriageExtend) in
  let w := disk (JsonArray (map stored deadThenHealthy)) in
  fst (tickAt T0 o w) = Ok tt /\
  parseRegistry (files (snd (tickAt T0 o w)) !! sessionsPathOf (root o))
    = Ok [markZombie (session "a" working (T0 - 1000) 0 None);
          session "b" working (T0 - 1000) 0 None].
Proof.
  intros o w.
  eapply (registry_agrees_with_pass (frozenClock T0)
            SpecHealth.evaluateHealth SpecHealth.transitionState o w
            deadThenHealthy).
  - vm_compute. reflexivity.
  - vm_compute. reflexivity.
Defined.

Lemma pass_keeps_records_witness :
  let o := options true None (tmuxWith [tmuxA]) (triageAlways TriageTerminate) in
  let l := [atTriage; session "b" working (T0 - 1000) 0 None] in
  let w := disk (JsonArray (map stored l)) in
  map frameOf
    [markZombie atTriage; markZombie (session "b" working (T0 - 1000) 0 None)]
    = map frameOf l /\
  length
    [markZombie atTriage; markZombie (session "b" working (T0 - 1000) 0 None)]
    = length l.
Proof.
  intros o l w.
  eapply (pass_keeps_records (frozenClock T0) SpecHealth.evaluateHealth
            SpecHealth.transitionState o l false w).
  vm_compute. reflexivity.
Defined.

Lemma pass_keeps_level_in_range_witness :
  let o := options false None (tmuxWith [tmuxA; tmuxB])
             (triageAlways TriageExtend) in
  let w := disk (JsonArray (map stored stalledThenHealthy)) in
  Forall levelInRange
    [session "a" working (T0 - 200000) 2 (Some (T0 - 125000));
     session "b" working (T0 - 1000) 0 None].
Proof.
  intros o w.
  eapply (pass_keeps_level_in_range (frozenClock T0)
            SpecHealth.evaluateHealth SpecHealth.transitionState o
            stalledThenHealthy false w).
  - repeat constructor; unfold MAX_ESCALATION_LEVEL; cbn; lia.
  - vm_compute. reflexivity.
Defined.

(** Triage left at its default: a session at level 2 is not triaged. *)
Lemma triage_only_when_enabled_witness :
  let o := mkOptions "/proj" 60000 600000 None None None (tmuxWith [tmuxA])
             triageFails nudgeDelivered in
  let w := disk (JsonArray [stored atTriage]) in
  exists evs,
    trace (snd (tickAt T0 o w)) = trace w ++ evs /\ triaged evs = [].
Proof.
  intros o w.
  apply (triage_only_when_enabled (frozenClock T0)
           SpecHealth.evaluateHealth SpecHealth.transitionState o w).
  discriminate.
Defined.

(** A session with an episode open that is active again. *)
Lemma recovery_resets_escalation_witness :
  let o := options false (Some observerOk) (tmuxWith [tmuxA])
             (triageAlways TriageExtend) in
  let s := session "a" working (T0 - 1000) 2 (Some (T0 - 125000)) in
  let w := disk (JsonArray [stored s]) in
  let w1 := snd (assessAt T0 o s false w) in
  sessionAt T0 o s false w = (Ok (resetEscalation s, true), w1) /\
  stalledSince (resetEscalation s) = None /\
  escalationLevel (resetEscalation s) = 0 /\
  state (resetEscalation s) = state s /\
  exists evs,
    trace w1 = trace w ++ evs /\
    kills evs = [] /\ nudges evs = [] /\ triaged evs = [].
Proof.
  intros o s w w1.
  eapply (recovery_resets_escalation (frozenClock T0)
            SpecHealth.evaluateHealth SpecHealth.transitionState o s false w
            true _ s false w1 (T0 - 125000)).
  - discriminate.
  - vm_compute. reflexivity.
  - reflexivity.
  - reflexivity.
Defined.

(** A zombie record whose backend is alive. *)
Lemma investigate_and_healthy_change_nothing_witness :
  let o := options true (Some observerOk) (tmuxWith [tmuxA])
             (triageAlways TriageTerminate) in
  let s := session "a" zombie (T0 - 700000) 0 None in
  let w := disk (JsonArray [stored s]) in
  let w1 := snd (assessAt T0 o s false w) in
  sessionAt T0 o s false w = (Ok (s, false), w1) /\
  escalationLevel s = escalationLevel s /\
  stalledSince s = stalledSince s /\
  exists evs,
    trace w1 = trace w ++ evs /\
    kills evs = [] /\ nudges evs = [] /\ triaged evs = [].
Proof.
  intros o s w w1.
  eapply (investigate_and_healthy_change_nothing (frozenClock T0)
            SpecHealth.evaluateHealth SpecHealth.transitionState o s false w
            true _ s false w1).
  - discriminate.
  - vm_compute. reflexivity.
  - left. reflexivity.
Defined.

(** Scenario B: stalled for 125 s, triage not enabled. *)
Lemma warning_levels_take_no_action_witness :
  let o := options false None (tmuxWith [tmuxA]) triageFails in
  let s := session "a" working (T0 - 200000) 1 (Some (T0 - 125000)) in
  let w := disk (JsonArray [stored s]) in
  let w1 := snd (assessAt T0 o s false w) in
  let s2 := set_escalationLevel s 2 in
  let w2 := record (EvClock T0) w1 in
  sessionAt T0 o s false w = (Ok (s2, true), w2) /\
  state s2 = state s /\
  exists evs,
    trace w2 = trace w ++ evs /\
    kills evs = [] /\ nudges evs = [] /\ triaged evs = [].
Proof.
  intros o s w w1 s2 w2.
  eapply (warning_levels_take_no_action (frozenClock T0)
            SpecHealth.evaluateHealth SpecHealth.transitionState o s false w
            true _ s false w1 s2 true w2).
  - discriminate.
  - vm_compute. reflexivity.
  - reflexivity.
  - vm_compute. reflexivity.
  - right. split; [reflexivity|discriminate].
Defined.

(** Stalled for 65 s, and the nudge throws. *)
Lemma level_one_sends_one_forced_nudge_witness :
  let o := optionsWith false None (tmuxWith [tmuxA])
             (triageAlways TriageExtend) nudgeFails in
  let s := session "a" working (T0 - 200000) 0 (Some (T0 - 65000)) in
  let w := disk (JsonArray [stored s]) in
  exists w' evs,
    sessionAt T0 o s false w = (Ok (set_escalationLevel s 1, true), w') /\
    trace w' = trace w ++ evs /\
    nudges evs =
      [(root o, agentName s, stalledMessage (agentName s), true)] /\
    kills evs = [] /\ triaged evs = [].
Proof.
  intros o s w.
  eapply (level_one_sends_one_forced_nudge (frozenClock T0)
            SpecHealth.evaluateHealth SpecHealth.transitionState o s false w
            true _ s false _ (set_escalationLevel s 1) true).
  - discriminate.
  - vm_compute. reflexivity.
  - reflexivity.
  - vm_compute. reflexivity.
  - reflexivity.
Defined.

(** At level 2, triage says [retry]. *)
Lemma triage_spares_unless_terminate_witness :
  let o := options true None (tmuxWith [tmuxA]) (triageAlways TriageRetry) in
  let s := atTriage in
  let w := disk (JsonArray [stored s]) in
  exists w' evs,
    sessionAt T0 o s false w = (Ok (s, false), w') /\
    trace w' = trace w ++ evs /\
    triaged evs = [mkTriageOptions (agentName s) (root o) (lastActivity s)] /\
    nudges evs =
      (if decide (TriageRetry = TriageRetry)
       then [(root o, agentName s, recoveryMessage, true)] else []) /\
    kills evs = [].
Proof.
  intros o s w.
  eapply (triage_spares_unless_terminate (frozenClock T0)
            SpecHealth.evaluateHealth SpecHealth.transitionState o s false w
            true _ s false _ s false _ TriageRetry).
  - discriminate.
  - vm_compute. reflexivity.
  - reflexivity.
  - vm_compute. reflexivity.
  - reflexivity.
  - reflexivity.
  - reflexivity.
  - discriminate.
Defined.

(** Stalled for 185 s, still recorded at level 0, triage enabled. *)
Lemma three_intervals_terminate_witness :
  let o := options true None (tmuxWith [tmuxA]) triageFails in
  let s := session "a" working (T0 - 200000) 0 (Some (T0 - 185000)) in
  let w := disk (JsonArray [stored s]) in
  exists w' evs,
    sessionAt T0 o s false w = (Ok (markZombie s, true), w') /\
    trace w' = trace w ++ evs /\
    kills evs = (if true then [tmuxSession s] else []) /\
    triaged evs = [] /\ nudges evs = [].
Proof.
  intros o s w.
  eapply (three_intervals_terminate (frozenClock T0)
            SpecHealth.evaluateHealth SpecHealth.transitionState o s false w
            true _ s false _ (T0 - 185000)).
  - discriminate.
  - vm_compute. reflexivity.
  - reflexivity.
  - reflexivity.
  - reflexivity.
  - vm_compute. discriminate.
Defined.

(** An interval of zero, one millisecond after the start of the stall. *)
Lemma zero_interval_jumps_to_level_three_witness :
  let s := session "a" working (T0 - 200000) 0 (Some (T0 - 1)) in
  let w := disk (JsonArray [stored s]) in
  raisePhase (frozenClock T0) 0 s false w =
    (Ok (if decide (T0 - 1 < frozenClock T0 (trace w) /\
                    escalationLevel s < 3)
         then (set_escalationLevel s 3, true) else (s, false)),
     record (EvClock (frozenClock T0 (trace w))) w).
Proof.
  intros s w.
  apply (zero_interval_jumps_to_level_three (frozenClock T0) s false w
           (T0 - 1)).
  reflexivity.
Defined.

(** An interval of minus one minute, an hour into the stall. *)
Lemma negative_interval_never_raises_witness :
  let s := session "a" working (T0 - 4000000) 0 (Some (T0 - 3600000)) in
  let w := disk (JsonArray [stored s]) in
  raisePhase (frozenClock T0) (-60000) s false w =
    (Ok (s, false), record (EvClock (frozenClock T0 (trace w))) w).
Proof.
  intros s w.
  apply (negative_interval_never_raises (frozenClock T0) (-60000) s false w
           (T0 - 3600000)).
  - lia.
  - reflexivity.
  - unfold frozenClock. lia.
  - cbn. lia.
Defined.

(** Scenario A, on a record that still holds a level from an earlier
    episode. *)
Lemma first_detection_opens_episode_witness :
  let o := options true None (tmuxWith [tmuxA]) triageFails in
  let s := session "a" working (T0 - 90000) 2 None in
  let w := disk (JsonArray [stored s]) in
  let w1 := snd (assessAt T0 o s false w) in
  sessionAt T0 o s false w =
    (Ok (set_escalationLevel
           (set_stalledSince s (Some (frozenClock T0 (trace w1)))) 0, true),
     record
       (EvClock
          (frozenClock T0
             (trace w1 ++ [EvClock (frozenClock T0 (trace w1))])))
       (record (EvClock (frozenClock T0 (trace w1))) w1)) /\
  exists evs,
    trace w1 = trace w ++ evs /\
    kills evs = [] /\ nudges evs = [] /\ triaged evs = [].
Proof.
  intros o s w w1.
  eapply (first_detection_opens_episode (frozenClock T0)
            SpecHealth.evaluateHealth SpecHealth.transitionState o s false w
            true _ s false w1).
  - discriminate.
  - vm_compute. reflexivity.
  - reflexivity.
  - reflexivity.
  - vm_compute. split; [discriminate|reflexivity].
Defined.

Lemma pass_moves_state_only_to_zombie_witness :
  let o := options false None (tmuxWith [tmuxB]) (triageAlways TriageExtend) in
  let w := disk (JsonArray (map stored deadThenHealthy)) in
  Forall2 (fun s s' : AgentSession =>
             state s' = state s \/ state s' = zombie)
    deadThenHealthy
    [markZombie (session "a" working (T0 - 1000) 0 None);
     session "b" working (T0 - 1000) 0 None].
Proof.
  intros o w.
  eapply (fun H =>
            pass_moves_state_only_to_zombie (frozenClock T0)
              SpecHealth.evaluateHealth SpecHealth.transitionState o
              deadThenHealthy H false w).
  - intros st check. unfold SpecHealth.transitionState.
    destruct (action check); auto.
  - vm_compute. reflexivity.
Defined.

(** A legacy registry with a completed record and a dead session. *)
Lemma write_brings_every_record_up_to_date_witness :
  let o := options false None (tmuxWith []) (triageAlways TriageExtend) in
  let raws := [legacy "c" completed (T0 - 700000);
               legacy "a" working (T0 - 1000)] in
  let w := disk (JsonArray raws) in
  exists raws' : list RawSession,
    files (snd (tickAt T0 o w)) !! sessionsPathOf (root o)
      = Some (JsonArray raws') /\
    map frameOf raws' = map frameOf raws /\
    Forall (fun r : RawSession =>
              is_Some (escalationLevel r) /\ is_Some (stalledSince r))
      raws'.
Proof.
  intros o raws w.
  eapply (write_brings_every_record_up_to_date (frozenClock T0)
            SpecHealth.evaluateHealth SpecHealth.transitionState o w raws).
  - reflexivity.
  - vm_compute. reflexivity.
Defined.

End FurtherInstances.
